(** * Voice recorder: recording / playback lifecycle

    A shallow embedding of the coordination core of the voice-recorder
    application:

    - [src/hooks/useAudioRecorder.ts]  (the recorder hook, its filename codec
      and its registry),
    - [src/hooks/useAudioPlayer.ts]    (the player hook),
    - [src/services/AudioService.ts]   (the service the screens drive).

    The platform (expo-av, expo-file-system, the clock, the console) is the
    environment: it is modelled as a world that the operations thread through
    an error-and-state monad, every call to it being recorded in a trace. *)

From Stdlib Require Import ZArith QArith Qabs Qround Ascii String List Lia.
From Stdlib Require Import Decimal DecimalString DecimalPos.
From stdpp Require Import base list gmap strings sorting.

Local Open Scope string_scope.
Local Open Scope Z_scope.

(** ** JavaScript values *)

Module JS.

(** A JavaScript number. Finite values are kept as exact rationals: the
    integers the program computes with (millisecond clock readings and their
    differences) are far below 2^53 and therefore exact as doubles; rounding
    and overflow of doubles are not modelled. A value that is not a double
    (an integer beyond 2^53, a decimal fraction) is rounded by the engine
    and kept as it is here: the model is exact on the runs of digits the
    recorder and the service write into their names, whose values are dates
    (at most 8.64e15). *)
Inductive number :=
| Num (q : Q)
| NaN
| Infinity (negative : bool).

Definition of_Z (z : Z) : number := Num (inject_Z z).

(** [a - b] on numbers. *)
Definition sub (a b : number) : number :=
  match a, b with
  | NaN, _ | _, NaN => NaN
  | Num x, Num y => Num (Qminus x y)
  | Infinity s, Num _ => Infinity s
  | Num _, Infinity s => Infinity (negb s)
  | Infinity s, Infinity s' => if Bool.eqb s s' then NaN else Infinity s
  end.

(** [Math.round]: the nearest integer, ties towards +Infinity. *)
Definition Math_round (x : Q) : Z := Qfloor (Qplus x (1 # 2)).

(** A [Date] object: its time value is an integral number of milliseconds,
    or NaN (an Invalid Date). *)
Inductive Date :=
| DateAt (ms : Z)
| InvalidDate.

(** [new Date(v)] for a number [v]: TimeClip truncates towards zero and
    rejects what is not finite or beyond 8.64e15 in magnitude. *)
Definition new_Date (v : number) : Date :=
  match v with
  | Num q =>
      if Qle_bool (Qabs q) (inject_Z 8640000000000000)
      then DateAt (Z.quot (Qnum q) (Z.pos (Qden q)))
      else InvalidDate
  | _ => InvalidDate
  end.

Definition getTime (d : Date) : number :=
  match d with
  | DateAt ms => of_Z ms
  | InvalidDate => NaN
  end.

(** *** Strings

    A string is a sequence of code units below 256: names with other
    characters are outside the model. *)

(** [s.split(sep)] for a one-character separator: never empty. *)
Fixpoint split (sep : ascii) (s : string) : list string :=
  match s with
  | EmptyString => [EmptyString]
  | String c s' =>
      if Ascii.eqb c sep then EmptyString :: split sep s'
      else match split sep s' with
           | [] => [String c EmptyString]
           | p :: ps => String c p :: ps
           end
  end.

Fixpoint strip_prefix (p s : string) : option string :=
  match p, s with
  | EmptyString, _ => Some s
  | String a p', String b s' =>
      if Ascii.eqb a b then strip_prefix p' s' else None
  | String _ _, EmptyString => None
  end.

(** [s.replace(pat, rep)] for a string pattern: the first occurrence only. *)
Fixpoint replace (pat rep s : string) {struct s} : string :=
  match strip_prefix pat s with
  | Some rest => rep +:+ rest
  | None =>
      match s with
      | EmptyString => EmptyString
      | String c s' => String c (replace pat rep s')
      end
  end.

(** Whether the character [c] occurs in [s]. *)
Fixpoint contains (c : ascii) (s : string) : bool :=
  match s with
  | EmptyString => false
  | String a s' => Ascii.eqb a c || contains c s'
  end.

Fixpoint all_chars (p : ascii -> bool) (s : string) : bool :=
  match s with
  | EmptyString => true
  | String a s' => p a && all_chars p s'
  end.

(** [s.endsWith(suffix)]. *)
Fixpoint endsWith (s suffix : string) : bool :=
  if String.eqb s suffix then true
  else match s with
       | EmptyString => false
       | String _ s' => endsWith s' suffix
       end.

(** Truthiness of a string: the empty string is falsy. *)
Definition truthy (s : string) : bool := negb (String.eqb s EmptyString).

(** *** Numeric literals *)

Definition is_digit (c : ascii) : bool :=
  let n := N_of_ascii c in ((48 <=? n) && (n <=? 57))%N.

(** StrWhiteSpaceChar among the code units below 256: TAB, LF, VT, FF, CR,
    SP and NBSP. The white space beyond (U+1680, U+2000 to U+200A, U+2028,
    U+2029, U+202F, U+205F, U+3000, U+FEFF) is not a character of the
    model's strings. *)
Definition is_space (c : ascii) : bool :=
  let n := N_of_ascii c in
  ((n =? 9) || (n =? 10) || (n =? 11) || (n =? 12) || (n =? 13)
   || (n =? 32) || (n =? 160))%N.

Fixpoint span (p : ascii -> bool) (s : string) : string * string :=
  match s with
  | EmptyString => (EmptyString, EmptyString)
  | String c s' =>
      if p c then let '(a, b) := span p s' in (String c a, b)
      else (EmptyString, s)
  end.

Fixpoint drop_while (p : ascii -> bool) (s : string) : string :=
  match s with
  | EmptyString => EmptyString
  | String c s' => if p c then drop_while p s' else s
  end.

Definition trim_start (s : string) : string := drop_while is_space s.

Fixpoint trim_end (s : string) : string :=
  match s with
  | EmptyString => EmptyString
  | String c s' =>
      match trim_end s' with
      | EmptyString => if is_space c then EmptyString else String c EmptyString
      | r => String c r
      end
  end.

Definition trim (s : string) : string := trim_end (trim_start s).

(** The value of a run of decimal digits (0 for the empty run). *)
Definition digits_value (ds : string) : Z :=
  match NilEmpty.uint_of_string ds with
  | Some d => Z.of_uint d
  | None => 0
  end.

Definition digit_in (radix : Z) (c : ascii) : option Z :=
  let n := Z.of_N (N_of_ascii c) in
  let v :=
    if (48 <=? n) && (n <=? 57) then Some (n - 48)
    else if (97 <=? n) && (n <=? 122) then Some (n - 87)
    else if (65 <=? n) && (n <=? 90) then Some (n - 55)
    else None in
  match v with
  | Some d => if d <? radix then Some d else None
  | None => None
  end.

(** The value of a run of digits in [radix], [None] when a character is
    not a digit of that radix. *)
Fixpoint radix_value (radix : Z) (acc : Z) (s : string) : option Z :=
  match s with
  | EmptyString => Some acc
  | String c s' =>
      match digit_in radix c with
      | Some d => radix_value radix (radix * acc + d) s'
      | None => None
      end
  end.

(** NonDecimalIntegerLiteral: [0x..], [0o..], [0b..] with at least one
    digit; no sign. *)
Definition radix_of (k : ascii) : option Z :=
  if Ascii.eqb k "x" || Ascii.eqb k "X" then Some 16
  else if Ascii.eqb k "o" || Ascii.eqb k "O" then Some 8
  else if Ascii.eqb k "b" || Ascii.eqb k "B" then Some 2
  else None.

Definition non_decimal_literal (s : string) : option Z :=
  match s with
  | String c (String k ds) =>
      if Ascii.eqb c "0" then
        match radix_of k, ds with
        | Some r, String _ _ => radix_value r 0 ds
        | _, _ => None
        end
      else None
  | _ => None
  end.

(** An optional sign in front: whether it is a minus, and what follows. *)
Definition strip_sign (s : string) : bool * string :=
  match s with
  | String c r =>
      if Ascii.eqb c "-" then (true, r)
      else if Ascii.eqb c "+" then (false, r)
      else (false, s)
  | EmptyString => (false, s)
  end.

(** ExponentPart, or nothing: [e] or [E], an optional sign and at least
    one digit, up to the end of the string. *)
Definition exponent_part (s : string) : option Z :=
  match s with
  | EmptyString => Some 0
  | String e s' =>
      if Ascii.eqb e "e" || Ascii.eqb e "E" then
        let '(neg, ds) := strip_sign s' in
        match span is_digit ds with
        | (String c d, EmptyString) =>
            let v := digits_value (String c d) in
            Some (if neg then - v else v)
        | _ => None
        end
      else None
  end.

Definition pow10 (e : Z) : Q :=
  if 0 <=? e then inject_Z (10 ^ e) else Qinv (inject_Z (10 ^ (- e))).

(** StrUnsignedDecimalLiteral other than [Infinity]: digits, an optional
    fraction, an optional exponent; at least one digit before or after the
    point. *)
Definition unsigned_decimal (s : string) : option Q :=
  let '(ip, rest) := span is_digit s in
  let '(fp, rest') :=
    match rest with
    | String c r =>
        if Ascii.eqb c "." then span is_digit r else (EmptyString, rest)
    | EmptyString => (EmptyString, rest)
    end in
  if String.eqb ip EmptyString && String.eqb fp EmptyString then None
  else
    match exponent_part rest' with
    | Some e =>
        let mant :=
          Qplus (inject_Z (digits_value ip))
                (Qmult (inject_Z (digits_value fp))
                       (pow10 (- Z.of_nat (String.length fp)))) in
        Some (if (e =? 0) then mant else Qmult mant (pow10 e))
    | None => None
    end.

(** [Number(s)]: StringToNumber. Surrounding white space is dropped, the
    empty string is 0, and anything that is not a numeric literal as a
    whole is NaN. *)
Definition Number (s : string) : number :=
  let t := trim s in
  if String.eqb t EmptyString then of_Z 0
  else
    match non_decimal_literal t with
    | Some z => of_Z z
    | None =>
        let '(neg, u) := strip_sign t in
        if String.eqb u "Infinity" then Infinity neg
        else
          match unsigned_decimal u with
          | Some q => Num (if neg then Qopp q else q)
          | None => NaN
          end
    end.

(** [parseInt(s)]: leading white space, an optional sign, an optional
    [0x] prefix, then the longest run of digits; NaN when that run is
    empty. *)
Definition parseInt (s : string) : number :=
  let t := trim_start s in
  let '(neg, u) := strip_sign t in
  let '(radix, body) :=
    match u with
    | String c (String k r) =>
        if Ascii.eqb c "0" && (Ascii.eqb k "x" || Ascii.eqb k "X")
        then (16, r) else (10, u)
    | _ => (10, u)
    end in
  let '(ds, _) := span (fun c => bool_decide (is_Some (digit_in radix c))) body in
  match ds, radix_value radix 0 ds with
  | String _ _, Some v => of_Z (if neg then - v else v)
  | _, _ => NaN
  end.

(** [String(n)] for an integral number below 10^21 in magnitude (what a
    template literal does with a clock reading): plain decimal digits, with
    a minus sign for a negative one. *)
Definition Number_toString (z : Z) : string :=
  NilZero.string_of_int (Z.to_int z).

End JS.

Import JS.

(** ** The filename codec and the clip descriptors *)

(** [Recording] of [useAudioRecorder.ts]. *)
Record Recording := mkRecording {
  id : string;
  uri : string;
  fileName : string;
  duration : number;
  createdAt : Date;
}.

(** [AudioFile] of [AudioService.ts]; its fields carry a prefix, their
    names being those of [Recording]. *)
Record AudioFile := mkAudioFile {
  af_id : string;
  af_uri : string;
  af_filename : string;
  af_duration : number;
  af_createdAt : Date;
}.

Module Codec.

(** What the mapper of [loadRecordings] reads out of a file name. *)
Record Decoded := mkDecoded {
  d_id : string;
  d_timestamp : number;
  d_duration : number;
}.

(** [stopRecording], line 180:
    [`${id}_${timestamp}_${Math.round(duration)}.wav`]. *)
Definition encode (id : string) (timestamp : Z) (duration : Q) : string :=
  id +:+ "_" +:+ Number_toString timestamp +:+ "_"
     +:+ Number_toString (Math_round duration) +:+ ".wav".

(** The [try] block of the mapper (lines 74-77). [parts[1].replace] throws
    a TypeError when there is no second segment: that is [None]. Nothing
    else in the block can throw. *)
Definition try_decode (parts : list string) : option Decoded :=
  let id := nth 0 parts EmptyString in
  match parts !! 1%nat with
  | None => None
  | Some p1 =>
      let timestamp := Number (replace ".wav" "" p1) in
      let duration :=
        if (2 <? length parts)%nat then Number (nth 2 parts EmptyString)
        else of_Z 0 in
      Some (mkDecoded id timestamp duration)
  end.

(** Lines 71-86: split, try, and the fallbacks of the [catch]; [now] is
    what [Date.now()] answers there. *)
Definition decode (now : Z) (fileName : string) : Decoded :=
  let parts := split "_" fileName in
  match try_decode parts with
  | Some d => d
  | None => mkDecoded fileName (of_Z now) (of_Z 0)
  end.

(** Lines 88-94: the registry entry built from the decoded name. *)
Definition recordingOf (uri fileName : string) (d : Decoded) : Recording :=
  mkRecording (d_id d) uri fileName (d_duration d) (new_Date (d_timestamp d)).

(** [getRecordings] of the service, line 153:
    [filename.split('_')[1]?.split('.')[0]], [None] when that is undefined
    or the empty string (both falsy, so that [||] takes its right side). *)
Definition service_id_segment (filename : string) : option string :=
  match split "_" filename !! 1%nat with
  | None => None
  | Some p1 =>
      let seg := nth 0 (split "." p1) EmptyString in
      if truthy seg then Some seg else None
  end.

(** Lines 154-162 of the service: the entry for an id. *)
Definition service_entry (id uri filename : string) : AudioFile :=
  let timestamp := parseInt id in
  mkAudioFile id uri filename (of_Z 0) (new_Date timestamp).

(** Lines 153-162 of the service; [now] is what [Date.now()] answers when
    the id falls back to it. *)
Definition service_decode (now : Z) (uri filename : string) : AudioFile :=
  let id :=
    match service_id_segment filename with
    | Some seg => seg
    | None => Number_toString now
    end in
  service_entry id uri filename.

End Codec.

(** ** [Array.prototype.sort]

    ECMAScript fixes the result of a sort only for a consistent comparator:
    it is then the one arrangement in the comparator's order that keeps
    equal elements in their order (the sort is stable). The comparator of
    the registries is consistent exactly when every date is valid; next to
    an Invalid Date it answers NaN, which the sort takes for +0, and the
    order is left to the engine. The model is the algorithm of V8 (TimSort)
    on an array of fewer than 64 elements: the run at the start of the
    array is found, reversed when it is strictly descending, and the
    elements after it are put in by binary insertion. On a longer array V8
    cuts several runs and merges them, which gives the same arrangement
    whenever the comparator is consistent; with an Invalid Date among 64
    entries or more the model is not the engine's order. *)

Module ArraySort.
Section Sort.
Context {A : Type} (comparefn : A -> A -> number).

(** Whether the comparator's answer [v] is negative; NaN counts as +0. *)
Definition negative (v : number) : bool :=
  match v with
  | Num q => negb (Qle_bool 0 q)
  | NaN => false
  | Infinity negative => negative
  end.

(** [order < 0] for the comparator's answer on [(x, y)]: [x] is to come
    before [y]. *)
Definition precedes (x y : A) : bool := negative (comparefn x y).

(** The elements that go on with the run after [previous]: each one is
    compared with the one before it, and the run ends at the first one that
    does not relate to it as the run goes ([order < 0] in a descending run,
    [order >= 0] otherwise). *)
Fixpoint run_rest (descending : bool) (previous : A) (l : list A)
  : list A * list A :=
  match l with
  | [] => ([], [])
  | current :: l' =>
      if Bool.eqb (precedes current previous) descending
      then let '(run, rest) := run_rest descending current l' in
           (current :: run, rest)
      else ([], l)
  end.

(** The run at the start of the array, in order, and what follows it: the
    run is descending when the second element compares below the first,
    and a descending run is reversed. *)
Definition count_and_make_run (l : list A) : list A * list A :=
  match l with
  | low :: second :: l' =>
      let descending := precedes second low in
      let '(run, rest) := run_rest descending second l' in
      (if descending then rev (low :: second :: run)
       else low :: second :: run,
       rest)
  | _ => (l, [])
  end.

(** The binary search of the place of [pivot] among the elements already
    in order: between [left] and [right], the middle element is compared
    with the pivot until the two bounds meet. The width halves at each
    step, so that the length of the list is fuel enough. *)
Fixpoint search (fuel : nat) (pivot : A) (sorted : list A) (left right : nat)
  : nat :=
  match fuel with
  | O => left
  | S fuel' =>
      if (left <? right)%nat then
        let mid := (left + Nat.div2 (right - left))%nat in
        match sorted !! mid with
        | Some y =>
            if precedes pivot y then search fuel' pivot sorted left mid
            else search fuel' pivot sorted (S mid) right
        | None => left
        end
      else left
  end.

Definition binary_insert (sorted : list A) (pivot : A) : list A :=
  let left := search (length sorted) pivot sorted 0 (length sorted) in
  take left sorted ++ pivot :: drop left sorted.

Definition sort (l : list A) : list A :=
  let '(run, rest) := count_and_make_run l in
  fold_left binary_insert rest run.

End Sort.
End ArraySort.

(** The comparator of both registries:
    [(a, b) => b.createdAt.getTime() - a.createdAt.getTime()]. *)
Definition recency {A : Type} (key : A -> Date) (a b : A) : number :=
  sub (getTime (key b)) (getTime (key a)).

Definition by_recency : Recording -> Recording -> number := recency createdAt.

Definition af_by_recency : AudioFile -> AudioFile -> number :=
  recency af_createdAt.

#[export] Instance Date_eq_dec : EqDecision Date.
Proof. solve_decision. Defined.

(** [a >= b] on numbers: false next to NaN. *)
Definition ge_number (a b : number) : bool :=
  match a, b with
  | Num x, Num y => Qle_bool y x
  | Infinity false, (Num _ | Infinity _) => true
  | (Num _ | Infinity true), Infinity true => true
  | _, _ => false
  end.

(** Most recent first: each entry's time value is [>=] the next one's. *)
Definition most_recent_first {A : Type} (key : A -> Date) (l : list A) : Prop :=
  Sorted (fun a b => ge_number (getTime (key a)) (getTime (key b)) = true) l.

Definition valid_date {A : Type} (key : A -> Date) (a : A) : Prop :=
  key a <> InvalidDate.

(** The entries of [l] created at [d], in their order in [l]. *)
Definition created_at {A : Type} (key : A -> Date) (d : Date) (l : list A)
  : list A :=
  filter (fun a => key a = d) l.

(** The time value of an entry whose date is valid (0 stands in for an
    Invalid Date, which the statements using it exclude). *)
Definition time_of {A : Type} (key : A -> Date) (a : A) : Z :=
  match key a with
  | DateAt t => t
  | InvalidDate => 0
  end.

(** ** The platform *)

(** How a call into the platform ends: it resolves with a value or rejects
    (throws) with a message. *)
Inductive Outcome (A : Type) :=
| Returned (a : A)
| Thrown (message : string).
Arguments Returned {A} a.
Arguments Thrown {A} message.

(** The native recording object: how it answers [stopAndUnloadAsync],
    [getURI] and [getStatusAsync] (the [durationMillis] of the status). *)
Record NativeRecording := mkNativeRecording {
  rec_stopAndUnload : Outcome unit;
  rec_getURI : option string;
  rec_getStatus : Outcome (option Z);
}.

(** The native sound object: how it answers each of its calls. *)
Record NativeSound := mkNativeSound {
  snd_source : string;
  snd_play : Outcome unit;
  snd_pause : Outcome unit;
  snd_stop : Outcome unit;
  snd_unload : Outcome unit;
}.

Record PermissionResponse := mkPermissionResponse { granted : bool }.

(** What the platform answers: the part of the environment the program
    does not control. *)
Record Platform := mkPlatform {
  documentDirectory : string;
  (** the n-th reading of the millisecond clock *)
  clock : nat -> Z;
  requestPermissions : Outcome PermissionResponse;
  (** [Audio.setAudioModeAsync], by its [allowsRecordingIOS] *)
  setAudioMode : bool -> Outcome unit;
  createRecording : Outcome NativeRecording;
  (** [Audio.Sound.createAsync], by the uri of its source *)
  createSound : string -> Outcome NativeSound;
  (** whether a copy that resolves has written its destination: the
      program checks it rather than taking it for granted *)
  copy_lands : bool;
}.

Inductive Level := Log | Warn | Error.

(** The calls made to the platform, in the order they are made. *)
Inductive Call :=
| RequestPermissions
| SetAudioMode (allowsRecording : bool)
| CreateRecording
| StopAndUnload
| GetStatus
| CreateSound (source : string)
| Play
| Pause
| Stop
| Unload
| GetInfo (path : string)
| MakeDirectory (path : string)
| ReadDirectory (path : string)
| Copy (from to : string)
| Delete (path : string)
| Console (level : Level) (message : string).

Definition is_filesystem_call (c : Call) : bool :=
  match c with
  | GetInfo _ | MakeDirectory _ | ReadDirectory _ | Copy _ _ | Delete _ => true
  | _ => false
  end.

(** The file system (regular files with their size in bytes, and
    directories), the number of clock readings taken so far, and the
    trace of calls. *)
Record World := mkWorld {
  files : gmap string N;
  directories : gset string;
  clock_reads : nat;
  trace : list Call;
}.

(** [FileInfo] of expo-file-system; [size] is there for what exists. *)
Record FileInfo := mkFileInfo {
  fi_exists : bool;
  fi_size : N;
  fi_uri : string;
}.

(** What there is at [path]: a regular file with its size, a directory,
    or nothing. *)
Definition info_at (w : World) (path : string) : FileInfo :=
  match files w !! path with
  | Some size => mkFileInfo true size path
  | None => mkFileInfo (bool_decide (path ∈ directories w)) 0%N path
  end.

(** *** State of the three components *)

(** [useAudioRecorder]: its [useState] cells. *)
Record RecorderState := mkRecorderState {
  recording : option NativeRecording;
  recordings : list Recording;
  isRecording : bool;
  permissionResponse : option PermissionResponse;
  recordingDuration : Z;
  startTime : option Z;
}.

(** [useAudioPlayer]: its [useState] cells ([pl_duration] is its
    [duration]). *)
Record PlayerState := mkPlayerState {
  sound : option NativeSound;
  playingId : option string;
  isPlaying : bool;
  position : Z;
  pl_duration : Z;
  error : option string;
}.

(** [AudioService]: its private fields [recording] and [sound]. *)
Record ServiceState := mkServiceState {
  sv_recording : option NativeRecording;
  sv_sound : option NativeSound;
}.

Record App := mkApp {
  world : World;
  recorder : RecorderState;
  player : PlayerState;
  service : ServiceState;
}.

(** *** Asynchronous operations

    Everything runs on one cooperative thread and each operation awaits the
    platform call it has issued: an operation is a function of the
    application state that either returns or throws. *)
Definition Async (A : Type) : Type := App -> Outcome A * App.

#[export] Instance Async_ret : MRet Async := fun A a s => (Returned a, s).

#[export] Instance Async_bind : MBind Async := fun A B f m s =>
  match m s with
  | (Returned a, s') => f a s'
  | (Thrown e, s') => (Thrown e, s')
  end.

Definition throw {A} (message : string) : Async A :=
  fun s => (Thrown message, s).

(** [try { body } catch (e) { handler }]. *)
Definition try_catch {A} (body : Async A) (handler : string -> Async A)
  : Async A :=
  fun s =>
    match body s with
    | (Returned a, s') => (Returned a, s')
    | (Thrown e, s') => handler e s'
    end.

Definition await {A} (answer : Outcome A) : Async A :=
  fun s => (answer, s).

Definition step {A} (f : App -> Outcome A * App) : Async A := f.

Fixpoint mapM_async {A B} (f : A -> Async B) (l : list A) : Async (list B) :=
  match l with
  | [] => mret []
  | x :: l' => y ← f x; ys ← mapM_async f l'; mret (y :: ys)
  end.

Definition with_world (f : World -> World) : Async unit :=
  fun s => (Returned tt,
            mkApp (f (world s)) (recorder s) (player s) (service s)).

Definition call (c : Call) : Async unit :=
  with_world (fun w =>
    mkWorld (files w) (directories w) (clock_reads w) (trace w ++ [c])).

Definition console (level : Level) (message : string) : Async unit :=
  call (Console level message).

(** *** Describing a state by what an operation did to another *)

(** [a] after the calls [cs]. *)
Definition logged (cs : list Call) (a : App) : App :=
  mkApp (mkWorld (files (world a)) (directories (world a))
                 (clock_reads (world a)) (trace (world a) ++ cs))
        (recorder a) (player a) (service a).

(** [a] after [n] more readings of the clock. *)
Definition clock_read (n : nat) (a : App) : App :=
  mkApp (mkWorld (files (world a)) (directories (world a))
                 (n + clock_reads (world a)) (trace (world a)))
        (recorder a) (player a) (service a).

Definition with_files (f : gmap string N -> gmap string N) (a : App) : App :=
  mkApp (mkWorld (f (files (world a))) (directories (world a))
                 (clock_reads (world a)) (trace (world a)))
        (recorder a) (player a) (service a).

Definition with_recorder (f : RecorderState -> RecorderState) (a : App) : App :=
  mkApp (world a) (f (recorder a)) (player a) (service a).

Definition with_player (f : PlayerState -> PlayerState) (a : App) : App :=
  mkApp (world a) (recorder a) (f (player a)) (service a).

Definition with_service (f : ServiceState -> ServiceState) (a : App) : App :=
  mkApp (world a) (recorder a) (player a) (f (service a)).

(** [a'] differs from [a] at most by calls made and clock readings
    taken. *)
Definition same_but_log (a a' : App) : Prop :=
  files (world a') = files (world a)
  /\ directories (world a') = directories (world a)
  /\ recorder a' = recorder a
  /\ player a' = player a
  /\ service a' = service a.

(** The calls an operation added to the trace of [a] to reach [a']. *)
Definition calls_between (a a' : App) (cs : list Call) : Prop :=
  trace (world a') = (trace (world a) ++ cs)%list.

Definition is_capture_call (c : Call) : bool :=
  match c with
  | SetAudioMode _ | CreateRecording => true
  | _ => false
  end.

Definition is_load_call (c : Call) : bool :=
  match c with
  | CreateSound _ => true
  | _ => false
  end.

(** How often the character [c] occurs in [s]. *)
Fixpoint count_char (c : ascii) (s : string) : nat :=
  match s with
  | EmptyString => 0%nat
  | String a s' => ((if Ascii.eqb a c then 1 else 0) + count_char c s')%nat
  end.

(** *** The platform's interface *)

Section Primitives.
Variable P : Platform.

(** [Date.now()] (and the clock reading of [new Date()]). *)
Definition Date_now : Async Z :=
  fun s =>
    let w := world s in
    (Returned (clock P (clock_reads w)),
     mkApp (mkWorld (files w) (directories w) (S (clock_reads w)) (trace w))
           (recorder s) (player s) (service s)).

(** [FileSystem.getInfoAsync]. *)
Definition getInfoAsync (path : string) : Async FileInfo :=
  call (GetInfo path);;
  step (fun s => (Returned (info_at (world s) path), s)).

(** [FileSystem.makeDirectoryAsync(path, { intermediates: true })]. *)
Definition makeDirectoryAsync (path : string) : Async unit :=
  call (MakeDirectory path);;
  with_world (fun w =>
    mkWorld (files w) ({[ path ]} ∪ directories w) (clock_reads w) (trace w)).

(** The names directly under [dir]. *)
Definition names_in (dir : string) (fs : gmap string N) : list string :=
  omap (fun '(path, _) =>
          match strip_prefix dir path with
          | Some name =>
              if bool_decide (length (split "/" name) = 1%nat)
              then Some name else None
          | None => None
          end)
       (map_to_list fs).

(** [FileSystem.readDirectoryAsync]: rejects when there is no such
    directory. *)
Definition readDirectoryAsync (dir : string) : Async (list string) :=
  call (ReadDirectory dir);;
  step (fun s =>
    let w := world s in
    if bool_decide (dir ∈ directories w)
    then (Returned (names_in dir (files w)), s)
    else (Thrown "Directory does not exist", s)).

(** [FileSystem.copyAsync]: rejects when the source is missing. *)
Definition copyAsync (from to : string) : Async unit :=
  call (Copy from to);;
  step (fun s =>
    let w := world s in
    match files w !! from with
    | None => (Thrown "Source file does not exist", s)
    | Some size =>
        if copy_lands P
        then (Returned tt,
              mkApp (mkWorld (<[to := size]> (files w)) (directories w)
                             (clock_reads w) (trace w))
                    (recorder s) (player s) (service s))
        else (Returned tt, s)
    end).

(** [FileSystem.deleteAsync] (not idempotent): rejects when there is
    nothing at [path]. *)
Definition deleteAsync (path : string) : Async unit :=
  call (Delete path);;
  step (fun s =>
    let w := world s in
    match files w !! path with
    | None => (Thrown "File does not exist", s)
    | Some _ =>
        (Returned tt,
         mkApp (mkWorld (delete path (files w)) (directories w)
                        (clock_reads w) (trace w))
               (recorder s) (player s) (service s))
    end).

Definition requestPermissionsAsync : Async PermissionResponse :=
  call RequestPermissions;; await (requestPermissions P).

Definition setAudioModeAsync (allowsRecordingIOS : bool) : Async unit :=
  call (SetAudioMode allowsRecordingIOS);;
  await (setAudioMode P allowsRecordingIOS).

Definition Recording_createAsync : Async NativeRecording :=
  call CreateRecording;; await (createRecording P).

Definition stopAndUnloadAsync (r : NativeRecording) : Async unit :=
  call StopAndUnload;; await (rec_stopAndUnload r).

Definition getStatusAsync (r : NativeRecording) : Async (option Z) :=
  call GetStatus;; await (rec_getStatus r).

Definition Sound_createAsync (source : string) : Async NativeSound :=
  call (CreateSound source);; await (createSound P source).

Definition playAsync (x : NativeSound) : Async unit :=
  call Play;; await (snd_play x).

Definition pauseAsync (x : NativeSound) : Async unit :=
  call Pause;; await (snd_pause x).

Definition stopAsync (x : NativeSound) : Async unit :=
  call Stop;; await (snd_stop x).

Definition unloadAsync (x : NativeSound) : Async unit :=
  call Unload;; await (snd_unload x).

(** [`${FileSystem.documentDirectory}recordings/`]. *)
Definition recordingsDirectory : string :=
  documentDirectory P +:+ "recordings/".

(** [!fileInfo.exists || fileInfo.size === 0]. *)
Definition missing_or_empty (info : FileInfo) : bool :=
  negb (fi_exists info) || (fi_size info =? 0)%N.

End Primitives.

(** The .wav names in the recordings directory. *)
Definition wav_names (P : Platform) (a : App) : list string :=
  filter (fun file => endsWith file ".wav" = true)
         (names_in (recordingsDirectory P) (files (world a))).

(** ** [AudioService] *)

Module Service.
Section Service.
Variable P : Platform.

(** [this.recording], [this.sound]: read and assigned in place. *)
Definition this : Async ServiceState :=
  fun s => (Returned (service s), s).

Definition set_recording (r : option NativeRecording) : Async unit :=
  fun s => (Returned tt,
            mkApp (world s) (recorder s) (player s)
                  (mkServiceState r (sv_sound (service s)))).

Definition set_sound (x : option NativeSound) : Async unit :=
  fun s => (Returned tt,
            mkApp (world s) (recorder s) (player s)
                  (mkServiceState (sv_recording (service s)) x)).

Definition init : Async unit :=
  dirInfo ← getInfoAsync (recordingsDirectory P);
  if negb (fi_exists dirInfo)
  then makeDirectoryAsync (recordingsDirectory P)
  else mret tt.

Definition requestPermission : Async bool :=
  permission ← requestPermissionsAsync P;
  mret (granted permission).

Definition startRecording : Async bool :=
  try_catch
    (permissionGranted ← requestPermission;
     if negb permissionGranted
     then throw "Microphone permission not granted"
     else
       setAudioModeAsync P true;;
       init;;
       recording ← Recording_createAsync P;
       set_recording (Some recording);;
       mret true)
    (fun _ => console Error "Failed to start recording:";; mret false).

Definition stopRecording : Async (option AudioFile) :=
  try_catch
    (self ← this;
     match sv_recording self with
     | None => mret None
     | Some recording =>
         stopAndUnloadAsync recording;;
         let uri := rec_getURI recording in
         status ← getStatusAsync recording;
         set_recording None;;
         match uri with
         | Some uri =>
             if negb (truthy uri) then mret None
             else
               fileInfo ← getInfoAsync uri;
               if missing_or_empty fileInfo
               then console Error "Recording file is missing or empty:";;
                    mret None
               else
                 timestamp ← Date_now P;
                 let id := Number_toString timestamp in
                 let filename :=
                   "recording_" +:+ Number_toString timestamp +:+ ".wav" in
                 let destinationUri := recordingsDirectory P +:+ filename in
                 copyAsync P uri destinationUri;;
                 destFileInfo ← getInfoAsync destinationUri;
                 if negb (fi_exists destFileInfo)
                 then console Error "Failed to save recording:";; mret None
                 else
                   console Log
                     ("Recording saved: " +:+ filename +:+ ", size: "
                      +:+ Number_toString (Z.of_N (fi_size destFileInfo))
                      +:+ " bytes");;
                   now ← Date_now P;
                   mret (Some
                     (mkAudioFile id destinationUri filename
                        (of_Z (match status with
                               | Some d => d
                               | None => 0
                               end))
                        (new_Date (of_Z now))))
         | None => mret None
         end
     end)
    (fun _ => console Error "Failed to stop recording:";; mret None).

(** The mapper of [getRecordings], after its [await]. *)
Definition toAudioFile (filename : string) (fileInfo : FileInfo)
  : Async AudioFile :=
  let fileUri := recordingsDirectory P +:+ filename in
  id ← match Codec.service_id_segment filename with
       | Some seg => mret seg
       | None => now ← Date_now P; mret (Number_toString now)
       end;
  mret (Codec.service_entry id fileUri filename).

(** [Promise.all(wavFiles.map(async ...))]: every mapper runs up to its
    [await], so that all the [getInfoAsync] calls are issued first, and
    the mappers then resume in that order. *)
Definition getRecordings : Async (list AudioFile) :=
  try_catch
    (init;;
     files ← readDirectoryAsync (recordingsDirectory P);
     let wavFiles := filter (fun file => endsWith file ".wav" = true) files in
     if bool_decide (length wavFiles = 0%nat) then mret []
     else
       infos ← mapM_async
                 (fun filename =>
                    getInfoAsync (recordingsDirectory P +:+ filename))
                 wavFiles;
       recordings ← mapM_async (fun '(filename, fileInfo) =>
                                  toAudioFile filename fileInfo)
                               (zip wavFiles infos);
       mret (ArraySort.sort af_by_recency recordings))
    (fun _ => console Error "Failed to get recordings:";; mret []).

Definition playRecording (uri : string) : Async bool :=
  try_catch
    (self ← this;
     match sv_sound self with
     | Some sound => unloadAsync sound;; set_sound None
     | None => mret tt
     end;;
     fileInfo ← getInfoAsync uri;
     if negb (fi_exists fileInfo)
     then console Error "Audio file not found:";; mret false
     else
       setAudioModeAsync P false;;
       sound ← Sound_createAsync P uri;
       set_sound (Some sound);;
       playAsync sound;;
       mret true)
    (fun _ => console Error "Failed to play recording:";; mret false).

Definition stopPlayback : Async unit :=
  self ← this;
  match sv_sound self with
  | Some sound =>
      try_catch
        (stopAsync sound;;
         unloadAsync sound;;
         set_sound None)
        (fun _ => console Error "Error stopping playback:")
  | None => mret tt
  end.

Definition deleteRecording (uri : string) : Async bool :=
  try_catch
    (self ← this;
     match sv_sound self with
     | Some _ => stopPlayback
     | None => mret tt
     end;;
     fileInfo ← getInfoAsync uri;
     if negb (fi_exists fileInfo)
     then console Warn "File does not exist, nothing to delete:";;
          mret false
     else
       deleteAsync uri;;
       mret true)
    (fun _ => console Error "Failed to delete recording:";; mret false).

End Service.
End Service.

(** ** [useAudioRecorder] *)

Module Recorder.
Section Recorder.
Variable P : Platform.

(** The state cells as the closure of the current render captured them:
    an operation reads them once, on entry. *)
Definition rendered : Async RecorderState :=
  fun s => (Returned (recorder s), s).

Definition update (f : RecorderState -> RecorderState) : Async unit :=
  fun s => (Returned tt,
            mkApp (world s) (f (recorder s)) (player s) (service s)).

Definition setRecording (v : option NativeRecording) : Async unit :=
  update (fun r => mkRecorderState v (recordings r) (isRecording r)
                     (permissionResponse r) (recordingDuration r)
                     (startTime r)).

Definition setRecordings (v : list Recording) : Async unit :=
  update (fun r => mkRecorderState (recording r) v (isRecording r)
                     (permissionResponse r) (recordingDuration r)
                     (startTime r)).

Definition setIsRecording (v : bool) : Async unit :=
  update (fun r => mkRecorderState (recording r) (recordings r) v
                     (permissionResponse r) (recordingDuration r)
                     (startTime r)).

Definition setPermissionResponse (v : option PermissionResponse)
  : Async unit :=
  update (fun r => mkRecorderState (recording r) (recordings r)
                     (isRecording r) v (recordingDuration r) (startTime r)).

Definition setRecordingDuration (v : Z) : Async unit :=
  update (fun r => mkRecorderState (recording r) (recordings r)
                     (isRecording r) (permissionResponse r) v (startTime r)).

Definition setStartTime (v : option Z) : Async unit :=
  update (fun r => mkRecorderState (recording r) (recordings r)
                     (isRecording r) (permissionResponse r)
                     (recordingDuration r) v).

(** The mapper of [loadRecordings] after its [await] (lines 71-94). *)
Definition toRecording (fileName : string) (fileInfo : FileInfo)
  : Async Recording :=
  let parts := split "_" fileName in
  d ← match Codec.try_decode parts with
      | Some d => mret d
      | None =>
          console Warn "Error parsing filename:";;
          now ← Date_now P;
          mret (Codec.mkDecoded fileName (of_Z now) (of_Z 0))
      end;
  mret (Codec.recordingOf (fi_uri fileInfo) fileName d).

Definition loadRecordings : Async unit :=
  try_catch
    (let recordingsDir := recordingsDirectory P in
     dirInfo ← getInfoAsync recordingsDir;
     if negb (fi_exists dirInfo)
     then makeDirectoryAsync recordingsDir;; setRecordings []
     else
       files ← readDirectoryAsync recordingsDir;
       let wavFiles :=
         filter (fun file => endsWith file ".wav" = true) files in
       infos ← mapM_async
                 (fun fileName => getInfoAsync (recordingsDir +:+ fileName))
                 wavFiles;
       recordingFiles ← mapM_async (fun '(fileName, fileInfo) =>
                                      toRecording fileName fileInfo)
                                   (zip wavFiles infos);
       console Log
         ("Found "
          +:+ Number_toString (Z.of_nat (length recordingFiles))
          +:+ " recordings");;
       setRecordings (ArraySort.sort by_recency recordingFiles))
    (fun _ => console Error "Failed to load recordings:").

(** The effect run on mount. *)
Definition mountEffect : Async unit :=
  permission ← requestPermissionsAsync P;
  setPermissionResponse (Some permission);;
  setAudioModeAsync P true;;
  loadRecordings.

(** The effect on [isRecording] and [startTime]: while recording, an
    interval is installed (its callback is [tick]); otherwise the duration
    is reset. *)
Definition durationEffect : Async unit :=
  r ← rendered;
  if isRecording r
     && match startTime r with
        | Some t => negb (t =? 0)
        | None => false
        end
  then mret tt
  else setRecordingDuration 0.

(** The callback of the 100 ms interval, installed while
    [isRecording && startTime]. *)
Definition tick : Async unit :=
  r ← rendered;
  match startTime r with
  | Some t =>
      if isRecording r && negb (t =? 0)
      then now ← Date_now P; setRecordingDuration (now - t)
      else mret tt
  | None => mret tt
  end.

Definition startRecording : Async unit :=
  r ← rendered;
  try_catch
    (if match permissionResponse r with
        | Some response => negb (granted response)
        | None => false
        end
     then console Log "No recording permission"
     else
       setAudioModeAsync P true;;
       console Log "Starting recording...";;
       recording ← Recording_createAsync P;
       now ← Date_now P;
       setStartTime (Some now);;
       setRecording (Some recording);;
       setIsRecording true)
    (fun _ => console Error "Failed to start recording:").

Definition stopRecording : Async unit :=
  r ← rendered;
  match recording r with
  | None => mret tt
  | Some recording =>
      try_catch
        (console Log "Stopping recording...";;
         setIsRecording false;;
         let duration := recordingDuration r in
         setStartTime None;;
         stopAndUnloadAsync recording;;
         match rec_getURI recording with
         | Some uri =>
             if negb (truthy uri)
             then console Error "No recording URI available"
             else
               console Log ("Recording stopped, URI: " +:+ uri);;
               fileInfo ← getInfoAsync uri;
               if missing_or_empty fileInfo
               then console Error "Recording file is missing or empty:"
               else
                 console Log
                   ("Recording file size: "
                    +:+ Number_toString (Z.of_N (fi_size fileInfo))
                    +:+ " bytes");;
                 now ← Date_now P;
                 let id := Number_toString now in
                 timestamp ← Date_now P;
                 let fileName :=
                   Codec.encode id timestamp (inject_Z duration) in
                 let recordingsDir := recordingsDirectory P in
                 dirInfo ← getInfoAsync recordingsDir;
                 (if negb (fi_exists dirInfo)
                  then makeDirectoryAsync recordingsDir
                  else mret tt);;
                 let destinationUri := recordingsDir +:+ fileName in
                 console Log ("Copying recording to: " +:+ destinationUri);;
                 copyAsync P uri destinationUri;;
                 destFileInfo ← getInfoAsync destinationUri;
                 (if fi_exists destFileInfo
                  then console Log
                         ("File saved successfully, size: "
                          +:+ Number_toString (Z.of_N (fi_size destFileInfo))
                          +:+ " bytes")
                  else mret tt);;
                 loadRecordings;;
                 setRecording None
         | None => console Error "No recording URI available"
         end)
        (fun _ =>
           console Error "Failed to stop recording:";;
           setIsRecording false;;
           setRecording None)
  end.

Definition deleteRecording (id0 : string) : Async unit :=
  r ← rendered;
  try_catch
    (match List.find (fun x => String.eqb (id x) id0) (recordings r) with
     | Some recordingToDelete =>
         deleteAsync (uri recordingToDelete);;
         setRecordings
           (List.filter (fun x => negb (String.eqb (id x) id0))
                        (recordings r))
     | None => mret tt
     end)
    (fun _ => console Error "Failed to delete recording:").

End Recorder.
End Recorder.

(** ** [useAudioPlayer] *)

Module Player.

(** [PlaybackStatus]: optional fields are [None] when absent. *)
Record PlaybackStatus := mkPlaybackStatus {
isLoaded : bool;
st_error : option string;
st_isPlaying : option bool;
positionMillis : option Z;
durationMillis : option Z;
didJustFinish : option bool;
}.

Section Player.
Variable P : Platform.

Definition rendered : Async PlayerState :=
  fun s => (Returned (player s), s).

Definition update (f : PlayerState -> PlayerState) : Async unit :=
  fun s => (Returned tt,
            mkApp (world s) (recorder s) (f (player s)) (service s)).

Definition setSound (v : option NativeSound) : Async unit :=
  update (fun p => mkPlayerState v (playingId p) (isPlaying p) (position p)
                     (pl_duration p) (error p)).

Definition setPlayingId (v : option string) : Async unit :=
  update (fun p => mkPlayerState (sound p) v (isPlaying p) (position p)
                     (pl_duration p) (error p)).

Definition setIsPlaying (v : bool) : Async unit :=
  update (fun p => mkPlayerState (sound p) (playingId p) v (position p)
                     (pl_duration p) (error p)).

Definition setPosition (v : Z) : Async unit :=
  update (fun p => mkPlayerState (sound p) (playingId p) (isPlaying p) v
                     (pl_duration p) (error p)).

Definition setDuration (v : Z) : Async unit :=
  update (fun p => mkPlayerState (sound p) (playingId p) (isPlaying p)
                     (position p) v (error p)).

Definition setError (v : option string) : Async unit :=
  update (fun p => mkPlayerState (sound p) (playingId p) (isPlaying p)
                     (position p) (pl_duration p) v).

Definition configureAudioSession : Async unit :=
  try_catch (setAudioModeAsync P false)
            (fun _ => console Error "Failed to configure audio mode:").

(** The first [try] of [playSound]: whether the function goes on
    ([false] is its early [return]). *)
Definition checkFile (recording : Recording) : Async bool :=
  try_catch
    (fileInfo ← getInfoAsync (uri recording);
     if missing_or_empty fileInfo
     then
       setError (Some ("File doesn't exist or is empty: "
                       +:+ uri recording));;
       mret false
     else
       console Log
         ("Playing file: " +:+ uri recording +:+ ", Size: "
          +:+ Number_toString (Z.of_N (fi_size fileInfo)) +:+ " bytes");;
       mret true)
    (fun _ => console Error "Error checking file:";; mret true).

Definition playSound (recording : Recording) : Async unit :=
  p ← rendered;
  setError None;;
  proceed ← checkFile recording;
  if negb proceed then mret tt
  else
    configureAudioSession;;
    match sound p with
    | Some sound => unloadAsync sound
    | None => mret tt
    end;;
    try_catch
      (console Log "Creating sound object...";;
       newSound ← Sound_createAsync P (uri recording);
       setSound (Some newSound);;
       setPlayingId (Some (id recording));;
       console Log "Playback started";;
       setIsPlaying true)
      (fun message =>
         console Error "Error playing sound:";;
         setError (Some ("Playback error: " +:+ message));;
         setIsPlaying false;;
         setPlayingId None).

Definition onPlaybackStatusUpdate (status : PlaybackStatus) : Async unit :=
  console Log "Playback status:";;
  if negb (isLoaded status)
  then
    match st_error status with
    | Some e =>
        if truthy e
        then console Error ("Playback error: " +:+ e);;
             setError (Some ("Playback error: " +:+ e))
        else mret tt
    | None => mret tt
    end
  else
    setIsPlaying (default false (st_isPlaying status));;
    setPosition (default 0 (positionMillis status));;
    setDuration (default 0 (durationMillis status));;
    if default false (didJustFinish status)
    then
      console Log "Playback finished";;
      setIsPlaying false;;
      setPlayingId None;;
      setPosition 0
    else mret tt.

Definition pauseSound : Async unit :=
  p ← rendered;
  match sound p with
  | Some sound =>
      try_catch (pauseAsync sound;; setIsPlaying false)
                (fun _ => console Error "Error pausing sound:")
  | None => mret tt
  end.

Definition resumeSound : Async unit :=
  p ← rendered;
  match sound p with
  | Some sound =>
      try_catch (playAsync sound;; setIsPlaying true)
                (fun message =>
                   console Error "Error resuming sound:";;
                   setError (Some ("Resume error: " +:+ message)))
  | None => mret tt
  end.

Definition stopSound : Async unit :=
  p ← rendered;
  match sound p with
  | Some sound =>
      try_catch
        (stopAsync sound;;
         setIsPlaying false;;
         setPlayingId None;;
         setPosition 0)
        (fun _ => console Error "Error stopping sound:")
  | None => mret tt
  end.

(** The cleanup of the effect on [sound]: run when [sound] changes and
    on unmount. *)
Definition cleanup : Async unit :=
  p ← rendered;
  match sound p with
  | Some sound => unloadAsync sound
  | None => mret tt
  end.

End Player.
End Player.

(** ** A phone, for examples *)

Module Example.

(** A capture of a second and a half, left in the cache. *)
Definition capture : NativeRecording :=
  mkNativeRecording (Returned tt) (Some "cache/capture.wav")
                    (Returned (Some 1500)).

Definition tune (source : string) : NativeSound :=
  mkNativeSound source (Returned tt) (Returned tt) (Returned tt)
                (Returned tt).

(** A phone whose user has granted the microphone. *)
Definition phone : Platform :=
  mkPlatform "doc/" (fun n => 1700000000000 + Z.of_nat n)
             (Returned (mkPermissionResponse true))
             (fun _ => Returned tt)
             (Returned capture)
             (fun source => Returned (tune source))
             true.

(** A phone whose user has refused it: the platform refuses to record. *)
Definition refusing : Platform :=
  mkPlatform "doc/" (fun n => 1700000000000 + Z.of_nat n)
             (Returned (mkPermissionResponse false))
             (fun _ => Returned tt)
             (Thrown "Missing audio recording permissions.")
             (fun source => Returned (tune source))
             true.

Definition disk (fs : list (string * N)) : World :=
  mkWorld (list_to_map fs) {[ "doc/recordings/" ]} 0 [].

Definition no_recorder : RecorderState :=
  mkRecorderState None [] false None 0 None.

Definition no_player : PlayerState :=
  mkPlayerState None None false 0 0 None.

Definition no_service : ServiceState := mkServiceState None None.

(** Just launched: nothing recorded, nothing played, no answer about
    the microphone yet. *)
Definition launched : App :=
  mkApp (disk []) no_recorder no_player no_service.

(** The hook has been told that the microphone is refused. *)
Definition refused : App :=
  mkApp (disk [])
        (mkRecorderState None [] false (Some (mkPermissionResponse false))
                         0 None)
        no_player no_service.

(** The descriptor the service returns for the capture of [recording_now]:
    under the name [recording_] and the reading of the clock. *)
Definition saved_by_service : AudioFile :=
  mkAudioFile "1700000000000"
              "doc/recordings/recording_1700000000000.wav"
              "recording_1700000000000.wav"
              (of_Z 1500) (DateAt 1700000000001).

(** Recording since 1699999998500, the capture holding [size] bytes,
    and the timer having last shown 1500 ms; both the hook and the
    service hold the capture. *)
Definition recording_now (size : N) : App :=
  mkApp (disk [("cache/capture.wav", size)])
        (mkRecorderState (Some capture) [] true
           (Some (mkPermissionResponse true)) 1500 (Some 1699999998500))
        no_player
        (mkServiceState (Some capture) None).

Definition memo : Recording :=
  mkRecording "1700000000000"
              "doc/recordings/1700000000000_1700000000000_1500.wav"
              "1700000000000_1700000000000_1500.wav"
              NaN (DateAt 1700000000000).

(** The clip [memo] is registered and is playing, through the hook's
    player and through the service alike. *)
Definition playing_memo : App :=
  mkApp (disk [(uri memo, 64000%N)])
        (mkRecorderState None [memo] false
           (Some (mkPermissionResponse true)) 0 None)
        (mkPlayerState (Some (tune (uri memo))) (Some (id memo)) true
                       300 1500 None)
        (mkServiceState None (Some (tune (uri memo)))).


(** The directory holds two clips of the recorder, five seconds apart. *)
Definition two_clips : App :=
  mkApp (disk [("doc/recordings/1700000001000_1700000001000_1500.wav",
                64000%N);
               ("doc/recordings/1700000006000_1700000006000_1500.wav",
                64000%N)])
        no_recorder no_player no_service.

(** The directory holds two clips of the recorder, five seconds apart, and
    a file whose second segment is not a number; the directory lists the
    older clip first, then that file, then the newer clip. *)
Definition with_foreign_file : App :=
  mkApp (disk [("doc/recordings/1700000001000_1700000001000_1500.wav",
                64000%N);
               ("doc/recordings/1700000006500_x.wav", 10%N);
               ("doc/recordings/1700000006000_1700000006000_1500.wav",
                64000%N)])
        no_recorder no_player no_service.

(** An empty file sits in the recordings directory. *)
Definition with_empty_file : App :=
  mkApp (disk [("doc/recordings/empty.wav", 0%N)])
        no_recorder no_player no_service.

End Example.

(** ** What the screens show *)

(** The fill of [padStart]: [n] characters taken from [pad] repeated,
    [rest] being what is left of the current repetition. *)
Fixpoint fill (n : nat) (pad rest : string) : string :=
  match n with
  | O => EmptyString
  | S n' =>
      match rest with
      | String c r => String c (fill n' pad r)
      | EmptyString =>
          match pad with
          | String c r => String c (fill n' pad r)
          | EmptyString => EmptyString
          end
      end
  end.

(** [s.padStart(targetLength, padString)]: [s] itself when it is long
    enough or the pad is empty. *)
Definition padStart (targetLength : nat) (padString s : string) : string :=
  fill (targetLength - String.length s) padString padString +:+ s.

(** [formatTime] of [useAudioPlayer.ts] (lines 159-164), on a whole number
    of milliseconds: [Math.floor] of the quotients, [%] the remainder with
    the sign of the dividend. *)
Definition Player_formatTime (millis : Z) : string :=
  let totalSeconds := millis / 1000 in
  let minutes := totalSeconds / 60 in
  let seconds := Z.rem totalSeconds 60 in
  Number_toString minutes +:+ ":" +:+ padStart 2 "0" (Number_toString seconds).

(** [RecordingTimer.tsx]. *)
Module RecordingTimer.

(** Lines 28-32. *)
Definition formatTime (totalSeconds : Z) : string :=
  let minutes := totalSeconds / 60 in
  let seconds := Z.rem totalSeconds 60 in
  padStart 2 "0" (Number_toString minutes) +:+ ":"
    +:+ padStart 2 "0" (Number_toString seconds).

(** The component: its prop, its [seconds] cell and whether the interval
    of its effect is installed. *)
Record Timer := mkTimer {
  isRecording : bool;
  seconds : Z;
  interval : bool;
}.

(** What happens to the component once mounted: it is rendered with a
    value of the prop, or a second elapses. *)
Inductive Event :=
| Rendered (isRecording : bool)
| SecondElapsed.

(** The effect on [isRecording] (lines 12-26) as it runs on mount: the
    interval is installed when a recording runs, and [seconds], which is 0,
    is set to 0 otherwise. *)
Definition mounted (isRecording : bool) : Timer :=
  mkTimer isRecording 0 isRecording.

(** The effect runs again when the prop has changed, after the cleanup
    of its previous run has cleared the interval; the interval's callback
    is [s => s + 1]. *)
Definition step (t : Timer) (e : Event) : Timer :=
  match e with
  | Rendered now =>
      if Bool.eqb now (isRecording t) then t
      else if now then mkTimer true (seconds t) true
      else mkTimer false 0 false
  | SecondElapsed =>
      if interval t then mkTimer (isRecording t) (seconds t + 1) true
      else t
  end.

Definition run (isRecording : bool) (events : list Event) : Timer :=
  fold_left step events (mounted isRecording).

(** What the component shows. *)
Definition shown (t : Timer) : string := formatTime (seconds t).

End RecordingTimer.

(** ** The screens

    A screen keeps [useState] cells of its own and calls the service: one
    of its operations is an operation of the application that reads and
    updates these cells as well. *)

Definition UI (St A : Type) : Type := St -> App -> Outcome A * St * App.

#[export] Instance UI_ret {St} : MRet (UI St) :=
  fun A a st s => (Returned a, st, s).

#[export] Instance UI_bind {St} : MBind (UI St) := fun A B f m st s =>
  match m st s with
  | (Returned a, st', s') => f a st' s'
  | (Thrown e, st', s') => (Thrown e, st', s')
  end.

(** An operation of the service, awaited by a screen. *)
Definition lift {St A} (m : Async A) : UI St A :=
  fun st s => let '(o, s') := m s in (o, st, s').

(** The cells as the closure of the current render captured them. *)
Definition ui_rendered {St} : UI St St :=
  fun st s => (Returned st, st, s).

Definition ui_update {St} (f : St -> St) : UI St unit :=
  fun st s => (Returned tt, f st, s).

Definition ui_try_catch {St A} (body : UI St A) (handler : string -> UI St A)
  : UI St A :=
  fun st s =>
    match body st s with
    | (Returned a, st', s') => (Returned a, st', s')
    | (Thrown e, st', s') => handler e st' s'
    end.

(** Pressing a control [n] times, each press handled before the next. *)
Fixpoint pressed {St} (n : nat) (press : UI St unit) : UI St unit :=
  match n with
  | O => mret tt
  | S n' => press;; pressed n' press
  end.

(** *** [RecordScreen] *)

Module RecordScreen.

Record State := mkState {
  isRecording : bool;
  permissionGranted : bool;
}.

Definition initial : State := mkState false false.

Section RecordScreen.
Variable P : Platform.

Definition setIsRecording (v : bool) : UI State unit :=
  ui_update (fun st => mkState v (permissionGranted st)).

Definition setPermissionGranted (v : bool) : UI State unit :=
  ui_update (fun st => mkState (isRecording st) v).

(** The effect run on mount (lines 263-268); nothing handles a rejection
    of the request. *)
Definition mountEffect : UI State unit :=
  granted ← lift (Service.requestPermission P);
  setPermissionGranted granted.

(** Lines 270-281. *)
Definition handleRecordPress : UI State unit :=
  st ← ui_rendered;
  if isRecording st then
    setIsRecording false;;
    recording ← lift (Service.stopRecording P);
    match recording with
    | Some recording =>
        lift (console Log ("Recording saved: " +:+ af_filename recording))
    | None => mret tt
    end
  else
    started ← lift (Service.startRecording P);
    setIsRecording started.

(** A press of the record button, which is disabled while
    [permissionGranted] does not hold (line 317). *)
Definition pressRecordButton : UI State unit :=
  st ← ui_rendered;
  if permissionGranted st then handleRecordPress else mret tt.

End RecordScreen.
End RecordScreen.

(** *** [RecordingsScreen] *)

Module RecordingsScreen.

Record State := mkState {
  recordings : list AudioFile;
  playingId : option string;
  isPlaying : bool;
  error : option string;
}.

Definition initial : State := mkState [] None false None.

Section RecordingsScreen.
Variable P : Platform.

Definition setRecordings (v : list AudioFile) : UI State unit :=
  ui_update (fun st => mkState v (playingId st) (isPlaying st) (error st)).

Definition setPlayingId (v : option string) : UI State unit :=
  ui_update (fun st => mkState (recordings st) v (isPlaying st) (error st)).

Definition setIsPlaying (v : bool) : UI State unit :=
  ui_update (fun st => mkState (recordings st) (playingId st) v (error st)).

Definition setError (v : option string) : UI State unit :=
  ui_update (fun st =>
    mkState (recordings st) (playingId st) (isPlaying st) v).

(** Lines 21-25. *)
Definition loadRecordings : UI State unit :=
  files ← lift (Service.getRecordings P);
  setRecordings files;;
  setError None.

(** The focus effect (lines 27-38): what runs when the screen gains the
    focus, and its cleanup, run when the screen loses it. Neither awaits
    the service; the service's operations touch no cell of the screen, so
    that the order in which they complete does not matter. *)
Definition focusEffect : UI State unit :=
  lift (console Log "Loading recordings on focus");;
  loadRecordings.

Definition focusCleanup : UI State unit :=
  lift Service.stopPlayback;;
  setPlayingId None;;
  setIsPlaying false.

(** The status callback handed to [playRecording] (lines 49-56). *)
Definition onPlaybackStatusUpdate (status : Player.PlaybackStatus)
  : UI State unit :=
  if negb (Player.isLoaded status) then mret tt
  else if default false (Player.didJustFinish status)
       then setIsPlaying false;; setPlayingId None
       else mret tt.

(** Lines 40-66. *)
Definition handlePlayPause (item : AudioFile) : UI State unit :=
  st ← ui_rendered;
  if bool_decide (playingId st = Some (af_id item)) && isPlaying st
  then
    lift Service.stopPlayback;;
    setIsPlaying false
  else
    ui_try_catch
      (setError None;;
       success ← lift (Service.playRecording P (af_uri item));
       match success with
       | true => setPlayingId (Some (af_id item));; setIsPlaying true
       | false => mret tt
       end)
      (fun message =>
         setError (Some ("Failed to play recording: " +:+ message))).

(** The [onPress] of the alert's Delete button (lines 80-90). The
    refresh at the end is not awaited; it runs to its end all the same. *)
Definition onDeletePressed (item : AudioFile) : UI State unit :=
  st ← ui_rendered;
  (if bool_decide (playingId st = Some (af_id item))
   then
     lift Service.stopPlayback;;
     setPlayingId None;;
     setIsPlaying false
   else mret tt);;
  success ← lift (Service.deleteRecording (af_uri item));
  match success with
  | true => loadRecordings
  | false => mret tt
  end.

(** Lines 68-94: the alert, answered with Delete ([confirmed]) or with
    Cancel. *)
Definition handleDeleteRecording (item : AudioFile) (confirmed : bool)
  : UI State unit :=
  if confirmed then onDeletePressed item else mret tt.

(** What is to hold of the cells at all times: no error is shown, and a
    clip is marked whenever something is shown as playing. *)
Definition consistent (st : State) : Prop :=
  error st = None /\ (isPlaying st = true -> is_Some (playingId st)).

(** What can happen to the screen, and what it runs then. *)
Inductive Event :=
| Focused
| Blurred
| PlayPausePressed (item : AudioFile)
| DeleteAnswered (item : AudioFile) (confirmed : bool)
| StatusReported (status : Player.PlaybackStatus).

Definition handle (e : Event) : UI State unit :=
  match e with
  | Focused => focusEffect
  | Blurred => focusCleanup
  | PlayPausePressed item => handlePlayPause item
  | DeleteAnswered item confirmed => handleDeleteRecording item confirmed
  | StatusReported status => onPlaybackStatusUpdate status
  end.

Fixpoint handle_all (events : list Event) : UI State unit :=
  match events with
  | [] => mret tt
  | e :: events' => handle e;; handle_all events'
  end.

End RecordingsScreen.
End RecordingsScreen.


(** ** The screens of that phone, for examples *)

Module ScreenExample.

(** A capture whose native stop fails. *)
Definition stuck : NativeRecording :=
  mkNativeRecording (Thrown "Recorder does not exist.")
                    (Some "cache/capture.wav") (Returned (Some 1500)).

(** Recording since 1699999998500, the hook and the service both holding
    that capture. *)
Definition recording_stuck : App :=
  mkApp (Example.disk [("cache/capture.wav", 64000%N)])
        (mkRecorderState (Some stuck) [] true
           (Some (mkPermissionResponse true)) 1500 (Some 1699999998500))
        Example.no_player
        (mkServiceState (Some stuck) None).

(** A phone that fails to load any sound. *)
Definition mute : Platform :=
  mkPlatform "doc/" (fun n => 1700000000000 + Z.of_nat n)
             (Returned (mkPermissionResponse true))
             (fun _ => Returned tt)
             (Returned Example.capture)
             (fun _ => Thrown "Player does not exist.")
             true.

(** The phone before the first launch: a capture in the cache and no
    recordings directory. *)
Definition first_launch : App :=
  mkApp (mkWorld (list_to_map [("cache/capture.wav", 64000%N)]) ∅ 0 [])
        Example.no_recorder Example.no_player Example.no_service.


(** The row of [Example.memo] in the list, and a row whose file is
    gone. *)
Definition memo_row : AudioFile :=
  mkAudioFile "1700000000000" (uri Example.memo) (fileName Example.memo)
              (of_Z 0) (DateAt 1700000000000).

Definition lost_row : AudioFile :=
  mkAudioFile "1700000009000"
              "doc/recordings/recording_1700000009000.wav"
              "recording_1700000009000.wav"
              (of_Z 0) (DateAt 1700000009000).

(** The list showing both rows, the first one as playing. *)
Definition list_playing_memo : RecordingsScreen.State :=
  RecordingsScreen.mkState [memo_row; lost_row] (Some (af_id memo_row))
                           true None.

(** Two clips saved by the service, as the hook registers them: under
    one id. *)
Definition first_clip : Recording :=
  mkRecording "recording" "doc/recordings/recording_1700000001000.wav"
              "recording_1700000001000.wav" (of_Z 0) (DateAt 1700000001000).

Definition second_clip : Recording :=
  mkRecording "recording" "doc/recordings/recording_1700000006000.wav"
              "recording_1700000006000.wav" (of_Z 0) (DateAt 1700000006000).

Definition two_service_clips : App :=
  mkApp (Example.disk [(uri first_clip, 64000%N); (uri second_clip, 64000%N)])
        (mkRecorderState None [second_clip; first_clip] false
           (Some (mkPermissionResponse true)) 0 None)
        Example.no_player Example.no_service.

End ScreenExample.

(** * Properties *)

(** Running an operation on a state: unfold the platform's interface and
    the monad, and compute. *)
Ltac unfold_async :=
  unfold getInfoAsync, makeDirectoryAsync, readDirectoryAsync, copyAsync,
    deleteAsync, requestPermissionsAsync, setAudioModeAsync,
    Recording_createAsync, stopAndUnloadAsync, getStatusAsync,
    Sound_createAsync, playAsync, pauseAsync, stopAsync, unloadAsync,
    Date_now, console, call, with_world, await, step, throw, try_catch,
    Recorder.rendered, Recorder.setRecording, Recorder.setRecordings,
    Recorder.setIsRecording, Recorder.setPermissionResponse,
    Recorder.setRecordingDuration, Recorder.setStartTime, Recorder.update,
    Player.rendered, Player.setSound, Player.setPlayingId,
    Player.setIsPlaying, Player.setPosition, Player.setDuration,
    Player.setError, Player.update,
    Service.this, Service.set_recording, Service.set_sound,
    mbind, mret, Async_bind, Async_ret in *.

Ltac exec := repeat (progress (unfold_async; cbn)).

Ltac same_state :=
  unfold logged, clock_read, with_files, with_recorder, with_player,
    with_service; cbn; rewrite <- ?app_assoc; cbn; try reflexivity.

(** ** Strings and numeric literals *)

Section StringFacts.

Lemma split_without (sep : ascii) (s : string) :
  contains sep s = false -> split sep s = [s].
Proof.
  induction s as [|c s IH]; simpl; [reflexivity|].
  intros H. apply orb_false_elim in H as [Hc Hs].
  rewrite Hc, (IH Hs). reflexivity.
Qed.

Lemma split_at_first (sep : ascii) (a b : string) :
  contains sep a = false ->
  split sep (a +:+ String sep b) = a :: split sep b.
Proof.
  induction a as [|c a IH]; simpl.
  - intros _. rewrite Ascii.eqb_refl. reflexivity.
  - intros H. apply orb_false_elim in H as [Hc Ha].
    rewrite Hc, (IH Ha). reflexivity.
Qed.

Lemma contains_app (c : ascii) (a b : string) :
  contains c (a +:+ b) = contains c a || contains c b.
Proof.
  induction a as [|x a IH]; simpl; [reflexivity|].
  rewrite IH. apply orb_assoc.
Qed.

Lemma all_chars_app (p : ascii -> bool) (a b : string) :
  all_chars p (a +:+ b) = all_chars p a && all_chars p b.
Proof.
  induction a as [|x a IH]; simpl; [reflexivity|].
  rewrite IH. apply andb_assoc.
Qed.

Lemma all_chars_impl (p q : ascii -> bool) (s : string) :
  (forall c, p c = true -> q c = true) ->
  all_chars p s = true -> all_chars q s = true.
Proof.
  intros Hpq. induction s as [|c s IH]; simpl; [reflexivity|].
  intros H. apply andb_prop in H as [Hc Hs].
  rewrite (Hpq _ Hc), (IH Hs). reflexivity.
Qed.

Lemma all_chars_contains (p : ascii -> bool) (c : ascii) (s : string) :
  p c = false -> all_chars p s = true -> contains c s = false.
Proof.
  intros Hc. induction s as [|a s IH]; simpl; [reflexivity|].
  intros H. apply andb_prop in H as [Ha Hs].
  rewrite (IH Hs), orb_false_r.
  destruct (Ascii.eqb_spec a c) as [->|]; congruence.
Qed.

Lemma strip_prefix_head (a : ascii) (p s : string) :
  contains a s = false -> strip_prefix (String a p) s = None.
Proof.
  destruct s as [|b s]; simpl; [reflexivity|].
  intros H. apply orb_false_elim in H as [Hb _].
  rewrite Ascii.eqb_sym, Hb. reflexivity.
Qed.

Lemma replace_absent (a : ascii) (p rep s : string) :
  contains a s = false -> replace (String a p) rep s = s.
Proof.
  induction s as [|b s IH]; intros H.
  - reflexivity.
  - cbn [replace]. rewrite (strip_prefix_head _ _ _ H).
    simpl in H. apply orb_false_elim in H as [_ Hs].
    rewrite (IH Hs). reflexivity.
Qed.

Lemma span_all (p : ascii -> bool) (s : string) :
  all_chars p s = true -> span p s = (s, EmptyString).
Proof.
  induction s as [|c s IH]; simpl; [reflexivity|].
  intros H. apply andb_prop in H as [Hc Hs].
  rewrite Hc, (IH Hs). reflexivity.
Qed.

Lemma span_until (p : ascii -> bool) (s : string) (c : ascii) (r : string) :
  all_chars p s = true -> p c = false ->
  span p (s +:+ String c r) = (s, String c r).
Proof.
  intros Hs Hc. induction s as [|a s IH]; simpl.
  - rewrite Hc. reflexivity.
  - simpl in Hs. apply andb_prop in Hs as [Ha Hs].
    rewrite Ha, (IH Hs). reflexivity.
Qed.

Lemma trim_end_id (s : string) :
  all_chars (fun c => negb (is_space c)) s = true -> trim_end s = s.
Proof.
  induction s as [|c s IH]; simpl; [reflexivity|].
  intros H. apply andb_prop in H as [Hc Hs].
  rewrite (IH Hs). destruct s; [|reflexivity].
  apply negb_true_iff in Hc. rewrite Hc. reflexivity.
Qed.

Lemma trim_id (s : string) :
  all_chars (fun c => negb (is_space c)) s = true -> trim s = s.
Proof.
  intros H. unfold trim, trim_start.
  replace (drop_while is_space s) with s; [apply trim_end_id, H|].
  destruct s as [|c s]; simpl; [reflexivity|].
  simpl in H. apply andb_prop in H as [Hc _].
  apply negb_true_iff in Hc. rewrite Hc. reflexivity.
Qed.

Lemma append_longer (a : string) (c : ascii) (b : string) :
  a <> a +:+ String c b.
Proof.
  induction a as [|x a IH]; [discriminate|].
  change (String x a +:+ String c b) with (String x (a +:+ String c b)).
  intros [= H]. exact (IH H).
Qed.

End StringFacts.

(** ** Decimal rendering and [Number] *)

Section NumberFacts.

Local Ltac on_digit c H :=
  destruct c as [[|] [|] [|] [|] [|] [|] [|] [|]];
  vm_compute in H; try discriminate H; clear H.

Lemma digit_not_space (c : ascii) :
  is_digit c = true -> negb (is_space c) = true.
Proof. intros H. on_digit c H; reflexivity. Qed.

Lemma digit_radix_of (c : ascii) : is_digit c = true -> radix_of c = None.
Proof. intros H. on_digit c H; reflexivity. Qed.

Lemma digit_strip_sign (c : ascii) (s : string) :
  is_digit c = true -> strip_sign (String c s) = (false, String c s).
Proof. intros H. on_digit c H; reflexivity. Qed.

Lemma digit_not_Infinity (c : ascii) (s : string) :
  is_digit c = true -> String.eqb (String c s) "Infinity" = false.
Proof. intros H. on_digit c H; reflexivity. Qed.

Lemma string_of_uint_digits (d : uint) :
  all_chars is_digit (NilEmpty.string_of_uint d) = true.
Proof. induction d; simpl; auto. Qed.

(** The decimal rendering of a non-negative integer: digits only, at
    least one, and read back by [digits_value]. *)
Lemma Number_toString_digits (z : Z) :
  0 <= z ->
  exists c s,
    Number_toString z = String c s
    /\ all_chars is_digit (String c s) = true
    /\ digits_value (String c s) = z.
Proof.
  intros Hz. unfold Number_toString.
  destruct z as [|p|p]; [| |lia].
  - exists "0"%char, EmptyString. repeat split.
  - cbn [Z.to_int NilZero.string_of_int].
    pose proof (DecimalPos.Unsigned.to_uint_nonnil p) as Hnil.
    pose proof (DecimalPos.Unsigned.of_to p) as Hof.
    pose proof (string_of_uint_digits (Pos.to_uint p)) as Hd.
    pose proof (NilEmpty.usu (Pos.to_uint p)) as Husu.
    assert (Hs : NilZero.string_of_uint (Pos.to_uint p)
                 = NilEmpty.string_of_uint (Pos.to_uint p))
      by (destruct (Pos.to_uint p); [congruence | reflexivity..]).
    rewrite Hs.
    destruct (NilEmpty.string_of_uint (Pos.to_uint p)) as [|c s] eqn:E.
    + destruct (Pos.to_uint p); simpl in E; congruence.
    + exists c, s. repeat split; [assumption|].
      unfold digits_value. rewrite Husu. unfold Z.of_uint.
      rewrite Hof. reflexivity.
Qed.

Lemma non_decimal_literal_none (c k : ascii) (r : string) :
  radix_of k = None -> non_decimal_literal (String c (String k r)) = None.
Proof.
  intros H. unfold non_decimal_literal. rewrite H.
  destruct (Ascii.eqb c "0"); reflexivity.
Qed.

Lemma non_decimal_literal_digits (c : ascii) (s r : string) :
  all_chars is_digit s = true ->
  (forall k r', r = String k r' -> radix_of k = None) ->
  non_decimal_literal (String c (s +:+ r)) = None.
Proof.
  intros H Hr. destruct s as [|k s]; simpl.
  - destruct r as [|k r']; [reflexivity|].
    apply non_decimal_literal_none. eauto.
  - simpl in H. apply andb_prop in H as [Hk _].
    apply non_decimal_literal_none, digit_radix_of, Hk.
Qed.

Lemma append_empty (s : string) : s +:+ EmptyString = s.
Proof.
  induction s as [|a s IH]; [reflexivity|].
  change (String a (s +:+ EmptyString) = String a s). rewrite IH. reflexivity.
Qed.

(** A run of digits is the numeric literal of its value. *)
Lemma Number_digits (c : ascii) (s : string) :
  all_chars is_digit (String c s) = true ->
  Number (String c s) = of_Z (digits_value (String c s)).
Proof.
  intros H. unfold Number.
  rewrite (trim_id _ (all_chars_impl _ _ _ digit_not_space H)).
  cbn [String.eqb].
  pose proof H as H'. simpl in H'. apply andb_prop in H' as [Hc Hs].
  pose proof (non_decimal_literal_digits c s EmptyString Hs) as Hn.
  rewrite append_empty in Hn. rewrite Hn by discriminate.
  rewrite (digit_strip_sign _ _ Hc), (digit_not_Infinity _ _ Hc).
  unfold unsigned_decimal. rewrite (span_all _ _ H).
  cbn. unfold of_Z, inject_Z, Qplus.
  change (pow10 (- Z.of_nat 0)) with (1 # 1)%Q. cbn.
  do 2 f_equal. lia.
Qed.

(** A run of digits followed by [.wav] is not a numeric literal. *)
Lemma Number_digits_wav (c : ascii) (s : string) :
  all_chars is_digit (String c s) = true ->
  Number (String c s +:+ ".wav") = NaN.
Proof.
  intros H. unfold Number.
  assert (Hsp : all_chars (fun c => negb (is_space c))
                          (String c s +:+ ".wav") = true).
  { rewrite all_chars_app, (all_chars_impl _ _ _ digit_not_space H).
    reflexivity. }
  rewrite (trim_id _ Hsp).
  pose proof H as H'. simpl in H'. apply andb_prop in H' as [Hc Hs].
  assert (Hn : non_decimal_literal (String c s +:+ ".wav") = None).
  { apply (non_decimal_literal_digits c s ".wav" Hs).
    intros k r' [= <- <-]. reflexivity. }
  rewrite Hn.
  change (String c s +:+ ".wav") with (String c (s +:+ ".wav")).
  cbn [String.eqb].
  rewrite (digit_strip_sign _ _ Hc), (digit_not_Infinity _ _ Hc).
  unfold unsigned_decimal.
  change (String c (s +:+ ".wav")) with (String c s +:+ String "." "wav").
  rewrite (span_until is_digit (String c s) "." "wav" H eq_refl).
  reflexivity.
Qed.

End NumberFacts.

(** ** The filename codec *)

Section CodecFacts.

Lemma Math_round_inject_Z (z : Z) : Math_round (inject_Z z) = z.
Proof.
  unfold Math_round, Qfloor, inject_Z, Qplus. cbn.
  change (Z.pos (1 * 2)) with 2.
  replace (z * 2 + 1 * 1) with (1 + z * 2) by lia.
  rewrite Z.div_add by lia. reflexivity.
Qed.

Lemma Math_round_nonneg (d : Q) : Qle 0 d -> 0 <= Math_round d.
Proof.
  intros H. unfold Math_round.
  change 0 with (Qfloor 0). apply Qfloor_resp_le.
  apply Qle_trans with d; [exact H|].
  rewrite <- (Qplus_0_r d) at 1. apply Qplus_le_r. discriminate.
Qed.

Lemma new_Date_of_Z (t : Z) :
  Z.abs t <= 8640000000000000 -> new_Date (of_Z t) = DateAt t.
Proof.
  intros H. unfold new_Date, of_Z, inject_Z, Qle_bool, Qabs.
  cbn [Qnum Qden]. rewrite Z.quot_1_r.
  destruct (Z.leb_spec (Z.abs t * 1) (8640000000000000 * 1));
    [reflexivity | lia].
Qed.

(** The three segments of an encoded name. *)
Lemma split_encode (id0 : string) (t : Z) (d : Q) :
  contains "_" id0 = false -> 0 <= t -> Qle 0 d ->
  split "_" (Codec.encode id0 t d)
  = [id0; Number_toString t; Number_toString (Math_round d) +:+ ".wav"].
Proof.
  intros Hid Ht Hd.
  destruct (Number_toString_digits t Ht) as (c & s & Et & Hdt & _).
  destruct (Number_toString_digits _ (Math_round_nonneg d Hd))
    as (c' & s' & Ed & Hdd & _).
  unfold Codec.encode.
  change (id0 +:+ "_" +:+ ?r) with (id0 +:+ String "_" r).
  rewrite (split_at_first _ _ _ Hid).
  change (Number_toString t +:+ "_" +:+ ?r)
    with (Number_toString t +:+ String "_" r).
  rewrite split_at_first
    by (rewrite Et; apply (all_chars_contains is_digit); [reflexivity|exact Hdt]).
  rewrite split_without; [reflexivity|].
  rewrite contains_app, Ed.
  rewrite (all_chars_contains is_digit "_" _ eq_refl Hdd). reflexivity.
Qed.

(** What decoding an encoded name gives: the id and the timestamp come
    back, the duration does not: its segment still carries the
    extension, which [Number] does not accept. *)
Lemma decode_encode (now : Z) (id0 : string) (t : Z) (d : Q) :
  contains "_" id0 = false -> 0 <= t -> Qle 0 d ->
  Codec.decode now (Codec.encode id0 t d)
  = Codec.mkDecoded id0 (of_Z t) NaN.
Proof.
  intros Hid Ht Hd. unfold Codec.decode.
  rewrite (split_encode _ _ _ Hid Ht Hd).
  destruct (Number_toString_digits t Ht) as (c & s & Et & Hdt & Hvt).
  destruct (Number_toString_digits _ (Math_round_nonneg d Hd))
    as (c' & s' & Ed & Hdd & _).
  unfold Codec.try_decode. cbn [nth lookup list_lookup length Nat.ltb Nat.leb].
  rewrite Et, Ed.
  rewrite (replace_absent "." "wav" "" (String c s))
    by (apply (all_chars_contains is_digit); [reflexivity|exact Hdt]).
  rewrite (Number_digits _ _ Hdt), Hvt, (Number_digits_wav _ _ Hdd).
  reflexivity.
Qed.

(** A name without the delimiter has no second segment: the [catch]
    supplies the fallbacks. *)
Lemma decode_fallback (now : Z) (name : string) :
  contains "_" name = false ->
  Codec.decode now name = Codec.mkDecoded name (of_Z now) (of_Z 0).
Proof.
  intros H. unfold Codec.decode. rewrite (split_without _ _ H). reflexivity.
Qed.

Example decode_garbage (now : Z) :
  Codec.decode now "garbage.wav"
  = Codec.mkDecoded "garbage.wav" (of_Z now) (of_Z 0).
Proof. reflexivity. Qed.

(** The service's decoder, on a name without a second segment, takes the
    reading of the clock for the id. *)
Example service_decode_garbage :
  Codec.service_decode 1700000000000 "doc/recordings/garbage.wav"
                       "garbage.wav"
  = mkAudioFile "1700000000000" "doc/recordings/garbage.wav" "garbage.wav"
                (of_Z 0) (DateAt 1700000000000).
Proof. reflexivity. Qed.

(** With a second segment the [try] block completes, whatever the
    segments hold: the id is the first segment. *)
Lemma decode_no_fallback (now : Z) (a b : string) :
  contains "_" a = false ->
  Codec.d_id (Codec.decode now (a +:+ String "_" b)) = a.
Proof.
  intros H. unfold Codec.decode. rewrite (split_at_first _ _ _ H).
  unfold Codec.try_decode. cbn [nth lookup list_lookup].
  destruct (split "_" b) as [|p1 ps] eqn:E.
  - destruct b; simpl in E; [discriminate|].
    destruct (Ascii.eqb a0 "_"); [discriminate|].
    destruct (split "_" b); discriminate.
  - reflexivity.
Qed.

End CodecFacts.

(** ** [Array.prototype.sort] with the recency comparator *)

Section SortFacts.
Context {A : Type} (key : A -> Date).

Local Abbreviation sort := (ArraySort.sort (recency key)).
Local Abbreviation precedes := (ArraySort.precedes (recency key)).
Local Abbreviation binary_insert := (ArraySort.binary_insert (recency key)).
Local Abbreviation older_or_same := (fun a b : A => time_of key b <= time_of key a).
Local Abbreviation newer := (fun a b : A => time_of key a < time_of key b).

Lemma ge_number_valid (x y : Z) :
  ge_number (of_Z x) (of_Z y) = true <-> y <= x.
Proof.
  unfold ge_number, of_Z, inject_Z, Qle_bool. cbn [Qnum Qden].
  rewrite Z.leb_le. lia.
Qed.

Lemma negative_valid (x y : Z) :
  ArraySort.negative (sub (of_Z y) (of_Z x)) = true <-> y < x.
Proof.
  unfold ArraySort.negative, sub, of_Z, inject_Z, Qminus, Qplus, Qopp,
    Qle_bool. cbn [Qnum Qden].
  rewrite negb_true_iff, Z.leb_gt. lia.
Qed.

Lemma precedes_valid (x y : A) :
  valid_date key x -> valid_date key y ->
  (precedes x y = true <-> time_of key y < time_of key x).
Proof.
  unfold valid_date, ArraySort.precedes, recency, time_of.
  destruct (key x) as [tx|], (key y) as [ty|]; try congruence.
  intros _ _. cbn [getTime]. apply negative_valid.
Qed.

Lemma most_recent_first_valid (l : list A) :
  Forall (valid_date key) l ->
  (most_recent_first key l <-> StronglySorted older_or_same l).
Proof.
  intros Hl.
  assert (Htrans : Transitive older_or_same) by (intros a b c; lia).
  assert (E : most_recent_first key l <-> Sorted older_or_same l).
  { unfold most_recent_first.
    induction Hl as [|a l Ha Hl IH]; [split; constructor|].
    split; intros Hs; inversion Hs as [|? ? Hs' Hhd]; subst;
      (constructor; [apply IH, Hs'|]);
      destruct Hhd as [|b l' Hab]; constructor;
      inversion Hl as [|? ? Hb _]; subst;
      unfold valid_date, time_of in *;
      destruct (key a) as [ta|], (key b) as [tb|]; try congruence;
      cbn [getTime] in *; apply ge_number_valid; exact Hab. }
  rewrite E. split; [apply Sorted_StronglySorted, Htrans|].
  apply StronglySorted_Sorted.
Qed.

(** *** The run at the start *)

Lemma run_rest_app (descending : bool) (previous : A) (l run rest : list A) :
  ArraySort.run_rest (recency key) descending previous l = (run, rest) ->
  l = (run ++ rest)%list.
Proof.
  revert previous run rest.
  induction l as [|current l IH]; intros previous run rest;
    cbn [ArraySort.run_rest].
  - intros [= <- <-]. reflexivity.
  - destruct (Bool.eqb _ descending); [|intros [= <- <-]; reflexivity].
    destruct (ArraySort.run_rest _ descending current l) as [run' rest']
      eqn:E.
    intros [= <- <-]. rewrite (IH _ _ _ E). reflexivity.
Qed.

Lemma run_rest_ascending (previous : A) (l run rest : list A) :
  Forall (valid_date key) (previous :: l) ->
  ArraySort.run_rest (recency key) false previous l = (run, rest) ->
  StronglySorted older_or_same (previous :: run).
Proof.
  revert previous run rest.
  induction l as [|current l IH]; intros previous run rest Hv;
    cbn [ArraySort.run_rest].
  - intros [= <- <-]. repeat constructor.
  - inversion Hv as [|? ? Hp Hv']; subst.
    inversion Hv' as [|? ? Hc _]; subst.
    destruct (precedes current previous) eqn:Ep; cbn [Bool.eqb].
    + intros [= <- <-]. repeat constructor.
    + destruct (ArraySort.run_rest _ false current l) as [run' rest'] eqn:E.
      intros [= <- <-].
      pose proof (IH _ _ _ Hv' E) as Hs.
      assert (Hpc : time_of key current <= time_of key previous).
      { destruct (Z.le_gt_cases (time_of key current) (time_of key previous))
          as [H|H]; [exact H|].
        apply (precedes_valid current previous Hc Hp) in H. congruence. }
      constructor; [exact Hs|]. constructor; [exact Hpc|].
      apply StronglySorted_inv in Hs as [_ Hall].
      eapply Forall_impl; [exact Hall|]. cbn. intros b Hb. lia.
Qed.

Lemma run_rest_descending (previous : A) (l run rest : list A) :
  Forall (valid_date key) (previous :: l) ->
  ArraySort.run_rest (recency key) true previous l = (run, rest) ->
  StronglySorted newer (previous :: run).
Proof.
  revert previous run rest.
  induction l as [|current l IH]; intros previous run rest Hv;
    cbn [ArraySort.run_rest].
  - intros [= <- <-]. repeat constructor.
  - inversion Hv as [|? ? Hp Hv']; subst.
    inversion Hv' as [|? ? Hc _]; subst.
    destruct (precedes current previous) eqn:Ep; cbn [Bool.eqb].
    + destruct (ArraySort.run_rest _ true current l) as [run' rest'] eqn:E.
      intros [= <- <-].
      pose proof (IH _ _ _ Hv' E) as Hs.
      apply (precedes_valid current previous Hc Hp) in Ep.
      constructor; [exact Hs|]. constructor; [exact Ep|].
      apply StronglySorted_inv in Hs as [_ Hall].
      eapply Forall_impl; [exact Hall|]. cbn. intros b Hb. lia.
    + intros [= <- <-]. repeat constructor.
Qed.

(** A run of strictly growing dates, reversed: most recent first, and no
    two of its entries have one date. *)
Lemma newer_rev (l : list A) :
  StronglySorted newer l -> StronglySorted older_or_same (rev l).
Proof.
  induction 1 as [|a l Hs IH Hall]; cbn [rev]; [constructor|].
  apply StronglySorted_app_2; [|exact IH|repeat constructor].
  intros x1 x2 H1 H2. apply list_elem_of_singleton in H2 as ->.
  apply list_elem_of_In, in_rev, list_elem_of_In in H1.
  rewrite Forall_forall in Hall. specialize (Hall _ H1). cbn in Hall. lia.
Qed.

Lemma newer_created_at (d : Date) (l : list A) :
  Forall (valid_date key) l -> StronglySorted newer l ->
  (length (created_at key d l) <= 1)%nat.
Proof.
  unfold created_at. intros Hv.
  induction 1 as [|a l Hs IH Hall]; [cbn; lia|].
  inversion Hv as [|? ? Ha Hv']; subst.
  rewrite filter_cons. case_decide as Hd; [|apply IH, Hv'].
  replace (filter (fun a0 => key a0 = d) l) with (@nil A); [cbn; lia|].
  symmetry. apply elem_of_nil_inv. intros b Hb.
  apply list_elem_of_filter in Hb as [Hkb Hin].
  rewrite Forall_forall in Hall. specialize (Hall _ Hin). cbn in Hall.
  unfold time_of in Hall. rewrite Hd, Hkb in Hall. destruct d; lia.
Qed.

Lemma created_at_rev (d : Date) (l : list A) :
  Forall (valid_date key) l -> StronglySorted newer l ->
  created_at key d (rev l) = created_at key d l.
Proof.
  intros Hv Hs. pose proof (newer_created_at d l Hv Hs) as Hlen.
  assert (E : created_at key d (rev l) = rev (created_at key d l)).
  { clear. unfold created_at. induction l as [|a l IH]; [reflexivity|].
    cbn [rev]. rewrite filter_app, IH, filter_cons, filter_nil.
    rewrite (filter_cons _ a). case_decide; cbn [rev];
      [reflexivity | apply app_nil_r]. }
  rewrite E. destruct (created_at key d l) as [|a [|b k]];
    [reflexivity | reflexivity | cbn in Hlen; lia].
Qed.

(** The run at the start of an array of valid dates is most recent
    first, and entries of one date are in it in their order. *)
Lemma count_and_make_run_valid (l run rest : list A) :
  Forall (valid_date key) l ->
  ArraySort.count_and_make_run (recency key) l = (run, rest) ->
  StronglySorted older_or_same run
  /\ forall d, created_at key d (run ++ rest) = created_at key d l.
Proof.
  intros Hv. unfold ArraySort.count_and_make_run.
  destruct l as [|low [|second l]].
  - intros [= <- <-]. split; [constructor | reflexivity].
  - intros [= <- <-]. split; [repeat constructor | reflexivity].
  - inversion Hv as [|? ? Hlow Hv']; subst.
    inversion Hv' as [|? ? Hsecond _]; subst.
    destruct (ArraySort.run_rest _ _ second l) as [run' rest'] eqn:E.
    pose proof (run_rest_app _ _ _ _ _ E) as ->.
    destruct (precedes second low) eqn:Ep;
      intros Heq; apply pair_equal_spec in Heq as [<- <-].
    + pose proof (run_rest_descending _ _ _ _ Hv' E) as Hs.
      apply (precedes_valid second low Hsecond Hlow) in Ep.
      assert (Hs' : StronglySorted newer (low :: second :: run')).
      { constructor; [exact Hs|]. constructor; [exact Ep|].
        apply StronglySorted_inv in Hs as [_ Hall].
        eapply Forall_impl; [exact Hall|]. cbn. intros b Hb. lia. }
      assert (Hv1 : Forall (valid_date key) (low :: second :: run')).
      { constructor; [exact Hlow|].
        change (second :: (run' ++ rest')%list)
          with ((second :: run') ++ rest')%list in Hv'.
        apply Forall_app in Hv' as [Hv1 _]. exact Hv1. }
      split; [apply newer_rev, Hs'|].
      intros d. unfold created_at.
      change (low :: second :: (run' ++ rest')%list)
        with ((low :: second :: run') ++ rest')%list.
      rewrite !filter_app. f_equal.
      apply (created_at_rev d _ Hv1 Hs').
    + pose proof (run_rest_ascending _ _ _ _ Hv' E) as Hs.
      split; [|reflexivity].
      assert (Hle : time_of key second <= time_of key low).
      { destruct (Z.le_gt_cases (time_of key second) (time_of key low))
          as [H|H]; [exact H|].
        apply (precedes_valid second low Hsecond Hlow) in H. congruence. }
      constructor; [exact Hs|]. constructor; [exact Hle|].
      apply StronglySorted_inv in Hs as [_ Hall].
      eapply Forall_impl; [exact Hall|]. cbn. intros b Hb. lia.
Qed.

Lemma count_and_make_run_Permutation (l run rest : list A) :
  ArraySort.count_and_make_run (recency key) l = (run, rest) ->
  Permutation (run ++ rest) l.
Proof.
  unfold ArraySort.count_and_make_run.
  destruct l as [|low [|second l]]; try (intros [= <- <-]; cbn;
                                         rewrite ?app_nil_r; reflexivity).
  destruct (ArraySort.run_rest _ _ second l) as [run' rest'] eqn:E.
  pose proof (run_rest_app _ _ _ _ _ E) as ->.
  intros Heq. apply pair_equal_spec in Heq as [<- <-].
  change (low :: second :: (run' ++ rest')%list)
    with ((low :: second :: run') ++ rest')%list.
  apply Permutation_app_tail.
  destruct (precedes second low); [|reflexivity].
  symmetry. apply Permutation_rev.
Qed.

(** *** The binary insertion *)

Lemma strongly_sorted_lookup (l : list A) (i j : nat) (a b : A) :
  StronglySorted older_or_same l -> (i <= j)%nat ->
  l !! i = Some a -> l !! j = Some b -> time_of key b <= time_of key a.
Proof.
  intros Hs. revert i j. induction Hs as [|x l Hs IH Hall]; intros i j Hij.
  - rewrite lookup_nil. discriminate.
  - destruct i as [|i], j as [|j]; cbn; try lia.
    + intros [= ->] [= ->]. lia.
    + intros [= ->] Hb. rewrite Forall_forall in Hall.
      apply (Hall b). eapply list_elem_of_lookup_2, Hb.
    + apply IH. lia.
Qed.

(** On a list that is most recent first, the search ends at the place
    after the entries that are not older than the pivot. *)
Lemma search_place (fuel : nat) (pivot : A) (l : list A) (left right : nat) :
  Forall (valid_date key) l -> valid_date key pivot ->
  StronglySorted older_or_same l ->
  (left <= right <= length l)%nat -> (right - left <= fuel)%nat ->
  (forall i a, (i < left)%nat -> l !! i = Some a ->
               time_of key pivot <= time_of key a) ->
  (forall i a, (right <= i)%nat -> l !! i = Some a ->
               time_of key a < time_of key pivot) ->
  let k := ArraySort.search (recency key) fuel pivot l left right in
  (k <= length l)%nat
  /\ (forall i a, (i < k)%nat -> l !! i = Some a ->
                  time_of key pivot <= time_of key a)
  /\ (forall i a, (k <= i)%nat -> l !! i = Some a ->
                  time_of key a < time_of key pivot).
Proof.
  intros Hv Hp Hs. revert left right.
  induction fuel as [|fuel IH]; intros left right Hlr Hfuel Hleft Hright;
    cbn [ArraySort.search].
  - assert (left = right) as -> by lia. cbn. split; [lia|]. auto.
  - destruct (Nat.ltb_spec left right) as [Hlt|Hge].
    2:{ assert (left = right) as -> by lia. cbn. split; [lia|]. auto. }
    assert (Hhalf : (Nat.div2 (right - left) < right - left)%nat)
      by (apply Nat.lt_div2; lia).
    remember (Nat.div2 (right - left)) as half eqn:Ehalf. clear Ehalf.
    set (mid := (left + half)%nat).
    assert (Hmid : (left <= mid < right)%nat) by (unfold mid; lia).
    destruct (lookup_lt_is_Some_2 l mid ltac:(lia)) as [y Hy].
    rewrite Hy.
    assert (Hvy : valid_date key y).
    { rewrite Forall_forall in Hv. apply Hv.
      eapply list_elem_of_lookup_2, Hy. }
    destruct (precedes pivot y) eqn:Ep.
    + apply (precedes_valid pivot y Hp Hvy) in Ep.
      apply IH; [lia | lia | exact Hleft |].
      intros i a Hi Ha.
      pose proof (strongly_sorted_lookup l mid i y a Hs Hi Hy Ha). lia.
    + assert (Hle : time_of key pivot <= time_of key y).
      { destruct (Z.le_gt_cases (time_of key pivot) (time_of key y))
          as [H|H]; [exact H|].
        apply (precedes_valid pivot y Hp Hvy) in H. congruence. }
      apply IH; [lia | lia | | exact Hright].
      intros i a Hi Ha.
      pose proof (strongly_sorted_lookup l i mid a y Hs ltac:(lia) Ha Hy).
      lia.
Qed.

(** The search goes on until its two bounds meet: the length of the list
    is fuel enough, and more fuel changes nothing. *)
Lemma search_fuel (fuel fuel' : nat) (pivot : A) (l : list A)
      (left right : nat) :
  (right - left <= fuel)%nat -> (right - left <= fuel')%nat ->
  ArraySort.search (recency key) fuel pivot l left right
  = ArraySort.search (recency key) fuel' pivot l left right.
Proof.
  revert fuel' left right.
  induction fuel as [|fuel IH]; intros fuel' left right H H'.
  - destruct fuel' as [|fuel']; [reflexivity|]. cbn [ArraySort.search].
    destruct (Nat.ltb_spec left right); [lia | reflexivity].
  - destruct fuel' as [|fuel']; cbn [ArraySort.search].
    + destruct (Nat.ltb_spec left right); [lia | reflexivity].
    + destruct (Nat.ltb_spec left right) as [Hlt|]; [|reflexivity].
      assert (Hhalf : (Nat.div2 (right - left) < right - left)%nat)
        by (apply Nat.lt_div2; lia).
      remember (Nat.div2 (right - left)) as half eqn:Ehalf. clear Ehalf.
      destruct (l !! _); [|reflexivity].
      destruct (precedes pivot a); apply IH; lia.
Qed.

Lemma binary_insert_Permutation (l : list A) (pivot : A) :
  Permutation (binary_insert l pivot) (l ++ [pivot]).
Proof.
  unfold ArraySort.binary_insert.
  set (k := ArraySort.search (recency key) _ _ _ _ _).
  rewrite <- (take_drop k l) at 3.
  rewrite <- app_assoc. apply Permutation_app_head.
  rewrite <- Permutation_cons_append. reflexivity.
Qed.

Lemma binary_insert_valid (l : list A) (pivot : A) :
  Forall (valid_date key) l -> valid_date key pivot ->
  StronglySorted older_or_same l ->
  StronglySorted older_or_same (binary_insert l pivot)
  /\ forall d, created_at key d (binary_insert l pivot)
               = created_at key d (l ++ [pivot]).
Proof.
  intros Hv Hp Hs. unfold ArraySort.binary_insert.
  destruct (search_place (length l) pivot l 0 (length l) Hv Hp Hs)
    as (Hk & Hbefore & Hafter); [lia | lia | intros; lia | |].
  { intros i a Hi Ha. apply lookup_lt_Some in Ha. lia. }
  set (k := ArraySort.search _ _ _ _ _ _) in *.
  pose proof (take_drop k l) as Etd.
  assert (Hs' : StronglySorted older_or_same (take k l ++ drop k l))
    by (rewrite Etd; exact Hs).
  apply StronglySorted_app in Hs' as (Hcross & Hst & Hsd).
  assert (Htake : forall a, a ∈ take k l ->
                            time_of key pivot <= time_of key a).
  { intros a Ha. apply elem_of_take in Ha as (i & Hi & Hlt).
    exact (Hbefore i a Hlt Hi). }
  assert (Hdrop : forall a, a ∈ drop k l ->
                            time_of key a < time_of key pivot).
  { intros a Ha. apply list_elem_of_lookup in Ha as (i & Hi).
    rewrite lookup_drop in Hi. apply (Hafter (k + i)%nat a); [lia | exact Hi]. }
  split.
  - apply StronglySorted_app_2; [|exact Hst|].
    + intros x1 x2 H1 H2. apply elem_of_cons in H2 as [->|H2].
      * apply Htake, H1.
      * apply (Hcross x1 x2 H1 H2).
    + constructor; [exact Hsd|]. apply Forall_forall. intros b Hb.
      specialize (Hdrop b Hb). cbn. lia.
  - intros d. unfold created_at.
    replace (l ++ [pivot])%list with (take k l ++ drop k l ++ [pivot])%list
      by (rewrite app_assoc, Etd; reflexivity).
    rewrite !filter_app. f_equal.
    rewrite filter_cons, (filter_cons _ pivot), filter_nil.
    case_decide as Hd; [|rewrite app_nil_r; reflexivity].
    replace (filter (fun a => key a = d) (drop k l)) with (@nil A);
      [reflexivity|].
    symmetry. apply elem_of_nil_inv. intros b Hb.
    apply list_elem_of_filter in Hb as [Hkb Hin].
    specialize (Hdrop b Hin). unfold time_of in Hdrop.
    rewrite Hd, Hkb in Hdrop. destruct d; lia.
Qed.

(** *** The sort *)

Lemma fold_binary_insert_Permutation (rest run : list A) :
  Permutation (fold_left binary_insert rest run) (run ++ rest).
Proof.
  revert run. induction rest as [|p rest IH]; intros run; cbn [fold_left].
  - rewrite app_nil_r. reflexivity.
  - rewrite IH, binary_insert_Permutation, <- app_assoc. reflexivity.
Qed.

Lemma fold_binary_insert_valid (rest run : list A) :
  Forall (valid_date key) run -> Forall (valid_date key) rest ->
  StronglySorted older_or_same run ->
  StronglySorted older_or_same (fold_left binary_insert rest run)
  /\ forall d, created_at key d (fold_left binary_insert rest run)
               = created_at key d (run ++ rest).
Proof.
  revert run. induction rest as [|p rest IH]; intros run Hrun Hrest Hs;
    cbn [fold_left].
  - rewrite app_nil_r. auto.
  - inversion Hrest as [|? ? Hp Hrest']; subst.
    destruct (binary_insert_valid run p Hrun Hp Hs) as (Hs1 & Hc1).
    assert (Hv1 : Forall (valid_date key) (binary_insert run p)).
    { eapply Permutation_Forall;
        [symmetry; apply binary_insert_Permutation|].
      apply Forall_app. split; [exact Hrun | repeat constructor; exact Hp]. }
    destruct (IH _ Hv1 Hrest' Hs1) as (Hs2 & Hc2).
    split; [exact Hs2|]. intros d. rewrite Hc2. unfold created_at in *.
    rewrite filter_app, Hc1, <- filter_app, <- app_assoc. reflexivity.
Qed.

(** Sorting keeps every entry: the result is an arrangement of the
    input, whatever the comparator answers. *)
Lemma sort_Permutation (l : list A) : Permutation (sort l) l.
Proof.
  unfold ArraySort.sort.
  destruct (ArraySort.count_and_make_run _ l) as [run rest] eqn:E.
  rewrite fold_binary_insert_Permutation.
  apply (count_and_make_run_Permutation _ _ _ E).
Qed.

(** With valid dates throughout, the result is most recent first. *)
Lemma sort_sorted (l : list A) :
  Forall (valid_date key) l -> most_recent_first key (sort l).
Proof.
  intros Hv.
  assert (Hvs : Forall (valid_date key) (sort l))
    by (eapply Permutation_Forall; [symmetry; apply sort_Permutation|];
        exact Hv).
  apply (most_recent_first_valid _ Hvs).
  unfold ArraySort.sort.
  destruct (ArraySort.count_and_make_run _ l) as [run rest] eqn:E.
  destruct (count_and_make_run_valid _ _ _ Hv E) as (Hs & _).
  assert (Hrr : Forall (valid_date key) (run ++ rest))
    by (eapply Permutation_Forall;
        [symmetry; apply (count_and_make_run_Permutation _ _ _ E) | exact Hv]).
  apply Forall_app in Hrr as [Hrun Hrest].
  apply (fold_binary_insert_valid rest run Hrun Hrest Hs).
Qed.

(** With valid dates throughout, the sort is stable: entries of one date
    keep their order. *)
Lemma sort_stable (d : Date) (l : list A) :
  Forall (valid_date key) l ->
  created_at key d (sort l) = created_at key d l.
Proof.
  intros Hv. unfold ArraySort.sort.
  destruct (ArraySort.count_and_make_run _ l) as [run rest] eqn:E.
  destruct (count_and_make_run_valid _ _ _ Hv E) as (Hs & Hc).
  assert (Hrr : Forall (valid_date key) (run ++ rest))
    by (eapply Permutation_Forall;
        [symmetry; apply (count_and_make_run_Permutation _ _ _ E) | exact Hv]).
  apply Forall_app in Hrr as [Hrun Hrest].
  destruct (fold_binary_insert_valid rest run Hrun Hrest Hs) as (_ & Hc').
  rewrite Hc'. apply Hc.
Qed.

End SortFacts.

(** ** Stopping a recording *)

Section StopRecording.
Variable P : Platform.

(** Nothing is being recorded: the hook returns at once. *)
Lemma hook_stop_idle (a : App) :
  recording (recorder a) = None ->
  Recorder.stopRecording P a = (Returned tt, a).
Proof.
  intros H. unfold Recorder.stopRecording. exec. rewrite H. reflexivity.
Qed.

(** Nothing is being recorded: the service returns null at once. *)
Lemma service_stop_idle (a : App) :
  sv_recording (service a) = None ->
  Service.stopRecording P a = (Returned None, a).
Proof.
  intros H. unfold Service.stopRecording. exec. rewrite H. cbn.
  destruct a; reflexivity.
Qed.

(** The capture is missing or empty: the service gives up its handle,
    reports the error and returns null, the files untouched. *)
Lemma service_stop_missing_or_empty (a : App) (r : NativeRecording)
      (u : string) (status : option Z) :
  sv_recording (service a) = Some r ->
  rec_stopAndUnload r = Returned tt ->
  rec_getStatus r = Returned status ->
  rec_getURI r = Some u -> truthy u = true ->
  missing_or_empty (info_at (world a) u) = true ->
  Service.stopRecording P a
  = (Returned None,
     with_service (fun sv => mkServiceState None (sv_sound sv))
       (logged [StopAndUnload; GetStatus; GetInfo u;
                Console Error "Recording file is missing or empty:"] a)).
Proof.
  intros Hr Hstop Hst Hu Ht Hm. unfold Service.stopRecording. exec.
  rewrite Hr. exec. rewrite Hstop. exec. rewrite Hst. exec.
  rewrite Hu, Ht. exec.
  unfold info_at in *. cbn in *. rewrite Hm. exec. same_state.
Qed.

(** The capture is missing or empty: the hook reports the error and
    returns, leaving its [recording] cell as it was. *)
Lemma hook_stop_missing_or_empty (a : App) (r : NativeRecording)
      (u : string) :
  recording (recorder a) = Some r ->
  rec_stopAndUnload r = Returned tt ->
  rec_getURI r = Some u -> truthy u = true ->
  missing_or_empty (info_at (world a) u) = true ->
  Recorder.stopRecording P a
  = (Returned tt,
     with_recorder
       (fun s => mkRecorderState (recording s) (recordings s) false
                   (permissionResponse s) (recordingDuration s) None)
       (logged [Console Log "Stopping recording..."; StopAndUnload;
                Console Log ("Recording stopped, URI: " +:+ u);
                GetInfo u;
                Console Error "Recording file is missing or empty:"] a)).
Proof.
  intros Hr Hstop Hu Ht Hm. unfold Recorder.stopRecording. exec.
  rewrite Hr. exec. rewrite Hstop. exec. rewrite Hu, Ht. exec.
  unfold info_at in *. cbn in *. rewrite Hm. exec. same_state.
Qed.

End StopRecording.

(** ** Starting a recording *)

Section StartRecording.
Variable P : Platform.

(** The hook holds a denial: it logs it and does nothing else. *)
Lemma hook_start_denied (a : App) (response : PermissionResponse) :
  permissionResponse (recorder a) = Some response ->
  granted response = false ->
  Recorder.startRecording P a
  = (Returned tt, logged [Console Log "No recording permission"] a).
Proof.
  intros H Hg. unfold Recorder.startRecording. exec.
  rewrite H, Hg. exec. same_state.
Qed.

(** The platform answers the service's request with a denial: the
    service reports the failure and returns false; the request is the
    only call it has made to the audio layer. *)
Lemma service_start_denied (a : App) (response : PermissionResponse) :
  requestPermissions P = Returned response ->
  granted response = false ->
  Service.startRecording P a
  = (Returned false,
     logged [RequestPermissions;
             Console Error "Failed to start recording:"] a).
Proof.
  intros H Hg. unfold Service.startRecording, Service.requestPermission.
  exec. rewrite H. exec. rewrite Hg. exec. same_state.
Qed.

(** The hook holds no answer yet: it goes on to configure the audio
    session and to create the recording, whatever the platform would
    have answered. *)
Lemma hook_start_unanswered (a : App) :
  permissionResponse (recorder a) = None ->
  exists cs,
    calls_between a (Recorder.startRecording P a).2 cs
    /\ (setAudioMode P true = Returned tt -> In CreateRecording cs)
    /\ In (SetAudioMode true) cs.
Proof.
  intros H. unfold Recorder.startRecording, calls_between. exec.
  rewrite H. exec.
  destruct (setAudioMode P true) as [[]|e]; exec.
  - destruct (createRecording P) as [r|e]; exec;
      rewrite <- ?app_assoc; cbn; eexists; (split; [reflexivity|]);
      cbn; tauto.
  - rewrite <- ?app_assoc; cbn; eexists; (split; [reflexivity|]).
    split; [discriminate | cbn; tauto].
Qed.

End StartRecording.

(** ** The player *)

Section Playback.
Variable P : Platform.

(** The hook's player, on a clip whose file is missing or empty: the
    error is set and nothing else of the player changes; the look at
    the file is the only call made. *)
Lemma hook_play_missing_or_empty (a : App) (clip : Recording) :
  missing_or_empty (info_at (world a) (uri clip)) = true ->
  Player.playSound P clip a
  = (Returned tt,
     with_player
       (fun p => mkPlayerState (sound p) (playingId p) (isPlaying p)
                   (position p) (pl_duration p)
                   (Some ("File doesn't exist or is empty: " +:+ uri clip)))
       (logged [GetInfo (uri clip)] a)).
Proof.
  intros Hm. unfold Player.playSound, Player.checkFile. exec.
  unfold info_at in *. cbn in *. rewrite Hm. exec. same_state.
Qed.

(** The service's player, on a uri at which there is nothing: no sound
    is created; the sound held before, if any, has been unloaded. *)
Lemma service_play_missing (a : App) (u : string) :
  fi_exists (info_at (world a) u) = false ->
  exists a' cs,
    Service.playRecording P u a = (Returned false, a')
    /\ calls_between a a' cs
    /\ forallb (fun c => negb (is_load_call c)) cs = true
    /\ files (world a') = files (world a).
Proof.
  intros Hm. unfold Service.playRecording, calls_between. exec.
  destruct (sv_sound (service a)) as [x|]; exec.
  - destruct (snd_unload x) as [[]|e]; exec.
    + unfold info_at in *. cbn in *. rewrite Hm. exec.
      rewrite <- ?app_assoc. cbn. eauto 10.
    + rewrite <- ?app_assoc. cbn. eauto 10.
  - unfold info_at in *. cbn in *. rewrite Hm. exec.
    rewrite <- ?app_assoc. cbn. eauto 10.
Qed.

(** The service looks at existence only: on an empty file that exists
    it goes on to create the sound. *)
Lemma service_play_empty (a : App) (u : string) :
  sv_sound (service a) = None ->
  files (world a) !! u = Some 0%N ->
  setAudioMode P false = Returned tt ->
  exists cs,
    calls_between a (Service.playRecording P u a).2 cs
    /\ In (CreateSound u) cs.
Proof.
  intros Hs Hf Hmode. unfold Service.playRecording, calls_between. exec.
  rewrite Hs. exec. unfold info_at. cbn. rewrite Hf. exec.
  rewrite Hmode. exec.
  destruct (createSound P u) as [x|e]; exec.
  - destruct (snd_play x) as [[]|e]; exec;
      rewrite <- ?app_assoc; cbn; eexists; (split; [reflexivity|]);
      cbn; tauto.
  - rewrite <- ?app_assoc; cbn; eexists; (split; [reflexivity|]);
      cbn; tauto.
Qed.

(** The hook's stop: the native sound is stopped, the position reset
    and the playing id cleared; the [sound] cell keeps the handle, which
    is not unloaded. *)
Lemma hook_stop_sound (a : App) (x : NativeSound) :
  sound (player a) = Some x ->
  snd_stop x = Returned tt ->
  Player.stopSound a
  = (Returned tt,
     with_player
       (fun p => mkPlayerState (sound p) None false 0 (pl_duration p)
                   (error p))
       (logged [Stop] a)).
Proof.
  intros Hs Hstop. unfold Player.stopSound. exec.
  rewrite Hs. exec. rewrite Hstop. exec. same_state.
Qed.

(** The service's stop: the native sound is stopped and unloaded, and
    the handle dropped. *)
Lemma service_stop_playback (a : App) (x : NativeSound) :
  sv_sound (service a) = Some x ->
  snd_stop x = Returned tt ->
  snd_unload x = Returned tt ->
  Service.stopPlayback a
  = (Returned tt,
     with_service (fun sv => mkServiceState (sv_recording sv) None)
       (logged [Stop; Unload] a)).
Proof.
  intros Hs Hstop Hun. unfold Service.stopPlayback. exec.
  rewrite Hs. exec. rewrite Hstop. exec. rewrite Hun. exec. same_state.
Qed.

End Playback.

(** ** Deleting a clip *)

Section Delete.

(** [stopPlayback] never throws, and touches neither the files nor the
    hooks. *)
Lemma service_stopPlayback_frame (a : App) :
  exists a' cs,
    Service.stopPlayback a = (Returned tt, a')
    /\ calls_between a a' cs
    /\ files (world a') = files (world a)
    /\ directories (world a') = directories (world a)
    /\ recorder a' = recorder a
    /\ player a' = player a
    /\ (forall x, sv_sound (service a) = Some x -> hd_error cs = Some Stop).
Proof.
  unfold Service.stopPlayback, calls_between. exec.
  destruct (sv_sound (service a)) as [x|]; exec.
  - destruct (snd_stop x) as [[]|e]; exec.
    + destruct (snd_unload x) as [[]|e]; exec;
        rewrite <- ?app_assoc; cbn; eauto 12.
    + rewrite <- ?app_assoc; cbn; eauto 12.
  - exists a, []. rewrite app_nil_r. repeat split; try reflexivity.
    discriminate.
Qed.

Lemma service_stopPlayback_idle (a : App) :
  sv_sound (service a) = None ->
  Service.stopPlayback a = (Returned tt, a).
Proof.
  intros H. unfold Service.stopPlayback. exec. rewrite H. reflexivity.
Qed.

(** The service's delete of a file that exists: playback is stopped
    first, then the file is looked at and deleted. *)
Lemma service_delete_existing (a : App) (u : string) (size : N) :
  files (world a) !! u = Some size ->
  Service.deleteRecording u a
  = (Returned true,
     with_files (delete u)
       (logged [GetInfo u; Delete u] (Service.stopPlayback a).2)).
Proof.
  intros Hf. unfold Service.deleteRecording. exec.
  destruct (sv_sound (service a)) as [x|] eqn:Hs.
  - destruct (service_stopPlayback_frame a)
      as (a' & cs & E & _ & Hfiles & _).
    rewrite <- Hfiles in Hf.
    rewrite E. exec. unfold info_at. cbn. rewrite Hf. exec.
    rewrite Hf. same_state.
  - rewrite (service_stopPlayback_idle a Hs). exec.
    unfold info_at. cbn. rewrite Hf. exec. rewrite Hf. same_state.
Qed.

(** The service's delete of a file that is not there: a warning, false,
    and the files as they were (playback stopped all the same). *)
Lemma service_delete_absent (a : App) (u : string) :
  fi_exists (info_at (world a) u) = false ->
  Service.deleteRecording u a
  = (Returned false,
     logged [GetInfo u; Console Warn "File does not exist, nothing to delete:"]
       (Service.stopPlayback a).2).
Proof.
  intros Hf. unfold Service.deleteRecording. exec.
  destruct (sv_sound (service a)) as [x|] eqn:Hs.
  - destruct (service_stopPlayback_frame a)
      as (a' & cs & E & _ & Hfiles & Hdirs & _).
    rewrite E. exec. unfold info_at in *. cbn in *.
    rewrite <- Hfiles, <- Hdirs in Hf. rewrite Hf. exec. same_state.
  - rewrite (service_stopPlayback_idle a Hs). exec.
    unfold info_at in *. cbn in *. rewrite Hf. exec. same_state.
Qed.

(** The hook's delete of a registered clip whose file exists: the file
    is deleted and the entries of that id leave the snapshot. Nothing
    is asked of the player. *)
Lemma hook_delete_existing (a : App) (id0 : string) (clip : Recording)
      (size : N) :
  List.find (fun x => String.eqb (id x) id0) (recordings (recorder a))
  = Some clip ->
  files (world a) !! uri clip = Some size ->
  Recorder.deleteRecording id0 a
  = (Returned tt,
     with_recorder
       (fun s => mkRecorderState (recording s)
                   (List.filter (fun x => negb (String.eqb (id x) id0))
                                (recordings s))
                   (isRecording s) (permissionResponse s)
                   (recordingDuration s) (startTime s))
       (with_files (delete (uri clip)) (logged [Delete (uri clip)] a))).
Proof.
  intros Hfind Hf. unfold Recorder.deleteRecording. exec.
  rewrite Hfind. exec. rewrite Hf. exec. same_state.
Qed.


End Delete.

(** ** Running operations step by step *)

Section Running.

Lemma run_bind {A B} (m : Async A) (f : A -> Async B) (s s' : App) (x : A) :
  m s = (Returned x, s') -> (m ≫= f) s = f x s'.
Proof. intros H. unfold mbind, Async_bind. rewrite H. reflexivity. Qed.

Lemma run_bind_thrown {A B} (m : Async A) (f : A -> Async B) (s s' : App)
      (e : string) :
  m s = (Thrown e, s') -> (m ≫= f) s = (Thrown e, s').
Proof. intros H. unfold mbind, Async_bind. rewrite H. reflexivity. Qed.

Lemma run_getInfoAsync (path : string) (s : App) :
  getInfoAsync path s
  = (Returned (info_at (world s) path), logged [GetInfo path] s).
Proof. reflexivity. Qed.

Lemma same_but_log_refl (a : App) : same_but_log a a.
Proof. repeat split. Qed.

Lemma same_but_log_trans (a b c : App) :
  same_but_log a b -> same_but_log b c -> same_but_log a c.
Proof. unfold same_but_log. intuition congruence. Qed.

Lemma same_but_log_logged (cs : list Call) (a : App) :
  same_but_log a (logged cs a).
Proof. repeat split. Qed.

Lemma same_but_log_info (a s : App) (path : string) :
  same_but_log a s -> info_at (world s) path = info_at (world a) path.
Proof. intros (Hf & Hd & _). unfold info_at. rewrite Hf, Hd. reflexivity. Qed.

(** A mapper that always returns and leaves the state as it is but for
    the log does so on every element of the list. *)
Lemma mapM_async_same_but_log {A B} (f : A -> Async B) (R : A -> B -> Prop)
      (l : list A) :
  (forall x s, exists y s',
      f x s = (Returned y, s') /\ same_but_log s s' /\ R x y) ->
  forall s, exists ys s',
      mapM_async f l s = (Returned ys, s')
      /\ same_but_log s s' /\ Forall2 R l ys.
Proof.
  intros Hf. induction l as [|x l IH]; intros s.
  - exists [], s. repeat split. constructor.
  - destruct (Hf x s) as (y & s1 & E1 & H1 & HR).
    destruct (IH s1) as (ys & s2 & E2 & H2 & HRs).
    exists (y :: ys), s2. split; [|split].
    + cbn [mapM_async]. rewrite (run_bind _ _ _ _ _ E1).
      rewrite (run_bind _ _ _ _ _ E2). reflexivity.
    + eapply same_but_log_trans; eassumption.
    + constructor; assumption.
Qed.

End Running.

(** ** The registry *)

Section Registry.
Variable P : Platform.

(** The mapper of the hook's [loadRecordings] never throws: it yields
    the entry decoded from the name, with some reading of the clock for
    [now]. *)
Lemma hook_toRecording (fileName : string) (fileInfo : FileInfo) (s : App) :
  exists now s',
    Recorder.toRecording P fileName fileInfo s
    = (Returned (Codec.recordingOf (fi_uri fileInfo) fileName
                   (Codec.decode now fileName)), s')
    /\ same_but_log s s'.
Proof.
  unfold Recorder.toRecording, Codec.decode.
  destruct (Codec.try_decode (split "_" fileName)) as [d|].
  - exists 0, s. split; [reflexivity | apply same_but_log_refl].
  - eexists (clock P _), _. split; [reflexivity|]. repeat split.
Qed.

(** A refresh never throws; it leaves files, player and service as
    they are, and of the recorder it changes the snapshot only. *)
Lemma hook_loadRecordings_frame (a : App) :
  exists a',
    Recorder.loadRecordings P a = (Returned tt, a')
    /\ files (world a') = files (world a)
    /\ player a' = player a
    /\ service a' = service a
    /\ recording (recorder a') = recording (recorder a)
    /\ isRecording (recorder a') = isRecording (recorder a).
Proof.
  unfold Recorder.loadRecordings, try_catch.
  rewrite (run_bind _ _ _ _ _ (run_getInfoAsync _ _)).
  destruct (fi_exists (info_at (world a) (recordingsDirectory P))) eqn:Hex;
    cbn [negb].
  2:{ eexists. split; [reflexivity|]. repeat split. }
  unfold readDirectoryAsync. exec.
  destruct (bool_decide _) eqn:Hdir; exec.
  2:{ eexists. split; [reflexivity|]. repeat split. }
  match goal with
  | |- context [mapM_async ?f ?l ?st] =>
      assert (Hinfo : forall x s, exists y s',
                 f x s = (Returned y, s') /\ same_but_log s s' /\ True);
      [|destruct (mapM_async_same_but_log f (fun _ _ => True) l Hinfo st)
          as (infos & s1 & E1 & H1 & _)]
  end.
  { intros x s. eexists _, _. split; [reflexivity|].
    split; [|exact I]. repeat split. }
  rewrite E1.
  match goal with
  | |- context [mapM_async ?f ?l s1] =>
      assert (Hrec : forall x s, exists y s',
                 f x s = (Returned y, s') /\ same_but_log s s' /\ True);
      [|destruct (mapM_async_same_but_log f (fun _ _ => True) l Hrec s1)
          as (recs & s2 & E2 & H2 & _)]
  end.
  { intros [name info] s.
    destruct (hook_toRecording name info s) as (now & s' & E & Hs).
    eexists _, s'. split; [|split; [exact Hs | exact I]].
    rewrite <- E. unfold Recorder.toRecording. exec. reflexivity. }
  rewrite E2. exec.
  destruct H1 as (Hf1 & _ & Hr1 & Hp1 & Hs1).
  destruct H2 as (Hf2 & _ & Hr2 & Hp2 & Hs2).
  cbn in *.
  eexists. split; [reflexivity|]. cbn.
  rewrite Hf2, Hf1, Hp2, Hp1, Hs2, Hs1, Hr2, Hr1. repeat split.
Qed.

Lemma Forall2_zip_l {A B C} (Q : A -> B -> Prop) (R : A * B -> C -> Prop)
      (l : list A) (k : list B) (m : list C) :
  Forall2 Q l k -> Forall2 R (zip l k) m ->
  Forall2 (fun x z => exists y, Q x y /\ R (x, y) z) l m.
Proof.
  intros HQ. revert m. induction HQ as [|x y l k Hxy HQ IH]; intros m HR.
  - inversion HR. constructor.
  - cbn in HR. inversion HR as [|? z ? m' Hz HR']; subst.
    constructor; [eauto | apply IH, HR'].
Qed.

(** A refresh of an existing directory: the snapshot becomes the sorted
    list of the entries decoded from its .wav names, one entry for each
    name. *)
Lemma hook_loadRecordings_listing (a : App) :
  recordingsDirectory P ∈ directories (world a) ->
  exists recs,
    recordings (recorder (Recorder.loadRecordings P a).2)
    = ArraySort.sort by_recency recs
    /\ Forall2
         (fun name r =>
            exists now,
              r = Codec.recordingOf (recordingsDirectory P +:+ name) name
                    (Codec.decode now name))
         (wav_names P a) recs.
Proof.
  intros Hdir. unfold Recorder.loadRecordings, try_catch.
  rewrite (run_bind _ _ _ _ _ (run_getInfoAsync _ _)).
  assert (Hex : fi_exists (info_at (world a) (recordingsDirectory P)) = true).
  { unfold info_at. destruct (files (world a) !! _); [reflexivity|].
    cbn. apply bool_decide_eq_true_2, Hdir. }
  rewrite Hex. cbn [negb]. unfold readDirectoryAsync. exec.
  rewrite (bool_decide_eq_true_2 _ Hdir). exec.
  fold (wav_names P a).
  match goal with
  | |- context [mapM_async ?f (wav_names P a) ?st] =>
      assert (Hinfo : forall x s, exists y s',
                 f x s = (Returned y, s') /\ same_but_log s s'
                 /\ fi_uri y = recordingsDirectory P +:+ x);
      [|destruct (mapM_async_same_but_log f _ (wav_names P a) Hinfo st)
          as (infos & s1 & E1 & H1 & HQ)]
  end.
  { intros x s. eexists _, _. split; [reflexivity|].
    split; [repeat split|]. unfold info_at. cbn.
    destruct (files (world s) !! _); reflexivity. }
  rewrite E1.
  match goal with
  | |- context [mapM_async ?f ?l s1] =>
      assert (Hrec : forall x s, exists y s',
                 f x s = (Returned y, s') /\ same_but_log s s'
                 /\ exists now,
                      y = Codec.recordingOf (fi_uri x.2) x.1
                            (Codec.decode now x.1));
      [|destruct (mapM_async_same_but_log f _ l Hrec s1)
          as (recs & s2 & E2 & H2 & HR)]
  end.
  { intros [name info] s.
    destruct (hook_toRecording name info s) as (now & s' & E & Hs).
    exists (Codec.recordingOf (fi_uri info) name (Codec.decode now name)), s'.
    split; [|split; [exact Hs | exists now; reflexivity]].
    rewrite <- E. unfold Recorder.toRecording. exec. reflexivity. }
  rewrite E2. exec. exists recs. split; [reflexivity|].
  eapply Forall2_impl; [exact (Forall2_zip_l _ _ _ _ _ HQ HR)|].
  cbn. intros name r (info & Hu & now & ->). exists now.
  rewrite Hu. reflexivity.
Qed.

End Registry.

(** ** Committing a recording *)

Section Commit.
Variable P : Platform.

Lemma count_char_app (c : ascii) (a b : string) :
  count_char c (a +:+ b) = (count_char c a + count_char c b)%nat.
Proof.
  induction a as [|x a IH]; [reflexivity|].
  change (String x a +:+ b) with (String x (a +:+ b)).
  cbn [count_char]. rewrite IH. lia.
Qed.

(** An encoded name has its two delimiters. *)
Lemma encode_delimiters (id0 : string) (t : Z) (d : Q) :
  (2 <= count_char "_" (Codec.encode id0 t d))%nat.
Proof.
  unfold Codec.encode. rewrite !count_char_app.
  change (count_char "_" "_") with 1%nat. lia.
Qed.

(** The tick of the timer: the elapsed time since the start. *)
Lemma hook_tick (a : App) (t : Z) :
  isRecording (recorder a) = true ->
  startTime (recorder a) = Some t -> t <> 0 ->
  Recorder.tick P a
  = (Returned tt,
     with_recorder
       (fun s => mkRecorderState (recording s) (recordings s)
                   (isRecording s) (permissionResponse s)
                   (clock P (clock_reads (world a)) - t) (startTime s))
       (clock_read 1 a)).
Proof.
  intros Hrec Hstart Ht. unfold Recorder.tick. exec.
  rewrite Hstart, Hrec. destruct (Z.eqb_spec t 0); [contradiction|].
  exec. same_state.
Qed.

(** A stop of the hook that goes through: the capture is copied into
    the recordings directory under the encoded name, made of two
    successive readings of the clock and of the elapsed time as the
    timer last set it. *)
Lemma hook_stop_success (a : App) (r : NativeRecording) (u : string)
      (size : N) :
  recording (recorder a) = Some r ->
  rec_stopAndUnload r = Returned tt ->
  rec_getURI r = Some u -> truthy u = true ->
  files (world a) !! u = Some size -> size <> 0%N ->
  copy_lands P = true ->
  exists a',
    Recorder.stopRecording P a = (Returned tt, a')
    /\ files (world a')
       = <[recordingsDirectory P
           +:+ Codec.encode
                 (Number_toString (clock P (clock_reads (world a))))
                 (clock P (S (clock_reads (world a))))
                 (inject_Z (recordingDuration (recorder a))) := size]>
           (files (world a))
    /\ recording (recorder a') = None
    /\ isRecording (recorder a') = false.
Proof.
  intros Hr Hstop Hu Ht Hf Hsize Hcopy. unfold Recorder.stopRecording.
  exec. rewrite Hr. exec. rewrite Hstop. exec. rewrite Hu, Ht. exec.
  unfold info_at at 1. cbn. rewrite Hf. unfold missing_or_empty. cbn.
  destruct (N.eqb_spec size 0); [contradiction|]. exec.
  destruct (fi_exists (info_at _ (recordingsDirectory P))); exec;
    rewrite Hf, Hcopy; exec;
    unfold info_at at 1; cbn; rewrite lookup_insert_eq; exec;
    match goal with
    | |- context [Recorder.loadRecordings P ?s] =>
        destruct (hook_loadRecordings_frame P s)
          as (a' & E & Hfiles & _ & _ & _ & Hisrec)
    end;
    rewrite E; exec; eexists; (split; [reflexivity|]); cbn;
    rewrite Hfiles, Hisrec; cbn; repeat split.
Qed.

(** The service returns a descriptor only for a copy it has seen in the
    recordings directory; the name it gave it is [recording_] followed by
    one reading of the clock, which is the id as well. *)
Lemma service_stop_saved (a a' : App) (clip : AudioFile) :
  Service.stopRecording P a = (Returned (Some clip), a') ->
  af_filename clip
  = "recording_" +:+ Number_toString (clock P (clock_reads (world a)))
    +:+ ".wav"
  /\ af_id clip = Number_toString (clock P (clock_reads (world a)))
  /\ af_uri clip = recordingsDirectory P +:+ af_filename clip
  /\ fi_exists (info_at (world a') (af_uri clip)) = true.
Proof.
  unfold Service.stopRecording. exec.
  destruct (sv_recording (service a)) as [r|]; exec; [|discriminate].
  destruct (rec_stopAndUnload r) as [[]|e]; exec; [|discriminate].
  destruct (rec_getStatus r) as [status|e]; exec; [|discriminate].
  destruct (rec_getURI r) as [u|]; exec; [|discriminate].
  destruct (truthy u); exec; [|discriminate].
  destruct (missing_or_empty _); exec; [discriminate|].
  destruct (files (world a) !! u) as [size|]; exec; [|discriminate].
  destruct (copy_lands P); exec;
    match goal with
    | |- context [fi_exists ?i] => destruct (fi_exists i) eqn:Hex
    end; exec; try discriminate;
    intros [= <- <-]; cbn; repeat split; exact Hex.
Qed.

End Commit.


(** ** What a refresh leaves in the snapshot *)

Section Refresh.
Variable P : Platform.

(** A refresh of an existing directory keeps an entry for every .wav name
    in it. *)
Lemma hook_refresh_keeps_every_file (a : App) :
  recordingsDirectory P ∈ directories (world a) ->
  Permutation
    (map fileName (recordings (recorder (Recorder.loadRecordings P a).2)))
    (wav_names P a).
Proof.
  intros Hdir.
  destruct (hook_loadRecordings_listing P a Hdir) as (recs & -> & HR).
  rewrite (sort_Permutation createdAt recs).
  replace (map fileName recs) with (wav_names P a); [reflexivity|].
  induction HR as [|name r names recs (now & ->) HR IH]; [reflexivity|].
  cbn [map]. rewrite <- IH. reflexivity.
Qed.

(** A refresh of an existing directory whose names all decode to valid
    dates leaves the snapshot most recent first. *)
Lemma hook_refresh_sorted (a : App) :
  recordingsDirectory P ∈ directories (world a) ->
  Forall (valid_date createdAt)
         (recordings (recorder (Recorder.loadRecordings P a).2)) ->
  most_recent_first createdAt
    (recordings (recorder (Recorder.loadRecordings P a).2)).
Proof.
  intros Hdir.
  destruct (hook_loadRecordings_listing P a Hdir) as (recs & -> & _).
  intros Hvalid. apply sort_sorted.
  eapply Permutation_Forall; [|exact Hvalid].
  apply sort_Permutation.
Qed.

End Refresh.


(** ** What the service lists *)

Section ServiceListing.
Variable P : Platform.

Lemma service_toAudioFile (filename : string) (fileInfo : FileInfo) (s : App) :
  exists now s',
    Service.toAudioFile P filename fileInfo s
    = (Returned (Codec.service_decode now (recordingsDirectory P +:+ filename)
                   filename), s')
    /\ same_but_log s s'.
Proof.
  unfold Service.toAudioFile, Codec.service_decode.
  destruct (Codec.service_id_segment filename) as [seg|].
  - exists 0, s. split; [reflexivity | apply same_but_log_refl].
  - eexists (clock P _), _. split; [reflexivity|]. repeat split.
Qed.

Lemma service_init_existing (s : App) :
  fi_exists (info_at (world s) (recordingsDirectory P)) = true ->
  Service.init P s = (Returned tt, logged [GetInfo (recordingsDirectory P)] s).
Proof.
  intros H. unfold Service.init.
  rewrite (run_bind _ _ _ _ _ (run_getInfoAsync _ _)), H. reflexivity.
Qed.

(** The service's listing of an existing directory never throws: it
    returns the sorted list of the entries decoded from the .wav names, one
    for each name, and changes nothing but the log. *)
Lemma service_getRecordings_listing (a : App) :
  recordingsDirectory P ∈ directories (world a) ->
  exists recs a',
    Service.getRecordings P a
    = (Returned (ArraySort.sort af_by_recency recs), a')
    /\ same_but_log a a'
    /\ Forall2
         (fun name f =>
            exists now,
              f = Codec.service_decode now (recordingsDirectory P +:+ name)
                    name)
         (wav_names P a) recs.
Proof.
  intros Hdir. unfold Service.getRecordings, try_catch.
  assert (Hex : fi_exists (info_at (world a) (recordingsDirectory P)) = true).
  { unfold info_at. destruct (files (world a) !! _); [reflexivity|].
    cbn. apply bool_decide_eq_true_2, Hdir. }
  rewrite (run_bind _ _ _ _ _ (service_init_existing a Hex)).
  unfold readDirectoryAsync. exec.
  rewrite (bool_decide_eq_true_2 _ Hdir). exec.
  fold (wav_names P a).
  destruct (bool_decide (length (wav_names P a) = 0%nat)) eqn:Hlen; exec.
  { apply bool_decide_eq_true_1, nil_length_inv in Hlen. rewrite Hlen.
    exists []. eexists. split; [reflexivity|].
    split; [repeat split | constructor]. }
  match goal with
  | |- context [mapM_async ?f (wav_names P a) ?st] =>
      assert (Hinfo : forall x s, exists y s',
                 f x s = (Returned y, s') /\ same_but_log s s' /\ True);
      [|destruct (mapM_async_same_but_log f _ (wav_names P a) Hinfo st)
          as (infos & s1 & E1 & H1 & HQ)]
  end.
  { intros x s. eexists _, _. split; [reflexivity|].
    split; [repeat split | exact I]. }
  rewrite E1.
  match goal with
  | |- context [mapM_async ?f ?l s1] =>
      assert (Hrec : forall x s, exists y s',
                 f x s = (Returned y, s') /\ same_but_log s s'
                 /\ exists now,
                      y = Codec.service_decode now
                            (recordingsDirectory P +:+ x.1) x.1);
      [|destruct (mapM_async_same_but_log f _ l Hrec s1)
          as (recs & s2 & E2 & H2 & HR)]
  end.
  { intros [name info] s.
    destruct (service_toAudioFile name info s) as (now & s' & E & Hs).
    exists (Codec.service_decode now (recordingsDirectory P +:+ name) name), s'.
    split; [|split; [exact Hs | exists now; reflexivity]].
    rewrite <- E. unfold Service.toAudioFile. exec. reflexivity. }
  rewrite E2. exec. exists recs. eexists. split; [reflexivity|]. split.
  - eapply same_but_log_trans; [|exact H2].
    eapply same_but_log_trans; [|exact H1]. repeat split.
  - eapply Forall2_impl; [exact (Forall2_zip_l _ _ _ _ _ HQ HR)|].
    cbn. intros name r (info & _ & now & ->). exists now. reflexivity.
Qed.

(** The service's list, when every date in it is valid: it is most recent
    first, and entries of one date keep the order of the listing. *)
Lemma service_getRecordings_sorted (a : App) :
  recordingsDirectory P ∈ directories (world a) ->
  exists recs l,
    (Service.getRecordings P a).1 = Returned l
    /\ l = ArraySort.sort af_by_recency recs
    /\ map af_filename recs = wav_names P a
    /\ (Forall (valid_date af_createdAt) l ->
        most_recent_first af_createdAt l
        /\ forall d, created_at af_createdAt d l
                     = created_at af_createdAt d recs).
Proof.
  intros Hdir.
  destruct (service_getRecordings_listing a Hdir) as (recs & a' & E & _ & HR).
  exists recs, (ArraySort.sort af_by_recency recs). rewrite E.
  split; [reflexivity|]. split; [reflexivity|]. split.
  - clear E. induction HR as [|name r names recs (now & ->) HR IH];
      [reflexivity|].
    cbn [map]. rewrite IH. reflexivity.
  - intros Hvalid.
    assert (Hrecs : Forall (valid_date af_createdAt) recs)
      by (eapply Permutation_Forall; [|exact Hvalid];
          apply sort_Permutation).
    split; [apply sort_sorted, Hrecs|].
    intros d. apply sort_stable, Hrecs.
Qed.

End ServiceListing.
(** * The claims *)

(** C1. Decoding the name encoded for (id, t, d), for an id without the
    delimiter and non-negative t and d, gives back the id and the
    timestamp, and NaN for the duration: the third segment still carries
    the extension when [Number] reads it. The round trip fails for every
    duration. *)
Theorem C1_decode_encode (now : Z) (id0 : string) (t : Z) (d : Q) :
  contains "_" id0 = false -> 0 <= t -> Qle 0 d ->
  Codec.decode now (Codec.encode id0 t d)
  = Codec.mkDecoded id0 (of_Z t) NaN
  /\ Codec.d_duration (Codec.decode now (Codec.encode id0 t d))
     <> of_Z (Math_round d).
Proof.
  intros Hid Ht Hd. rewrite (decode_encode now id0 t d Hid Ht Hd).
  split; [reflexivity | discriminate].
Qed.

Lemma C1_decode_encode_witness :
  Codec.decode 0 "1700000000000_1700000000000_1500.wav"
  = Codec.mkDecoded "1700000000000" (of_Z 1700000000000) NaN
  /\ Codec.d_duration (Codec.decode 0 "1700000000000_1700000000000_1500.wav")
     <> of_Z 1500.
Proof.
  apply (C1_decode_encode 0 "1700000000000" 1700000000000 (inject_Z 1500));
    [reflexivity | lia | discriminate].
Defined.

(** C2, as stated, fails: the file the service persists on a successful stop
    is named [recording_1700000000000.wav], which is not an encoded name
    [<id>_<createdAt>_<duration>.wav]. *)
Lemma C2_service_name_not_canonical :
  (Service.stopRecording Example.phone (Example.recording_now 64000)).1
  = Returned (Some Example.saved_by_service)
  /\ files (world (Service.stopRecording Example.phone
                     (Example.recording_now 64000)).2)
     !! af_uri Example.saved_by_service = Some 64000%N
  /\ forall (id0 : string) (t : Z) (d : Q),
       af_filename Example.saved_by_service <> Codec.encode id0 t d.
Proof.
  split; [vm_compute; reflexivity|]. split; [vm_compute; reflexivity|].
  intros id0 t d H. pose proof (encode_delimiters id0 t d) as Hn.
  rewrite <- H in Hn. vm_compute in Hn. lia.
Qed.

(** C2, amended. A stop of the hook that goes through persists the capture
    in the recordings directory as [<id>_<createdAt>_<duration>.wav], where
    id and createdAt are readings of the millisecond clock taken at the
    commit and duration is the elapsed time as the timer last set it,
    rounded; the hook returns no descriptor. The service persists it as
    [recording_<timestamp>.wav], the id being that timestamp, and returns
    the descriptor only for a copy it has found in the recordings
    directory. *)
Theorem C2_commit_names (P : Platform) (a : App) :
  (forall (r : NativeRecording) (u : string) (size : N),
      recording (recorder a) = Some r ->
      rec_stopAndUnload r = Returned tt ->
      rec_getURI r = Some u -> truthy u = true ->
      files (world a) !! u = Some size -> size <> 0%N ->
      copy_lands P = true ->
      exists a',
        Recorder.stopRecording P a = (Returned tt, a')
        /\ files (world a')
           = <[recordingsDirectory P
               +:+ Number_toString (clock P (clock_reads (world a)))
               +:+ "_"
               +:+ Number_toString (clock P (S (clock_reads (world a))))
               +:+ "_"
               +:+ Number_toString (recordingDuration (recorder a))
               +:+ ".wav" := size]> (files (world a))
        /\ recording (recorder a') = None
        /\ isRecording (recorder a') = false)
  /\ (forall (clip : AudioFile) (a' : App),
         Service.stopRecording P a = (Returned (Some clip), a') ->
         af_filename clip
         = "recording_"
           +:+ Number_toString (clock P (clock_reads (world a))) +:+ ".wav"
         /\ af_id clip = Number_toString (clock P (clock_reads (world a)))
         /\ af_uri clip = recordingsDirectory P +:+ af_filename clip
         /\ fi_exists (info_at (world a') (af_uri clip)) = true).
Proof.
  split.
  - intros r u size Hr Hstop Hu Ht Hf Hsize Hcopy.
    destruct (hook_stop_success P a r u size Hr Hstop Hu Ht Hf Hsize Hcopy)
      as (a' & E & Hfiles & Hrec & Hisrec).
    exists a'. repeat split; try assumption.
    rewrite Hfiles. unfold Codec.encode. rewrite Math_round_inject_Z.
    reflexivity.
  - intros clip a'. apply service_stop_saved.
Qed.

Lemma C2_commit_names_witness :
  (exists a',
      Recorder.stopRecording Example.phone (Example.recording_now 64000)
      = (Returned tt, a')
      /\ files (world a')
         = <["doc/recordings/1700000000000_1700000000001_1500.wav"
             := 64000%N]> (files (world (Example.recording_now 64000)))
      /\ recording (recorder a') = None
      /\ isRecording (recorder a') = false)
  /\ fi_exists
       (info_at (world (Service.stopRecording Example.phone
                          (Example.recording_now 64000)).2)
                (af_uri Example.saved_by_service)) = true.
Proof.
  split.
  - apply (proj1 (C2_commit_names Example.phone (Example.recording_now 64000))
             Example.capture "cache/capture.wav" 64000%N);
      [reflexivity..|discriminate|reflexivity].
  - apply (proj2 (C2_commit_names Example.phone (Example.recording_now 64000))
             Example.saved_by_service
             (Service.stopRecording Example.phone
                (Example.recording_now 64000)).2).
    vm_compute. reflexivity.
Defined.

(** C3. A name with a delimiter is decoded by the [try] block, whatever its
    segments hold: the id is the first segment, never the whole name, and
    the timestamp and the duration are what [Number] makes of the second
    and third segments, NaN included. The fallbacks are for names without
    a delimiter only ([decode_fallback], "garbage.wav" among them). *)
Theorem C3_decode_without_fallback (now : Z) (a b : string) :
  contains "_" a = false ->
  Codec.decode now (a +:+ String "_" b)
  = Codec.mkDecoded a
      (Number (replace ".wav" "" (nth 0 (split "_" b) EmptyString)))
      (match split "_" b with
       | _ :: p2 :: _ => Number p2
       | _ => of_Z 0
       end)
  /\ Codec.d_id (Codec.decode now (a +:+ String "_" b))
     <> a +:+ String "_" b.
Proof.
  intros Ha.
  assert (E : Codec.decode now (a +:+ String "_" b)
              = Codec.mkDecoded a
                  (Number (replace ".wav" "" (nth 0 (split "_" b) EmptyString)))
                  (match split "_" b with
                   | _ :: p2 :: _ => Number p2
                   | _ => of_Z 0
                   end)).
  { unfold Codec.decode. rewrite (split_at_first _ _ _ Ha).
    unfold Codec.try_decode. cbn [nth lookup list_lookup].
    destruct (split "_" b) as [|p1 [|p2 ps]] eqn:E.
    - destruct b as [|c b]; simpl in E; [discriminate|].
      destruct (Ascii.eqb c "_"); [discriminate|].
      destruct (split "_" b); discriminate.
    - reflexivity.
    - reflexivity. }
  rewrite E. split; [reflexivity|]. cbn [Codec.d_id]. apply append_longer.
Qed.

Lemma C3_decode_without_fallback_witness :
  Codec.decode 1700000000000 "a_b.wav" = Codec.mkDecoded "a" NaN (of_Z 0)
  /\ Codec.d_id (Codec.decode 1700000000000 "a_b.wav") <> "a_b.wav".
Proof.
  apply (C3_decode_without_fallback 1700000000000 "a" "b.wav").
  reflexivity.
Defined.

(** C4. A stop whose capture is missing or empty, the native stop having
    resolved: the service drops its handle, reports the error and returns
    null; the hook reports the error and clears [isRecording] and
    [startTime], and returns with its [recording] cell still holding the
    native recording. Neither touches the files or the registry. *)
Theorem C4_stop_with_missing_or_empty_capture
        (P : Platform) (a : App) (r : NativeRecording) (u : string) :
  rec_stopAndUnload r = Returned tt ->
  rec_getURI r = Some u -> truthy u = true ->
  missing_or_empty (info_at (world a) u) = true ->
  (recording (recorder a) = Some r ->
   Recorder.stopRecording P a
   = (Returned tt,
      with_recorder
        (fun s => mkRecorderState (Some r) (recordings s) false
                    (permissionResponse s) (recordingDuration s) None)
        (logged [Console Log "Stopping recording..."; StopAndUnload;
                 Console Log ("Recording stopped, URI: " +:+ u);
                 GetInfo u;
                 Console Error "Recording file is missing or empty:"] a)))
  /\ (sv_recording (service a) = Some r ->
      forall status, rec_getStatus r = Returned status ->
      Service.stopRecording P a
      = (Returned None,
         with_service (fun sv => mkServiceState None (sv_sound sv))
           (logged [StopAndUnload; GetStatus; GetInfo u;
                    Console Error "Recording file is missing or empty:"] a))).
Proof.
  intros Hstop Hu Ht Hm. split.
  - intros Hr.
    rewrite (hook_stop_missing_or_empty P a r u Hr Hstop Hu Ht Hm).
    unfold with_recorder. cbn. rewrite Hr. reflexivity.
  - intros Hr status Hst.
    exact (service_stop_missing_or_empty P a r u status Hr Hstop Hst Hu Ht Hm).
Qed.

Lemma C4_stop_with_missing_or_empty_capture_witness :
  recording (recorder (Recorder.stopRecording Example.phone
                         (Example.recording_now 0)).2)
  = Some Example.capture
  /\ sv_recording (service (Service.stopRecording Example.phone
                              (Example.recording_now 0)).2)
     = None.
Proof.
  split.
  - rewrite (proj1 (C4_stop_with_missing_or_empty_capture Example.phone
                      (Example.recording_now 0) Example.capture
                      "cache/capture.wav" eq_refl eq_refl eq_refl eq_refl)
               eq_refl).
    reflexivity.
  - rewrite (proj2 (C4_stop_with_missing_or_empty_capture Example.phone
                      (Example.recording_now 0) Example.capture
                      "cache/capture.wav" eq_refl eq_refl eq_refl eq_refl)
               eq_refl (Some 1500) eq_refl).
    reflexivity.
Defined.

(** C5, as stated, fails: while the hook holds no answer about the
    microphone it goes on to the capture, on a phone that refuses it as
    well: the audio session is configured and the creation of the recording
    is attempted. *)
Lemma C5_hook_attempts_capture_without_answer :
  requestPermissions Example.refusing
  = Returned (mkPermissionResponse false)
  /\ permissionResponse (recorder Example.launched) = None
  /\ trace (world (Recorder.startRecording Example.refusing
                     Example.launched).2)
     = [SetAudioMode true; Console Log "Starting recording...";
        CreateRecording; Console Error "Failed to start recording:"].
Proof. vm_compute. repeat split. Qed.

(** C5, amended. A start of recording against a denial fails fast: when the
    hook holds a permission response that is not granted it logs the
    denial and does nothing else; when the platform answers the service's
    request with a response that is not granted the service returns
    false. In both no capture call is made and the state is otherwise as it
    was. *)
Theorem C5_start_fails_fast_on_denial (P : Platform) (a : App)
        (response : PermissionResponse) :
  granted response = false ->
  (permissionResponse (recorder a) = Some response ->
   Recorder.startRecording P a
   = (Returned tt, logged [Console Log "No recording permission"] a))
  /\ (requestPermissions P = Returned response ->
      Service.startRecording P a
      = (Returned false,
         logged [RequestPermissions;
                 Console Error "Failed to start recording:"] a)).
Proof.
  intros Hg. split; intros H.
  - exact (hook_start_denied P a response H Hg).
  - exact (service_start_denied P a response H Hg).
Qed.

Lemma C5_start_fails_fast_on_denial_witness :
  Recorder.startRecording Example.refusing Example.refused
  = (Returned tt, logged [Console Log "No recording permission"]
                         Example.refused)
  /\ Service.startRecording Example.refusing Example.refused
     = (Returned false,
        logged [RequestPermissions;
                Console Error "Failed to start recording:"]
               Example.refused).
Proof.
  split.
  - apply (proj1 (C5_start_fails_fast_on_denial Example.refusing
                    Example.refused (mkPermissionResponse false) eq_refl)).
    reflexivity.
  - apply (proj2 (C5_start_fails_fast_on_denial Example.refusing
                    Example.refused (mkPermissionResponse false) eq_refl)).
    reflexivity.
Defined.

(** C6, as stated, fails: the service's player looks at existence only, and
    on an empty file that exists it goes on to create the sound. *)
Lemma C6_service_loads_empty_file :
  files (world Example.with_empty_file) !! "doc/recordings/empty.wav"
  = Some 0%N
  /\ trace (world (Service.playRecording Example.phone
                     "doc/recordings/empty.wav"
                     Example.with_empty_file).2)
     = [GetInfo "doc/recordings/empty.wav"; SetAudioMode false;
        CreateSound "doc/recordings/empty.wav"; Play].
Proof. vm_compute. repeat split. Qed.

(** C6, amended. Playing a clip through the hook when its file is missing
    or empty sets the error and nothing else: the playing id stays as it
    was (null when it was null), no sound is created, the audio session is
    not touched. Playing through the service a uri at which there is
    nothing returns false without creating a sound. *)
Theorem C6_play_missing_file (P : Platform) (a : App) (clip : Recording) :
  (missing_or_empty (info_at (world a) (uri clip)) = true ->
   Player.playSound P clip a
   = (Returned tt,
      with_player
        (fun p => mkPlayerState (sound p) (playingId p) (isPlaying p)
                    (position p) (pl_duration p)
                    (Some ("File doesn't exist or is empty: " +:+ uri clip)))
        (logged [GetInfo (uri clip)] a)))
  /\ (fi_exists (info_at (world a) (uri clip)) = false ->
      exists a' cs,
        Service.playRecording P (uri clip) a = (Returned false, a')
        /\ calls_between a a' cs
        /\ forallb (fun c => negb (is_load_call c)) cs = true
        /\ files (world a') = files (world a)).
Proof.
  split.
  - apply hook_play_missing_or_empty.
  - apply service_play_missing.
Qed.

Lemma C6_play_missing_file_witness :
  playingId (player (Player.playSound Example.phone Example.memo
                       Example.launched).2) = None
  /\ exists a' cs,
       Service.playRecording Example.phone (uri Example.memo)
                             Example.launched = (Returned false, a')
       /\ calls_between Example.launched a' cs
       /\ forallb (fun c => negb (is_load_call c)) cs = true
       /\ files (world a') = files (world Example.launched).
Proof.
  split.
  - rewrite (proj1 (C6_play_missing_file Example.phone Example.launched
                      Example.memo) eq_refl).
    reflexivity.
  - apply (proj2 (C6_play_missing_file Example.phone Example.launched
                    Example.memo)).
    reflexivity.
Defined.

(** C7, as stated, fails: after the hook's stop the [sound] cell still holds
    the native sound, which has been stopped and not unloaded. *)
Lemma C7_hook_stop_keeps_sound_loaded :
  sound (player (Player.stopSound Example.playing_memo).2)
  = Some (Example.tune (uri Example.memo))
  /\ trace (world (Player.stopSound Example.playing_memo).2) = [Stop].
Proof. vm_compute. repeat split. Qed.

(** C7, amended. A stop while a sound is loaded, the native stop resolving:
    the hook stops the native sound, resets the position to 0 and clears
    the playing id; the service stops the native sound and asks for its
    unload: when the unload resolves it drops its handle, and when the
    unload rejects it logs the error and keeps the handle. *)
Theorem C7_stop_playback (a : App) (x : NativeSound) :
  snd_stop x = Returned tt ->
  (sound (player a) = Some x ->
   Player.stopSound a
   = (Returned tt,
      with_player
        (fun p => mkPlayerState (sound p) None false 0 (pl_duration p)
                    (error p))
        (logged [Stop] a)))
  /\ (sv_sound (service a) = Some x ->
      Service.stopPlayback a
      = (Returned tt,
         match snd_unload x with
         | Returned _ =>
             with_service (fun sv => mkServiceState (sv_recording sv) None)
               (logged [Stop; Unload] a)
         | Thrown _ =>
             logged [Stop; Unload; Console Error "Error stopping playback:"]
               a
         end)).
Proof.
  intros Hstop. split.
  - intros Hs. exact (hook_stop_sound a x Hs Hstop).
  - intros Hs. destruct (snd_unload x) as [[]|e] eqn:Hun.
    + exact (service_stop_playback a x Hs Hstop Hun).
    + unfold Service.stopPlayback. exec. rewrite Hs. exec. rewrite Hstop.
      exec. rewrite Hun. exec. same_state.
Qed.

Lemma C7_stop_playback_witness :
  (playingId (player (Player.stopSound Example.playing_memo).2) = None
   /\ position (player (Player.stopSound Example.playing_memo).2) = 0)
  /\ sv_sound (service (Service.stopPlayback Example.playing_memo).2) = None.
Proof.
  split.
  - rewrite (proj1 (C7_stop_playback Example.playing_memo
                      (Example.tune (uri Example.memo)) eq_refl) eq_refl).
    split; reflexivity.
  - rewrite (proj2 (C7_stop_playback Example.playing_memo
                      (Example.tune (uri Example.memo)) eq_refl) eq_refl).
    reflexivity.
Defined.




(** C9, at the listing on which it fails. The directory lists an older
    clip of the recorder, a file whose second segment is not a number, and
    a newer clip. The refresh gives the file an Invalid Date, the comparator
    answers NaN next to it, and the snapshot keeps the order of the listing:
    the older clip comes before the newer one. The snapshot is not most
    recent first, and neither are its entries of a valid date taken
    alone. *)
Theorem C9_refresh_order :
  let snapshot :=
    recordings (recorder (Recorder.loadRecordings Example.phone
                            Example.with_foreign_file).2) in
  wav_names Example.phone Example.with_foreign_file
  = ["1700000001000_1700000001000_1500.wav"; "1700000006500_x.wav";
     "1700000006000_1700000006000_1500.wav"]
  /\ map fileName snapshot
     = ["1700000001000_1700000001000_1500.wav"; "1700000006500_x.wav";
        "1700000006000_1700000006000_1500.wav"]
  /\ map createdAt snapshot
     = [DateAt 1700000001000; InvalidDate; DateAt 1700000006000]
  /\ ~ most_recent_first createdAt snapshot
  /\ ~ most_recent_first createdAt
        (filter (fun r => createdAt r <> InvalidDate) snapshot).
Proof.
  cbv zeta.
  assert (F : map createdAt
                (filter (fun r => createdAt r <> InvalidDate)
                   (recordings (recorder (Recorder.loadRecordings
                                            Example.phone
                                            Example.with_foreign_file).2)))
              = [DateAt 1700000001000; DateAt 1700000006000])
    by (vm_compute; reflexivity).
  assert (E : map createdAt
                (recordings (recorder (Recorder.loadRecordings Example.phone
                                         Example.with_foreign_file).2))
              = [DateAt 1700000001000; InvalidDate; DateAt 1700000006000])
    by (vm_compute; reflexivity).
  split; [vm_compute; reflexivity|]. split; [vm_compute; reflexivity|].
  split; [exact E|].
  unfold most_recent_first. split; intros Hs.
  - destruct (recordings (recorder (Recorder.loadRecordings Example.phone
                                      Example.with_foreign_file).2))
      as [|r1 [|r2 l]]; try discriminate E.
    injection E as E1 E2 _.
    inversion Hs as [|? ? _ Hhd]; subst.
    inversion Hhd as [|? ? H12]; subst.
    rewrite E1, E2 in H12. discriminate H12.
  - destruct (filter _ _) as [|r1 [|r2 l]]; try discriminate F.
    injection F as F1 F2 _.
    inversion Hs as [|? ? _ Hhd]; subst.
    inversion Hhd as [|? ? H12]; subst.
    rewrite F1, F2 in H12. vm_compute in H12. discriminate H12.
Qed.

(** C10. Stopping while nothing is being recorded returns at once, with no
    result, and leaves the whole state, the trace of platform calls
    included, as it was: in the hook and in the service. *)
Theorem C10_stop_while_idle (P : Platform) (a : App) :
  (recording (recorder a) = None ->
   Recorder.stopRecording P a = (Returned tt, a))
  /\ (sv_recording (service a) = None ->
      Service.stopRecording P a = (Returned None, a)).
Proof. split; [apply hook_stop_idle | apply service_stop_idle]. Qed.

Lemma C10_stop_while_idle_witness :
  Recorder.stopRecording Example.phone Example.launched
  = (Returned tt, Example.launched)
  /\ Service.stopRecording Example.phone Example.launched
     = (Returned None, Example.launched).
Proof.
  split.
  - apply (proj1 (C10_stop_while_idle Example.phone Example.launched)).
    reflexivity.
  - apply (proj2 (C10_stop_while_idle Example.phone Example.launched)).
    reflexivity.
Defined.

(** * Further properties *)

(** ** More on strings and decimal digits *)

Section TextFacts.

Local Ltac on_digit c H :=
  destruct c as [[|] [|] [|] [|] [|] [|] [|] [|]];
  vm_compute in H; try discriminate H; clear H.

Lemma append_assoc (a b c : string) : (a +:+ b) +:+ c = a +:+ (b +:+ c).
Proof.
  induction a as [|x a IH]; [reflexivity|].
  change (String x ((a +:+ b) +:+ c) = String x (a +:+ (b +:+ c))).
  rewrite IH. reflexivity.
Qed.

Lemma strip_prefix_app (p s : string) : strip_prefix p (p +:+ s) = Some s.
Proof.
  induction p as [|a p IH]; [reflexivity|].
  change (String a p +:+ s) with (String a (p +:+ s)).
  cbn [strip_prefix]. rewrite Ascii.eqb_refl. exact IH.
Qed.

Lemma strip_prefix_Some (p s r : string) :
  strip_prefix p s = Some r -> s = p +:+ r.
Proof.
  revert s. induction p as [|a p IH]; intros s; cbn [strip_prefix].
  - intros [= ->]. reflexivity.
  - destruct s as [|b s]; [discriminate|].
    destruct (Ascii.eqb_spec a b) as [->|]; [|discriminate].
    intros H. rewrite (IH _ H). reflexivity.
Qed.

Lemma endsWith_app (a b : string) : endsWith (a +:+ b) b = true.
Proof.
  induction a as [|x a IH].
  - change (EmptyString +:+ b) with b.
    destruct b; cbn [endsWith]; rewrite String.eqb_refl; reflexivity.
  - change (String x a +:+ b) with (String x (a +:+ b)).
    cbn [endsWith]. rewrite IH. destruct (String.eqb _ b); reflexivity.
Qed.

Lemma digit_in_10 (c : ascii) :
  is_digit c = true ->
  digit_in 10 c = Some (Z.of_N (N_of_ascii c) - 48).
Proof. intros H. on_digit c H; reflexivity. Qed.

Lemma digit_is_decimal (c : ascii) :
  is_digit c = true -> bool_decide (is_Some (digit_in 10 c)) = true.
Proof.
  intros H. apply bool_decide_eq_true_2. rewrite (digit_in_10 c H). eauto.
Qed.

Lemma digit_no_hex_prefix (c k : ascii) :
  is_digit k = true ->
  Ascii.eqb c "0" && (Ascii.eqb k "x" || Ascii.eqb k "X") = false.
Proof. intros H. on_digit k H; apply andb_false_r. Qed.

(** Reading a rendered numeral digit by digit. *)
Lemma radix_value_of_uint_acc (d : uint) (acc : positive) :
  radix_value 10 (Z.pos acc) (NilEmpty.string_of_uint d)
  = Some (Z.pos (Pos.of_uint_acc d acc)).
Proof.
  revert acc. induction d; intros acc; cbn [NilEmpty.string_of_uint];
    [reflexivity | cbn [radix_value Pos.of_uint_acc]..];
    match goal with
    | |- context [digit_in 10 ?c] =>
        change (digit_in 10 c) with (Some (Z.of_N (N_of_ascii c) - 48))
    end; cbn -[Z.mul Z.add radix_value Pos.of_uint_acc Pos.mul Pos.add];
    match goal with
    | |- radix_value 10 ?z _ = Some (Z.pos (Pos.of_uint_acc _ ?a)) =>
        replace z with (Z.pos a) by lia
    end; apply IHd.
Qed.

Lemma radix_value_of_uint (d : uint) :
  radix_value 10 0 (NilEmpty.string_of_uint d) = Some (Z.of_uint d).
Proof.
  unfold Z.of_uint.
  induction d; cbn [NilEmpty.string_of_uint Pos.of_uint];
    [reflexivity | cbn [radix_value]..];
    match goal with
    | |- context [digit_in 10 ?c] =>
        change (digit_in 10 c) with (Some (Z.of_N (N_of_ascii c) - 48))
    end; cbn -[radix_value Pos.of_uint_acc Pos.of_uint];
    [exact IHd | apply radix_value_of_uint_acc..].
Qed.

Lemma digits_uint (s : string) :
  all_chars is_digit s = true ->
  exists d, NilEmpty.uint_of_string s = Some d.
Proof.
  induction s as [|c s IH]; cbn [all_chars NilEmpty.uint_of_string].
  - eauto.
  - intros H. apply andb_prop in H as [Hc Hs].
    destruct (IH Hs) as (d & ->). on_digit c Hc; cbn; eauto.
Qed.

(** A run of decimal digits read in radix 10 has the value of the run. *)
Lemma radix_value_digits (s : string) :
  all_chars is_digit s = true ->
  radix_value 10 0 s = Some (digits_value s).
Proof.
  intros H. destruct (digits_uint s H) as (d & E).
  unfold digits_value. rewrite E.
  rewrite <- (NilEmpty.sus _ _ E). apply radix_value_of_uint.
Qed.

(** [parseInt] of a run of digits is its value. *)
Lemma parseInt_digits (c : ascii) (s : string) :
  all_chars is_digit (String c s) = true ->
  parseInt (String c s) = of_Z (digits_value (String c s)).
Proof.
  intros H. pose proof H as H'. cbn [all_chars] in H'.
  apply andb_prop in H' as [Hc Hs].
  unfold parseInt, trim_start. cbn [drop_while].
  pose proof (digit_not_space c Hc) as Hsp.
  apply negb_true_iff in Hsp. rewrite Hsp.
  rewrite (digit_strip_sign _ _ Hc).
  assert (Hbody : (match String c s with
                   | String c0 (String k r) =>
                       if Ascii.eqb c0 "0"
                          && (Ascii.eqb k "x" || Ascii.eqb k "X")
                       then (16, r) else (10, String c s)
                   | _ => (10, String c s)
                   end) = (10, String c s)).
  { destruct s as [|k r]; [reflexivity|].
    cbn [all_chars] in Hs. apply andb_prop in Hs as [Hk _].
    rewrite (digit_no_hex_prefix c k Hk). reflexivity. }
  rewrite Hbody.
  rewrite (span_all _ _ (all_chars_impl _ _ _ digit_is_decimal H)).
  rewrite (radix_value_digits _ H). reflexivity.
Qed.

(** [parseInt] of the rendering of a non-negative integer. *)
Lemma parseInt_Number_toString (z : Z) :
  0 <= z -> parseInt (Number_toString z) = of_Z z.
Proof.
  intros Hz. destruct (Number_toString_digits z Hz) as (c & s & -> & Hd & Hv).
  rewrite (parseInt_digits c s Hd), Hv. reflexivity.
Qed.

(** What [padStart(2, '0')] makes of a run of digits: digits still, of
    the same value. *)
Lemma padStart_digits (c : ascii) (s : string) :
  all_chars is_digit (String c s) = true ->
  all_chars is_digit (padStart 2 "0" (String c s)) = true
  /\ digits_value (padStart 2 "0" (String c s)) = digits_value (String c s)
  /\ contains ":" (padStart 2 "0" (String c s)) = false.
Proof.
  intros H. destruct s as [|k r].
  - cbn [all_chars] in H. apply andb_prop in H as [Hc _].
    on_digit c Hc; repeat split.
  - replace (padStart 2 "0" (String c (String k r)))
      with (String c (String k r)) by reflexivity.
    repeat split; [exact H|].
    apply (all_chars_contains is_digit); [reflexivity | exact H].
Qed.

(** Below 100 the padded rendering is two digits. *)
Lemma padStart_two_digits (n : Z) :
  0 <= n < 100 ->
  String.length (padStart 2 "0" (Number_toString n)) = 2%nat.
Proof.
  intros Hn. replace n with (Z.of_nat (Z.to_nat n)) by lia.
  assert (Hk : (Z.to_nat n < 100)%nat) by lia.
  generalize dependent (Z.to_nat n). clear. intros k Hk.
  do 100 (destruct k as [|k]; [reflexivity|]). lia.
Qed.

Lemma replace_extension (s : string) :
  all_chars is_digit s = true -> replace ".wav" "" (s +:+ ".wav") = s.
Proof.
  induction s as [|c s IH]; [reflexivity|].
  cbn [all_chars]. intros H. apply andb_prop in H as [Hc Hs].
  change (String c s +:+ ".wav") with (String c (s +:+ ".wav")).
  cbn [replace strip_prefix].
  assert (Hdot : Ascii.eqb "." c = false).
  { destruct c as [[|] [|] [|] [|] [|] [|] [|] [|]];
      vm_compute in Hc; try discriminate Hc; reflexivity. }
  rewrite Hdot, (IH Hs). reflexivity.
Qed.

End TextFacts.

(** ** The two clock displays *)

Section Displays.

Lemma colon_parts (m s m' s' : string) :
  contains ":" m = false -> contains ":" m' = false ->
  contains ":" s = false -> contains ":" s' = false ->
  m +:+ ":" +:+ s = m' +:+ ":" +:+ s' -> m = m' /\ s = s'.
Proof.
  intros Hm Hm' Hs Hs' E. apply (f_equal (split ":")) in E.
  change (?a +:+ ":" +:+ ?b) with (a +:+ String ":" b) in E.
  rewrite !split_at_first, !split_without in E by assumption.
  injection E as -> ->. split; reflexivity.
Qed.

(** The rendering of a non-negative integer, padded or not: digits
    without a colon, of the value rendered. *)
Lemma rendered_digits (z : Z) :
  0 <= z ->
  (contains ":" (Number_toString z) = false
   /\ digits_value (Number_toString z) = z)
  /\ (contains ":" (padStart 2 "0" (Number_toString z)) = false
      /\ digits_value (padStart 2 "0" (Number_toString z)) = z).
Proof.
  intros Hz. destruct (Number_toString_digits z Hz) as (c & s & -> & Hd & Hv).
  destruct (padStart_digits c s Hd) as (_ & Hv' & Hc').
  repeat split; try assumption; try congruence.
  apply (all_chars_contains is_digit); [reflexivity | exact Hd].
Qed.

Lemma minutes_and_seconds (t t' : Z) :
  0 <= t -> 0 <= t' -> t / 60 = t' / 60 -> Z.rem t 60 = Z.rem t' 60 -> t = t'.
Proof.
  intros Ht Ht' Hm Hs. rewrite !Z.rem_mod_nonneg in Hs by lia.
  rewrite (Z.div_mod t 60), (Z.div_mod t' 60) by lia. congruence.
Qed.

Lemma length_append (a b : string) :
  String.length (a +:+ b) = (String.length a + String.length b)%nat.
Proof.
  induction a as [|x a IH]; [reflexivity|].
  change (String x a +:+ b) with (String x (a +:+ b)).
  cbn [String.length]. rewrite IH. reflexivity.
Qed.

Lemma timer_run_app (r : bool) (events more : list RecordingTimer.Event) :
  RecordingTimer.run r (events ++ more)%list
  = fold_left RecordingTimer.step more (RecordingTimer.run r events).
Proof. apply fold_left_app. Qed.

(** Whatever happens to the timer, its interval is installed exactly
    while it is told that a recording runs, and its count is 0 while none
    does. *)
Lemma timer_invariant (r : bool) (events : list RecordingTimer.Event) :
  RecordingTimer.interval (RecordingTimer.run r events)
  = RecordingTimer.isRecording (RecordingTimer.run r events)
  /\ (RecordingTimer.isRecording (RecordingTimer.run r events) = false ->
      RecordingTimer.seconds (RecordingTimer.run r events) = 0).
Proof.
  induction events as [|e events IH] using rev_ind.
  - split; [reflexivity|]. intros _. reflexivity.
  - rewrite timer_run_app. cbn [fold_left]. destruct IH as (Hi & Hz).
    destruct (RecordingTimer.run r events) as [r' s i]. cbn in *. subst i.
    destruct e as [[|]|], r'; cbn; auto; split; auto; discriminate.
Qed.

Lemma timer_seconds_elapsed (k : nat) (z : Z) :
  RecordingTimer.seconds
    (fold_left RecordingTimer.step (repeat RecordingTimer.SecondElapsed k)
       (RecordingTimer.mkTimer true z true))
  = z + Z.of_nat k.
Proof.
  revert z. induction k as [|k IHk]; intros z; cbn [repeat fold_left].
  - cbn. lia.
  - cbn [RecordingTimer.step RecordingTimer.interval
         RecordingTimer.isRecording RecordingTimer.seconds].
    rewrite IHk. lia.
Qed.

End Displays.

(** X1. The position shown by the player, for positions that are not
    negative: two positions are shown alike exactly when they lie in the
    same second. *)
Theorem player_formatTime_whole_seconds (a b : Z) :
  0 <= a -> 0 <= b ->
  (Player_formatTime a = Player_formatTime b <-> a / 1000 = b / 1000).
Proof.
  intros Ha Hb. split; [|unfold Player_formatTime; intros ->; reflexivity].
  unfold Player_formatTime. intros E.
  assert (Hta : 0 <= a / 1000) by (apply Z.div_pos; lia).
  assert (Htb : 0 <= b / 1000) by (apply Z.div_pos; lia).
  assert (Hma : 0 <= a / 1000 / 60) by (apply Z.div_pos; lia).
  assert (Hmb : 0 <= b / 1000 / 60) by (apply Z.div_pos; lia).
  assert (Hsa : 0 <= Z.rem (a / 1000) 60) by (apply Z.rem_nonneg; lia).
  assert (Hsb : 0 <= Z.rem (b / 1000) 60) by (apply Z.rem_nonneg; lia).
  destruct (rendered_digits _ Hma) as ((Hc1 & Hv1) & _).
  destruct (rendered_digits _ Hmb) as ((Hc2 & Hv2) & _).
  destruct (rendered_digits _ Hsa) as (_ & Hc3 & Hv3).
  destruct (rendered_digits _ Hsb) as (_ & Hc4 & Hv4).
  destruct (colon_parts _ _ _ _ Hc1 Hc2 Hc3 Hc4 E) as (Em & Es).
  apply minutes_and_seconds; congruence.
Qed.

Lemma player_formatTime_whole_seconds_witness :
  Player_formatTime 61000 = Player_formatTime 61999 <-> 61000 / 1000 = 61999 / 1000.
Proof. apply player_formatTime_whole_seconds; lia. Defined.

(** X2. The recording timer never shows two different counts alike. *)
Theorem timer_formatTime_injective (a b : Z) :
  0 <= a -> 0 <= b -> a <> b ->
  RecordingTimer.formatTime a <> RecordingTimer.formatTime b.
Proof.
  intros Ha Hb Hab. unfold RecordingTimer.formatTime. intros E. apply Hab.
  assert (Hma : 0 <= a / 60) by (apply Z.div_pos; lia).
  assert (Hmb : 0 <= b / 60) by (apply Z.div_pos; lia).
  assert (Hsa : 0 <= Z.rem a 60) by (apply Z.rem_nonneg; lia).
  assert (Hsb : 0 <= Z.rem b 60) by (apply Z.rem_nonneg; lia).
  destruct (rendered_digits _ Hma) as (_ & Hc1 & Hv1).
  destruct (rendered_digits _ Hmb) as (_ & Hc2 & Hv2).
  destruct (rendered_digits _ Hsa) as (_ & Hc3 & Hv3).
  destruct (rendered_digits _ Hsb) as (_ & Hc4 & Hv4).
  destruct (colon_parts _ _ _ _ Hc1 Hc2 Hc3 Hc4 E) as (Em & Es).
  apply minutes_and_seconds; congruence.
Qed.

Lemma timer_formatTime_injective_witness :
  RecordingTimer.formatTime 59 <> RecordingTimer.formatTime 60.
Proof. apply timer_formatTime_injective; lia. Defined.

(** X3. Below a hundred minutes the recording timer shows five
    characters: two for the minutes, the colon, two for the seconds. *)
Theorem timer_formatTime_width (s : Z) :
  0 <= s < 6000 ->
  String.length (RecordingTimer.formatTime s) = 5%nat
  /\ String.get 2 (RecordingTimer.formatTime s) = Some ":"%char.
Proof.
  intros Hs. unfold RecordingTimer.formatTime.
  assert (Hm : 0 <= s / 60 < 100).
  { split; [apply Z.div_pos; lia | apply Z.div_lt_upper_bound; lia]. }
  assert (Hr : 0 <= Z.rem s 60 < 100).
  { rewrite Z.rem_mod_nonneg by lia.
    pose proof (Z.mod_pos_bound s 60). lia. }
  pose proof (padStart_two_digits _ Hm) as Lm.
  pose proof (padStart_two_digits _ Hr) as Lr.
  split.
  - rewrite !length_append, Lm, Lr. reflexivity.
  - destruct (padStart 2 "0" (Number_toString (s / 60)))
      as [|c1 [|c2 [|c3 r]]]; try discriminate Lm.
    reflexivity.
Qed.

Lemma timer_formatTime_width_witness :
  String.length (RecordingTimer.formatTime 75) = 5%nat
  /\ String.get 2 (RecordingTimer.formatTime 75) = Some ":"%char.
Proof. apply timer_formatTime_width; lia. Defined.

(** X4. The recording timer, over everything that can happen to it since
    it was mounted: it shows 00:00 whenever no recording runs, and from
    there, once a recording starts, it counts the seconds elapsed since. *)
Theorem timer_counts_since_start (r : bool)
        (events : list RecordingTimer.Event) (n : nat) :
  let t := RecordingTimer.run r events in
  RecordingTimer.isRecording t = false ->
  RecordingTimer.shown t = "00:00"
  /\ RecordingTimer.seconds
       (RecordingTimer.run r
          (events ++ RecordingTimer.Rendered true
                  :: repeat RecordingTimer.SecondElapsed n)%list)
     = Z.of_nat n.
Proof.
  cbv zeta. intros Hr.
  destruct (timer_invariant r events) as (Hi & Hz). specialize (Hz Hr).
  split; [unfold RecordingTimer.shown; rewrite Hz; reflexivity|].
  rewrite timer_run_app.
  destruct (RecordingTimer.run r events) as [r' s i]. cbn in *.
  subst r' s i. cbn. rewrite timer_seconds_elapsed. lia.
Qed.

Lemma timer_counts_since_start_witness :
  RecordingTimer.shown
    (RecordingTimer.run true
       [RecordingTimer.SecondElapsed; RecordingTimer.Rendered false])
  = "00:00"
  /\ RecordingTimer.seconds
       (RecordingTimer.run true
          ([RecordingTimer.SecondElapsed; RecordingTimer.Rendered false]
           ++ RecordingTimer.Rendered true
           :: repeat RecordingTimer.SecondElapsed 3)%list)
     = Z.of_nat 3.
Proof.
  apply (timer_counts_since_start true
           [RecordingTimer.SecondElapsed; RecordingTimer.Rendered false] 3).
  reflexivity.
Defined.

(** ** What is in the recordings directory *)

Section ListingFacts.
Variable P : Platform.

Lemma elem_of_names_in (dir name : string) (fs : gmap string N) :
  name ∈ names_in dir fs
  <-> is_Some (fs !! (dir +:+ name)) /\ length (split "/" name) = 1%nat.
Proof.
  unfold names_in. rewrite list_elem_of_omap. split.
  - intros ([path size] & Hin & Hm). apply elem_of_map_to_list in Hin.
    destruct (strip_prefix dir path) as [name'|] eqn:E; [|discriminate].
    destruct (bool_decide _) eqn:Hl; [|discriminate].
    injection Hm as ->. apply strip_prefix_Some in E as ->.
    apply bool_decide_eq_true in Hl. split; [eauto | exact Hl].
  - intros ([size Hs] & Hl). exists (dir +:+ name, size).
    split; [apply elem_of_map_to_list, Hs|].
    rewrite strip_prefix_app, (bool_decide_eq_true_2 _ Hl). reflexivity.
Qed.

(** The names listed are those of the .wav files directly in the
    recordings directory. *)
Lemma elem_of_wav_names (a : App) (name : string) :
  name ∈ wav_names P a
  <-> endsWith name ".wav" = true
      /\ is_Some (files (world a) !! (recordingsDirectory P +:+ name))
      /\ length (split "/" name) = 1%nat.
Proof.
  unfold wav_names. rewrite list_elem_of_filter, elem_of_names_in. tauto.
Qed.

Lemma Forall2_elem_of_l {A B} (R : A -> B -> Prop) (l : list A) (k : list B)
      (x : A) :
  Forall2 R l k -> x ∈ l -> exists y, y ∈ k /\ R x y.
Proof.
  induction 1 as [|x' y l k Hxy _ IH]; intros Hin.
  - apply elem_of_nil in Hin as [].
  - apply elem_of_cons in Hin as [->|Hin].
    + exists y. split; [left | exact Hxy].
    + destruct (IH Hin) as (y' & Hy & HR). exists y'. split; [right|]; auto.
Qed.

Lemma Forall2_elem_of_r {A B} (R : A -> B -> Prop) (l : list A) (k : list B)
      (y : B) :
  Forall2 R l k -> y ∈ k -> exists x, x ∈ l /\ R x y.
Proof.
  induction 1 as [|x y' l k Hxy _ IH]; intros Hin.
  - apply elem_of_nil in Hin as [].
  - apply elem_of_cons in Hin as [->|Hin].
    + exists x. split; [left | exact Hxy].
    + destruct (IH Hin) as (x' & Hx & HR). exists x'. split; [right|]; auto.
Qed.

(** The name the service gives a clip has no separator of paths and
    carries the extension. *)
Lemma service_name_listed (a : App) (t : Z) :
  0 <= t ->
  is_Some (files (world a)
           !! (recordingsDirectory P
               +:+ ("recording_" +:+ Number_toString t +:+ ".wav"))) ->
  ("recording_" +:+ Number_toString t +:+ ".wav") ∈ wav_names P a.
Proof.
  intros Ht Hf. apply elem_of_wav_names. split; [|split; [exact Hf|]].
  - rewrite <- append_assoc. apply endsWith_app.
  - destruct (Number_toString_digits t Ht) as (c & s & -> & Hd & _).
    rewrite split_without; [reflexivity|].
    rewrite !contains_app.
    rewrite (all_chars_contains is_digit "/" _ eq_refl Hd). reflexivity.
Qed.

(** The service reads its own names back: the reading of the clock in the
    name is the id, and the date of the entry. *)
Lemma service_decode_saved (now t : Z) (u : string) :
  0 <= t <= 8640000000000000 ->
  Codec.service_decode now u ("recording_" +:+ Number_toString t +:+ ".wav")
  = mkAudioFile (Number_toString t) u
      ("recording_" +:+ Number_toString t +:+ ".wav") (of_Z 0) (DateAt t).
Proof.
  intros Ht.
  assert (Hseg : Codec.service_id_segment
                   ("recording_" +:+ Number_toString t +:+ ".wav")
                 = Some (Number_toString t)).
  { destruct (Number_toString_digits t (proj1 Ht)) as (c & s & E & Hd & _).
    unfold Codec.service_id_segment.
    change ("recording_" +:+ ?r) with ("recording" +:+ String "_" r).
    rewrite (split_at_first "_" "recording" _ eq_refl).
    rewrite split_without.
    2:{ rewrite contains_app, E.
        rewrite (all_chars_contains is_digit "_" _ eq_refl Hd). reflexivity. }
    cbn [lookup list_lookup].
    change (Number_toString t +:+ ".wav")
      with (Number_toString t +:+ String "." "wav").
    rewrite split_at_first
      by (rewrite E; apply (all_chars_contains is_digit);
          [reflexivity | exact Hd]).
    cbn [nth]. rewrite E. reflexivity. }
  unfold Codec.service_decode. rewrite Hseg. unfold Codec.service_entry.
  rewrite parseInt_Number_toString by lia.
  rewrite new_Date_of_Z by lia. reflexivity.
Qed.

(** An encoded name is listed once its file is there. *)
Lemma encoded_name_listed (a : App) (id0 : string) (t : Z) (d : Q) :
  contains "/" id0 = false -> 0 <= t -> Qle 0 d ->
  is_Some (files (world a)
           !! (recordingsDirectory P +:+ Codec.encode id0 t d)) ->
  Codec.encode id0 t d ∈ wav_names P a.
Proof.
  intros Hid Ht Hd Hf. apply elem_of_wav_names.
  split; [|split; [exact Hf|]].
  - unfold Codec.encode. rewrite <- !append_assoc. apply endsWith_app.
  - destruct (Number_toString_digits t Ht) as (c & s & Et & Hdt & _).
    destruct (Number_toString_digits _ (Math_round_nonneg d Hd))
      as (c' & s' & Ed & Hdd & _).
    rewrite split_without; [reflexivity|].
    unfold Codec.encode. rewrite !contains_app, Hid, Et, Ed.
    rewrite (all_chars_contains is_digit "/" _ eq_refl Hdt).
    rewrite (all_chars_contains is_digit "/" _ eq_refl Hdd).
    reflexivity.
Qed.

End ListingFacts.

(** X5. The two codecs on each other's names, which share one
    directory. The hook reads a name of the service as the id
    [recording], the same for every clip, with the reading of the clock as
    timestamp; the service reads a name of the hook as the clip whose id
    and date are the name's second segment, the id in the first segment
    being lost. *)
Theorem codecs_on_each_others_names (t : Z) :
  0 <= t <= 8640000000000000 ->
  (forall now,
     Codec.decode now ("recording_" +:+ Number_toString t +:+ ".wav")
     = Codec.mkDecoded "recording" (of_Z t) (of_Z 0))
  /\ (forall now u id0 d,
        contains "_" id0 = false -> Qle 0 d ->
        Codec.service_decode now u (Codec.encode id0 t d)
        = mkAudioFile (Number_toString t) u (Codec.encode id0 t d)
            (of_Z 0) (DateAt t)).
Proof.
  intros Ht.
  destruct (Number_toString_digits t (proj1 Ht)) as (c & s & E & Hd & Hv).
  assert (Hu : contains "_" (Number_toString t) = false)
    by (rewrite E; apply (all_chars_contains is_digit);
        [reflexivity | exact Hd]).
  assert (Hdot : contains "." (Number_toString t) = false)
    by (rewrite E; apply (all_chars_contains is_digit);
        [reflexivity | exact Hd]).
  split.
  - intros now. unfold Codec.decode.
    change ("recording_" +:+ ?r) with ("recording" +:+ String "_" r).
    rewrite (split_at_first "_" "recording" _ eq_refl).
    rewrite split_without by (rewrite contains_app, Hu; reflexivity).
    unfold Codec.try_decode. cbn [lookup list_lookup nth length Nat.ltb
                                  Nat.leb].
    rewrite E, (replace_extension _ Hd), (Number_digits c s Hd), Hv.
    reflexivity.
  - intros now u id0 d Hid Hq.
    unfold Codec.service_decode, Codec.service_id_segment.
    rewrite (split_encode id0 t d Hid (proj1 Ht) Hq).
    cbn [lookup list_lookup]. rewrite (split_without _ _ Hdot).
    cbn [nth]. rewrite E at 1. cbn [truthy String.eqb negb].
    rewrite <- ?E. unfold Codec.service_entry.
    rewrite parseInt_Number_toString, new_Date_of_Z by lia. reflexivity.
Qed.

Lemma codecs_on_each_others_names_witness :
  (forall now,
     Codec.decode now ("recording_" +:+ Number_toString 1700000000000
                       +:+ ".wav")
     = Codec.mkDecoded "recording" (of_Z 1700000000000) (of_Z 0))
  /\ (forall now u id0 d,
        contains "_" id0 = false -> Qle 0 d ->
        Codec.service_decode now u (Codec.encode id0 1700000000000 d)
        = mkAudioFile (Number_toString 1700000000000) u
            (Codec.encode id0 1700000000000 d) (of_Z 0)
            (DateAt 1700000000000)).
Proof. apply (codecs_on_each_others_names 1700000000000). lia. Defined.

(** ** The service, whatever the platform answers *)

Ltac unfold_ui :=
  unfold lift, ui_rendered, ui_update, ui_try_catch,
    RecordScreen.setIsRecording, RecordScreen.setPermissionGranted,
    RecordingsScreen.setRecordings, RecordingsScreen.setPlayingId,
    RecordingsScreen.setIsPlaying, RecordingsScreen.setError,
    mbind, mret, UI_bind, UI_ret in *.

Ltac ui_exec := repeat (progress (unfold_ui; cbn)).

Section ServiceOutcomes.
Variable P : Platform.

(** A [try] whose [catch] returns, returns. *)
Lemma try_catch_returns {A} (body : Async A) (handler : string -> Async A)
      (s : App) :
  (forall e s1, exists x s', handler e s1 = (Returned x, s')) ->
  exists x s', try_catch body handler s = (Returned x, s').
Proof.
  intros Hh. unfold try_catch. destruct (body s) as [[x|e] s1]; eauto.
Qed.

Lemma service_getRecordings_returns (a : App) :
  exists l a', Service.getRecordings P a = (Returned l, a').
Proof.
  apply try_catch_returns. intros e s1. eexists _, _. reflexivity.
Qed.

Lemma service_deleteRecording_returns (u : string) (a : App) :
  exists b a', Service.deleteRecording u a = (Returned b, a').
Proof.
  apply try_catch_returns. intros e s1. eexists _, _. reflexivity.
Qed.

(** Starting: the service never throws and never stops a capture; it
    leaves the files and the player alone, and holds the capture the
    platform has just created exactly when it answers true. *)
Lemma service_start_outcome (a : App) :
  exists started a' cs,
    Service.startRecording P a = (Returned started, a')
    /\ calls_between a a' cs
    /\ ~ In StopAndUnload cs
    /\ files (world a') = files (world a)
    /\ sv_sound (service a') = sv_sound (service a)
    /\ (if started
        then exists r, createRecording P = Returned r
                       /\ sv_recording (service a') = Some r
        else sv_recording (service a') = sv_recording (service a)).
Proof.
  unfold Service.startRecording, Service.requestPermission, Service.init,
    calls_between.
  exec.
  destruct (requestPermissions P) as [[[|]]|e]; exec.
  2,3: eexists _, _, _; (split; [reflexivity|]); cbn;
       rewrite <- ?app_assoc; cbn;
       (split; [reflexivity|]); cbn; intuition congruence.
  destruct (setAudioMode P true) as [[]|e]; exec.
  2: eexists _, _, _; (split; [reflexivity|]); cbn;
     rewrite <- ?app_assoc; cbn;
     (split; [reflexivity|]); cbn; intuition congruence.
  destruct (fi_exists _); exec;
    destruct (createRecording P) as [r|e]; exec;
    eexists _, _, _; (split; [reflexivity|]); cbn;
    rewrite <- ?app_assoc; cbn;
    (split; [reflexivity|]); cbn;
    (split; [intuition congruence|]); eauto.
Qed.

(** Stopping: the service never throws; it leaves directories and
    player alone, removes no file, and gives up its handle unless the
    native stop or the reading of the status has failed. *)
Lemma service_stop_outcome (a : App) :
  exists o a',
    Service.stopRecording P a = (Returned o, a')
    /\ directories (world a') = directories (world a)
    /\ sv_sound (service a') = sv_sound (service a)
    /\ (forall path, is_Some (files (world a) !! path) ->
                     is_Some (files (world a') !! path))
    /\ (sv_recording (service a') = None
        \/ exists r, sv_recording (service a) = Some r
                     /\ sv_recording (service a') = Some r
                     /\ (rec_stopAndUnload r = Returned tt ->
                         exists e, rec_getStatus r = Thrown e)).
Proof.
  unfold Service.stopRecording. exec.
  destruct (sv_recording (service a)) as [r|] eqn:Hr; exec.
  2:{ eexists _, _. split; [reflexivity|]. cbn. rewrite Hr. auto. }
  destruct (rec_stopAndUnload r) as [[]|e] eqn:Hstop; exec.
  2:{ eexists _, _. split; [reflexivity|]. cbn. rewrite Hr.
      repeat split; auto. right. exists r. repeat split. congruence. }
  destruct (rec_getStatus r) as [status|e] eqn:Hst; exec.
  2:{ eexists _, _. split; [reflexivity|]. cbn. rewrite Hr.
      repeat split; auto. right. exists r. repeat split. eauto. }
  destruct (rec_getURI r) as [u|]; exec.
  2:{ eexists _, _. split; [reflexivity|]. cbn. auto. }
  destruct (truthy u); exec.
  2:{ eexists _, _. split; [reflexivity|]. cbn. auto. }
  destruct (missing_or_empty _); exec.
  { eexists _, _. split; [reflexivity|]. cbn. auto. }
  destruct (files (world a) !! u) as [size|]; exec.
  2:{ eexists _, _. split; [reflexivity|]. cbn. auto. }
  destruct (copy_lands P); exec;
    match goal with
    | |- context [fi_exists ?i] => destruct (fi_exists i)
    end; exec; eexists _, _; (split; [reflexivity|]); cbn;
    repeat split; auto; intros path Hp;
    destruct (decide (path = recordingsDirectory P
                             +:+ ("recording_"
                                  +:+ Number_toString
                                        (clock P (clock_reads (world a)))
                                  +:+ ".wav"))) as [->|Hne];
    rewrite ?lookup_insert_eq, ?lookup_insert_ne by congruence; eauto.
Qed.

(** A stop that goes through: the capture is copied into the recordings
    directory under [recording_] and a reading of the clock, and the
    descriptor returned carries that reading as its id. *)
Lemma service_stop_success (a : App) (r : NativeRecording) (u : string)
      (size : N) (status : option Z) :
  sv_recording (service a) = Some r ->
  rec_stopAndUnload r = Returned tt ->
  rec_getStatus r = Returned status ->
  rec_getURI r = Some u -> truthy u = true ->
  files (world a) !! u = Some size -> size <> 0%N ->
  copy_lands P = true ->
  exists a',
    Service.stopRecording P a
    = (Returned (Some
         (mkAudioFile
            (Number_toString (clock P (clock_reads (world a))))
            (recordingsDirectory P
             +:+ ("recording_"
                  +:+ Number_toString (clock P (clock_reads (world a)))
                  +:+ ".wav"))
            ("recording_"
             +:+ Number_toString (clock P (clock_reads (world a)))
             +:+ ".wav")
            (of_Z (default 0 status))
            (new_Date (of_Z (clock P (S (clock_reads (world a)))))))), a')
    /\ files (world a')
       = <[recordingsDirectory P
           +:+ ("recording_"
                +:+ Number_toString (clock P (clock_reads (world a)))
                +:+ ".wav") := size]> (files (world a))
    /\ directories (world a') = directories (world a)
    /\ sv_recording (service a') = None
    /\ sv_sound (service a') = sv_sound (service a).
Proof.
  intros Hr Hstop Hst Hu Ht Hf Hsize Hcopy. unfold Service.stopRecording.
  exec. rewrite Hr. exec. rewrite Hstop. exec. rewrite Hst. exec.
  rewrite Hu, Ht. exec.
  unfold info_at at 1. cbn. rewrite Hf. unfold missing_or_empty. cbn.
  destruct (N.eqb_spec size 0); [contradiction|]. exec.
  rewrite Hf, Hcopy. exec.
  unfold info_at at 1. cbn. rewrite lookup_insert_eq. exec.
  eexists. split; [reflexivity|]. cbn. repeat split.
Qed.

(** Playing: the service never throws; it leaves files, directories and
    the capture alone, and holds the sound the platform has just created
    when it answers true. *)
Lemma service_play_outcome (u : string) (a : App) :
  exists b a',
    Service.playRecording P u a = (Returned b, a')
    /\ files (world a') = files (world a)
    /\ directories (world a') = directories (world a)
    /\ sv_recording (service a') = sv_recording (service a)
    /\ (b = true -> exists y, createSound P u = Returned y
                              /\ snd_play y = Returned tt
                              /\ sv_sound (service a') = Some y).
Proof.
  unfold Service.playRecording. exec.
  destruct (sv_sound (service a)) as [x|]; exec.
  1: destruct (snd_unload x) as [[]|e]; exec.
  2: eexists _, _; (split; [reflexivity|]); cbn; repeat split; discriminate.
  all: destruct (fi_exists _); exec.
  all: try (eexists _, _; (split; [reflexivity|]); cbn; repeat split;
            discriminate).
  all: destruct (setAudioMode P false) as [[]|e]; exec.
  all: try (eexists _, _; (split; [reflexivity|]); cbn; repeat split;
            discriminate).
  all: destruct (createSound P u) as [y|e]; exec.
  all: try (eexists _, _; (split; [reflexivity|]); cbn; repeat split;
            discriminate).
  all: destruct (snd_play y) as [[]|e] eqn:Hplay; exec.
  all: eexists _, _; (split; [reflexivity|]); cbn; repeat split;
       try discriminate; eauto.
Qed.

End ServiceOutcomes.

(** ** The record screen *)

Section RecordScreenFacts.
Variable P : Platform.

Lemma ui_bind_returned {St A B} (m : UI St A) (f : A -> UI St B)
      (st st' : St) (s s' : App) (x : A) :
  m st s = (Returned x, st', s') -> (m ≫= f) st s = f x st' s'.
Proof. intros H. unfold mbind, UI_bind. rewrite H. reflexivity. Qed.

Lemma lift_returned {St A} (m : Async A) (st : St) (s s' : App) (x : A) :
  m s = (Returned x, s') -> lift m st s = (Returned x, st, s').
Proof. intros H. unfold lift. rewrite H. reflexivity. Qed.

(** Without the permission the button is not there: pressing does
    nothing. *)
Lemma record_button_disabled (n : nat) (st : RecordScreen.State) (a : App) :
  RecordScreen.permissionGranted st = false ->
  pressed n (RecordScreen.pressRecordButton P) st a = (Returned tt, st, a).
Proof.
  intros H. induction n as [|n IH]; [reflexivity|].
  cbn [pressed].
  assert (E : RecordScreen.pressRecordButton P st a = (Returned tt, st, a)).
  { unfold RecordScreen.pressRecordButton. ui_exec. rewrite H. reflexivity. }
  rewrite (ui_bind_returned _ _ _ _ _ _ _ E). exact IH.
Qed.

(** One press handled: the screen never throws, removes no file, and shows
    that a recording runs only if the service holds a capture. *)
Lemma record_press_step (st : RecordScreen.State) (a : App) :
  exists st' a',
    RecordScreen.handleRecordPress P st a = (Returned tt, st', a')
    /\ RecordScreen.permissionGranted st' = RecordScreen.permissionGranted st
    /\ (RecordScreen.isRecording st' = true ->
        is_Some (sv_recording (service a')))
    /\ (RecordScreen.isRecording st = true ->
        RecordScreen.isRecording st' = false)
    /\ (forall path, is_Some (files (world a) !! path) ->
                     is_Some (files (world a') !! path)).
Proof.
  unfold RecordScreen.handleRecordPress. ui_exec.
  destruct (RecordScreen.isRecording st) eqn:Hrec.
  - destruct (service_stop_outcome P a) as (o & a' & E & _ & _ & Hfiles & _).
    ui_exec. rewrite E.
    destruct o as [clip|]; ui_exec; eexists _, _;
      (split; [reflexivity|]); cbn; repeat split; auto; discriminate.
  - destruct (service_start_outcome P a)
      as (started & a' & cs & E & _ & _ & Hfiles & _ & Hcap).
    ui_exec. rewrite E. eexists _, _. split; [reflexivity|]. cbn.
    repeat split; try discriminate.
    + intros ->. destruct Hcap as (r & _ & ->). eauto.
    + intros path. rewrite Hfiles. auto.
Qed.

End RecordScreenFacts.

(** X6. On a phone whose user refuses the microphone, the record screen
    asks once on mount and then never records, however often the place of
    the button is pressed: the request is the only call made. *)
Theorem record_screen_refused (P : Platform) (response : PermissionResponse)
        (a : App) (n : nat) :
  requestPermissions P = Returned response ->
  granted response = false ->
  (RecordScreen.mountEffect P;;
   pressed n (RecordScreen.pressRecordButton P)) RecordScreen.initial a
  = (Returned tt, RecordScreen.initial, logged [RequestPermissions] a).
Proof.
  intros Hreq Hg.
  assert (E : RecordScreen.mountEffect P RecordScreen.initial a
              = (Returned tt, RecordScreen.initial,
                 logged [RequestPermissions] a)).
  { unfold RecordScreen.mountEffect, Service.requestPermission. ui_exec.
    exec. rewrite Hreq. cbn. rewrite Hg. reflexivity. }
  rewrite (ui_bind_returned _ _ _ _ _ _ _ E).
  apply record_button_disabled. reflexivity.
Qed.

Lemma record_screen_refused_witness :
  (RecordScreen.mountEffect Example.refusing;;
   pressed 3 (RecordScreen.pressRecordButton Example.refusing))
    RecordScreen.initial Example.launched
  = (Returned tt, RecordScreen.initial,
     logged [RequestPermissions] Example.launched).
Proof.
  apply (record_screen_refused Example.refusing (mkPermissionResponse false));
    reflexivity.
Defined.

(** X7. However often the record button is pressed, and whatever the
    platform answers, the record screen never throws, no file is removed,
    and the screen shows that a recording runs only while the service
    holds a capture. *)
Theorem record_screen_presses (P : Platform) (n : nat)
        (st : RecordScreen.State) (a : App) :
  (RecordScreen.isRecording st = true -> is_Some (sv_recording (service a))) ->
  exists st' a',
    pressed n (RecordScreen.pressRecordButton P) st a = (Returned tt, st', a')
    /\ (RecordScreen.isRecording st' = true ->
        is_Some (sv_recording (service a')))
    /\ (forall path, is_Some (files (world a) !! path) ->
                     is_Some (files (world a') !! path)).
Proof.
  revert st a. induction n as [|n IH]; intros st a Hinv.
  - exists st, a. repeat split; auto.
  - cbn [pressed].
    assert (Hstep : exists st1 a1,
               RecordScreen.pressRecordButton P st a = (Returned tt, st1, a1)
               /\ (RecordScreen.isRecording st1 = true ->
                   is_Some (sv_recording (service a1)))
               /\ (forall path, is_Some (files (world a) !! path) ->
                                is_Some (files (world a1) !! path))).
    { unfold RecordScreen.pressRecordButton.
      rewrite (ui_bind_returned _ _ st st a a st eq_refl).
      destruct (RecordScreen.permissionGranted st).
      - destruct (record_press_step P st a)
          as (st1 & a1 & E & _ & H1 & _ & H2).
        exists st1, a1. auto.
      - exists st, a. repeat split; auto. }
    destruct Hstep as (st1 & a1 & E & H1 & H2).
    rewrite (ui_bind_returned _ _ _ _ _ _ _ E).
    destruct (IH st1 a1 H1) as (st' & a' & E' & H1' & H2').
    exists st', a'. repeat split; auto.
Qed.

Lemma record_screen_presses_witness :
  exists st' a',
    pressed 2 (RecordScreen.pressRecordButton Example.phone)
      (RecordScreen.mkState false true) Example.launched
    = (Returned tt, st', a')
    /\ (RecordScreen.isRecording st' = true ->
        is_Some (sv_recording (service a')))
    /\ (forall path, is_Some (files (world Example.launched) !! path) ->
                     is_Some (files (world a') !! path)).
Proof.
  apply (record_screen_presses Example.phone 2
           (RecordScreen.mkState false true) Example.launched).
  discriminate.
Defined.



(** ** The list of recordings *)

Section RecordingsScreenFacts.
Variable P : Platform.

(** What the service lists from an existing directory: a row for every
    .wav file in it and no other, each pointing to its file. *)
Lemma service_listing_rows (a : App) :
  recordingsDirectory P ∈ directories (world a) ->
  exists l a',
    Service.getRecordings P a = (Returned l, a')
    /\ same_but_log a a'
    /\ Permutation (map af_filename l) (wav_names P a)
    /\ Forall (fun e => af_uri e = recordingsDirectory P +:+ af_filename e
                        /\ exists now,
                             e = Codec.service_decode now (af_uri e)
                                   (af_filename e)) l
    /\ (Forall (valid_date af_createdAt) l ->
        most_recent_first af_createdAt l).
Proof.
  intros Hdir.
  destruct (service_getRecordings_listing P a Hdir)
    as (recs & a' & E & Hlog & HR).
  exists (ArraySort.sort af_by_recency recs), a'.
  split; [exact E|]. split; [exact Hlog|].
  assert (Hnames : map af_filename recs = wav_names P a).
  { clear E. induction HR as [|name r names recs (now & ->) HR IH];
      [reflexivity|].
    cbn [map]. rewrite IH. reflexivity. }
  split; [|split].
  - rewrite (sort_Permutation af_createdAt recs), Hnames. reflexivity.
  - eapply Permutation_Forall;
      [symmetry; apply (sort_Permutation af_createdAt)|].
    apply Forall_forall. intros e He.
    destruct (Forall2_elem_of_r _ _ _ _ HR He) as (name & _ & now & ->).
    split; [reflexivity|]. exists now. reflexivity.
  - intros Hvalid. apply sort_sorted.
    eapply Permutation_Forall; [|exact Hvalid]. apply sort_Permutation.
Qed.

(** The refresh of the screen never throws and touches neither the files
    nor the playing state. *)
Lemma screen_loadRecordings_frame (st : RecordingsScreen.State) (a : App) :
  exists l a',
    Service.getRecordings P a = (Returned l, a')
    /\ RecordingsScreen.loadRecordings P st a
       = (Returned tt,
          RecordingsScreen.mkState l (RecordingsScreen.playingId st)
            (RecordingsScreen.isPlaying st) None, a').
Proof.
  destruct (service_getRecordings_returns P a) as (l & a' & E).
  exists l, a'. split; [exact E|].
  unfold RecordingsScreen.loadRecordings. ui_exec. rewrite E. reflexivity.
Qed.

End RecordingsScreenFacts.

Section RecordingsScreenInvariant.
Variable P : Platform.

Lemma recordings_screen_step (e : RecordingsScreen.Event)
      (st : RecordingsScreen.State) (a : App) :
  RecordingsScreen.consistent st ->
  exists st' a',
    RecordingsScreen.handle P e st a = (Returned tt, st', a')
    /\ RecordingsScreen.consistent st'.
Proof.
  intros (Herr & Hmark). unfold RecordingsScreen.consistent.
  destruct e as [| |item|item [|]|status]; cbn [RecordingsScreen.handle].
  - unfold RecordingsScreen.focusEffect.
    rewrite (ui_bind_returned _ _ st st a
               (logged [Console Log "Loading recordings on focus"] a) tt
               eq_refl).
    destruct (screen_loadRecordings_frame P st
                (logged [Console Log "Loading recordings on focus"] a))
      as (l & a' & _ & ->).
    eexists _, _. split; [reflexivity|]. cbn. auto.
  - unfold RecordingsScreen.focusCleanup.
    destruct (service_stopPlayback_frame a) as (a' & cs & E & _).
    rewrite (ui_bind_returned _ _ _ _ _ _ _ (lift_returned _ st _ _ _ E)).
    eexists _, _. split; [reflexivity|]. cbn. split; [exact Herr|].
    discriminate.
  - unfold RecordingsScreen.handlePlayPause.
    rewrite (ui_bind_returned _ _ st st a a st eq_refl).
    destruct (_ && _).
    + destruct (service_stopPlayback_frame a) as (a' & cs & E & _).
      rewrite (ui_bind_returned _ _ _ _ _ _ _ (lift_returned _ st _ _ _ E)).
      eexists _, _. split; [reflexivity|]. cbn. split; [exact Herr|].
      discriminate.
    + destruct (service_play_outcome P (af_uri item) a)
        as (b & a' & E & _).
      unfold ui_try_catch.
      rewrite (ui_bind_returned _ _ st _ a a tt eq_refl).
      rewrite (ui_bind_returned _ _ _ _ _ _ _ (lift_returned _ _ _ _ _ E)).
      destruct b; eexists _, _; (split; [reflexivity|]); cbn; eauto.
  - unfold RecordingsScreen.handleDeleteRecording,
      RecordingsScreen.onDeletePressed.
    rewrite (ui_bind_returned _ _ st st a a st eq_refl).
    assert (Hfirst : exists st1 a1,
      (if bool_decide (RecordingsScreen.playingId st = Some (af_id item))
       then
         lift Service.stopPlayback;;
         RecordingsScreen.setPlayingId None;;
         RecordingsScreen.setIsPlaying false
       else mret tt) st a = (Returned tt, st1, a1)
      /\ RecordingsScreen.error st1 = None
      /\ (RecordingsScreen.isPlaying st1 = true ->
          is_Some (RecordingsScreen.playingId st1))).
    { destruct (bool_decide _).
      - destruct (service_stopPlayback_frame a) as (a1 & cs & E & _).
        rewrite (ui_bind_returned _ _ _ _ _ _ _ (lift_returned _ st _ _ _ E)).
        eexists _, _. split; [reflexivity|]. cbn. split; [exact Herr|].
        discriminate.
      - exists st, a. auto. }
    destruct Hfirst as (st1 & a1 & E1 & Herr1 & Hmark1).
    rewrite (ui_bind_returned _ _ _ _ _ _ _ E1).
    destruct (service_deleteRecording_returns (af_uri item) a1)
      as (b & a2 & E2).
    rewrite (ui_bind_returned _ _ _ _ _ _ _ (lift_returned _ st1 _ _ _ E2)).
    destruct b.
    + destruct (screen_loadRecordings_frame P st1 a2) as (l & a' & _ & ->).
      eexists _, _. split; [reflexivity|]. cbn. auto.
    + exists st1, a2. auto.
  - exists st, a. auto.
  - unfold RecordingsScreen.onPlaybackStatusUpdate.
    destruct (negb _); [exists st, a; auto|].
    destruct (default false _); [|exists st, a; auto].
    eexists _, _. split; [reflexivity|]. cbn. split; [exact Herr|].
    discriminate.
Qed.

End RecordingsScreenInvariant.

(** X9. When the list gains the focus and the recordings directory
    exists, the list shows one row for every .wav file in it and no other
    row, each row pointing to its file, most recent first when every date
    is valid; nothing is written, and what plays is left alone. *)
Theorem recordings_screen_focus (P : Platform) (st : RecordingsScreen.State)
        (a : App) :
  recordingsDirectory P ∈ directories (world a) ->
  exists st' a',
    RecordingsScreen.focusEffect P st a = (Returned tt, st', a')
    /\ Permutation (map af_filename (RecordingsScreen.recordings st'))
                   (wav_names P a)
    /\ Forall (fun e => af_uri e = recordingsDirectory P +:+ af_filename e)
              (RecordingsScreen.recordings st')
    /\ (Forall (valid_date af_createdAt) (RecordingsScreen.recordings st') ->
        most_recent_first af_createdAt (RecordingsScreen.recordings st'))
    /\ RecordingsScreen.playingId st' = RecordingsScreen.playingId st
    /\ RecordingsScreen.isPlaying st' = RecordingsScreen.isPlaying st
    /\ RecordingsScreen.error st' = None
    /\ files (world a') = files (world a).
Proof.
  intros Hdir. unfold RecordingsScreen.focusEffect.
  rewrite (ui_bind_returned _ _ st st a
             (logged [Console Log "Loading recordings on focus"] a) tt
             eq_refl).
  destruct (service_listing_rows P
              (logged [Console Log "Loading recordings on focus"] a) Hdir)
    as (l & a' & E & Hlog & Hperm & Hrows & Hsorted).
  destruct (screen_loadRecordings_frame P st
              (logged [Console Log "Loading recordings on focus"] a))
    as (l' & a'' & E' & ->).
  rewrite E in E'. injection E' as <- <-.
  eexists _, _. split; [reflexivity|]. cbn.
  destruct Hlog as (Hfiles & _).
  repeat split; auto.
  eapply Forall_impl; [exact Hrows|]. cbn. tauto.
Qed.

Lemma recordings_screen_focus_witness :
  exists st' a',
    RecordingsScreen.focusEffect Example.phone RecordingsScreen.initial
      Example.two_clips = (Returned tt, st', a')
    /\ Permutation (map af_filename (RecordingsScreen.recordings st'))
                   (wav_names Example.phone Example.two_clips)
    /\ Forall (fun e => af_uri e
                        = recordingsDirectory Example.phone
                          +:+ af_filename e)
              (RecordingsScreen.recordings st')
    /\ (Forall (valid_date af_createdAt) (RecordingsScreen.recordings st') ->
        most_recent_first af_createdAt (RecordingsScreen.recordings st'))
    /\ RecordingsScreen.playingId st'
       = RecordingsScreen.playingId RecordingsScreen.initial
    /\ RecordingsScreen.isPlaying st'
       = RecordingsScreen.isPlaying RecordingsScreen.initial
    /\ RecordingsScreen.error st' = None
    /\ files (world a') = files (world Example.two_clips).
Proof.
  apply (recordings_screen_focus Example.phone RecordingsScreen.initial
           Example.two_clips).
  vm_compute. set_solver.
Defined.

(** X10. The first time the list gains the focus, when there is no
    recordings directory yet (and nothing at its place or under it): the
    directory is created, and the list is shown empty. *)
Theorem recordings_screen_first_focus (P : Platform)
        (st : RecordingsScreen.State) (a : App) :
  fi_exists (info_at (world a) (recordingsDirectory P)) = false ->
  (forall name, files (world a) !! (recordingsDirectory P +:+ name) = None) ->
  exists a',
    RecordingsScreen.focusEffect P st a
    = (Returned tt,
       RecordingsScreen.mkState [] (RecordingsScreen.playingId st)
         (RecordingsScreen.isPlaying st) None, a')
    /\ recordingsDirectory P ∈ directories (world a')
    /\ files (world a') = files (world a).
Proof.
  intros Hdir Hnone.
  assert (Hnames : names_in (recordingsDirectory P) (files (world a)) = []).
  { apply elem_of_nil_inv. intros name Hin.
    apply elem_of_names_in in Hin as ([size Hs] & _).
    rewrite Hnone in Hs. discriminate. }
  unfold RecordingsScreen.focusEffect, RecordingsScreen.loadRecordings,
    Service.getRecordings, Service.init.
  ui_exec. exec. unfold info_at in *. cbn in *. rewrite Hdir. exec.
  rewrite bool_decide_eq_true_2 by set_solver. exec.
  rewrite Hnames. cbn. eexists. split; [reflexivity|]. cbn.
  split; [set_solver | reflexivity].
Qed.

Lemma recordings_screen_first_focus_witness :
  exists a',
    RecordingsScreen.focusEffect Example.phone RecordingsScreen.initial
      ScreenExample.first_launch
    = (Returned tt, RecordingsScreen.mkState [] None false None, a')
    /\ recordingsDirectory Example.phone ∈ directories (world a')
    /\ files (world a') = files (world ScreenExample.first_launch).
Proof.
  apply (recordings_screen_first_focus Example.phone
           RecordingsScreen.initial ScreenExample.first_launch).
  - reflexivity.
  - intros name. vm_compute. reflexivity.
Defined.

(** X11. Deleting, from the list, a clip whose file exists (the recordings
    directory being there): the file is removed and no other file is
    touched, the refreshed list has no row for it and every row it has
    points to a file that exists, and a clip that was marked as playing is
    no longer. *)
Theorem recordings_screen_delete (P : Platform) (st : RecordingsScreen.State)
        (a : App) (item : AudioFile) (size : N) :
  recordingsDirectory P ∈ directories (world a) ->
  files (world a) !! af_uri item = Some size ->
  exists st' a',
    RecordingsScreen.handleDeleteRecording P item true st a
    = (Returned tt, st', a')
    /\ files (world a') = delete (af_uri item) (files (world a))
    /\ Forall (fun e => af_uri e <> af_uri item
                        /\ is_Some (files (world a') !! af_uri e))
              (RecordingsScreen.recordings st')
    /\ (RecordingsScreen.playingId st = Some (af_id item) ->
        RecordingsScreen.playingId st' = None
        /\ RecordingsScreen.isPlaying st' = false)
    /\ RecordingsScreen.error st' = None.
Proof.
  intros Hdir Hf.
  unfold RecordingsScreen.handleDeleteRecording,
    RecordingsScreen.onDeletePressed.
  rewrite (ui_bind_returned _ _ st st a a st eq_refl).
  (* the screen's own stop of the playback, if the clip is marked *)
  assert (Hfirst : exists st1 a1,
    (if bool_decide (RecordingsScreen.playingId st = Some (af_id item))
     then
       lift Service.stopPlayback;;
       RecordingsScreen.setPlayingId None;;
       RecordingsScreen.setIsPlaying false
     else mret tt) st a = (Returned tt, st1, a1)
    /\ files (world a1) = files (world a)
    /\ directories (world a1) = directories (world a)
    /\ (RecordingsScreen.playingId st = Some (af_id item) ->
        RecordingsScreen.playingId st1 = None
        /\ RecordingsScreen.isPlaying st1 = false)).
  { destruct (bool_decide _) eqn:Hplaying.
    - destruct (service_stopPlayback_frame a)
        as (a1 & cs & E & _ & Hfiles & Hdirs & _).
      rewrite (ui_bind_returned _ _ _ _ _ _ _ (lift_returned _ st _ _ _ E)).
      eexists _, _. split; [reflexivity|]. cbn. auto.
    - exists st, a. do 3 (split; [reflexivity|]).
      intros Hid. rewrite (bool_decide_eq_true_2 _ Hid) in Hplaying.
      discriminate. }
  destruct Hfirst as (st1 & a1 & E1 & Hfiles1 & Hdirs1 & Hplay).
  rewrite (ui_bind_returned _ _ _ _ _ _ _ E1).
  rewrite <- Hfiles1 in Hf.
  rewrite (ui_bind_returned _ _ _ _ _ _ _
             (lift_returned _ st1 _ _ _ (service_delete_existing a1 _ _ Hf))).
  destruct (service_stopPlayback_frame a1)
    as (a2 & cs & E2 & _ & Hfiles2 & Hdirs2 & _).
  rewrite E2. cbn [snd].
  set (a3 := with_files (delete (af_uri item))
               (logged [GetInfo (af_uri item); Delete (af_uri item)] a2)).
  assert (Hdir3 : recordingsDirectory P ∈ directories (world a3)).
  { cbn. rewrite Hdirs2, Hdirs1. exact Hdir. }
  destruct (service_listing_rows P a3 Hdir3)
    as (l & a' & E & Hlog & Hperm & Hrows & _).
  destruct (screen_loadRecordings_frame P st1 a3) as (l' & a'' & E' & El).
  rewrite E in E'. injection E' as <- <-.
  rewrite El.
  eexists _, _. split; [reflexivity|]. cbn.
  destruct Hlog as (Hfiles' & _).
  assert (Hfiles3 : files (world a3) = delete (af_uri item) (files (world a)))
    by (cbn; rewrite Hfiles2, Hfiles1; reflexivity).
  split; [rewrite Hfiles', Hfiles3; reflexivity|].
  split; [|split; [exact Hplay | reflexivity]].
  apply Forall_forall. intros e He.
  assert (Hname : af_filename e ∈ wav_names P a3).
  { rewrite <- Hperm. apply list_elem_of_fmap. eauto. }
  apply elem_of_wav_names in Hname as (_ & Hex & _).
  rewrite Forall_forall in Hrows. destruct (Hrows e He) as (Huri & _).
  rewrite <- Huri, Hfiles3 in Hex. rewrite Hfiles', Hfiles3.
  split; [|exact Hex].
  intros Heq. rewrite Heq, lookup_delete_eq in Hex.
  destruct Hex as [? [=]].
Qed.

Lemma recordings_screen_delete_witness :
  exists st' a',
    RecordingsScreen.handleDeleteRecording Example.phone
      ScreenExample.memo_row true ScreenExample.list_playing_memo
      Example.playing_memo
    = (Returned tt, st', a')
    /\ files (world a')
       = delete (af_uri ScreenExample.memo_row)
                (files (world Example.playing_memo))
    /\ Forall (fun e => af_uri e <> af_uri ScreenExample.memo_row
                        /\ is_Some (files (world a') !! af_uri e))
              (RecordingsScreen.recordings st')
    /\ (RecordingsScreen.playingId ScreenExample.list_playing_memo
        = Some (af_id ScreenExample.memo_row) ->
        RecordingsScreen.playingId st' = None
        /\ RecordingsScreen.isPlaying st' = false)
    /\ RecordingsScreen.error st' = None.
Proof.
  apply (recordings_screen_delete Example.phone
           ScreenExample.list_playing_memo Example.playing_memo
           ScreenExample.memo_row 64000%N);
    [vm_compute; set_solver | reflexivity].
Defined.

(** X12. Deleting, from the list, a clip whose file is no longer there:
    nothing is deleted and the list is not refreshed, so that the row of
    the missing file stays; a clip that was marked as playing is no
    longer. *)
Theorem recordings_screen_delete_missing (P : Platform)
        (st : RecordingsScreen.State) (a : App) (item : AudioFile) :
  fi_exists (info_at (world a) (af_uri item)) = false ->
  exists st' a',
    RecordingsScreen.handleDeleteRecording P item true st a
    = (Returned tt, st', a')
    /\ RecordingsScreen.recordings st' = RecordingsScreen.recordings st
    /\ RecordingsScreen.error st' = RecordingsScreen.error st
    /\ (RecordingsScreen.playingId st = Some (af_id item) ->
        RecordingsScreen.playingId st' = None
        /\ RecordingsScreen.isPlaying st' = false)
    /\ (RecordingsScreen.playingId st <> Some (af_id item) -> st' = st)
    /\ files (world a') = files (world a).
Proof.
  intros Hf.
  unfold RecordingsScreen.handleDeleteRecording,
    RecordingsScreen.onDeletePressed.
  rewrite (ui_bind_returned _ _ st st a a st eq_refl).
  assert (Hfirst : exists st1 a1,
    (if bool_decide (RecordingsScreen.playingId st = Some (af_id item))
     then
       lift Service.stopPlayback;;
       RecordingsScreen.setPlayingId None;;
       RecordingsScreen.setIsPlaying false
     else mret tt) st a = (Returned tt, st1, a1)
    /\ files (world a1) = files (world a)
    /\ directories (world a1) = directories (world a)
    /\ RecordingsScreen.recordings st1 = RecordingsScreen.recordings st
    /\ RecordingsScreen.error st1 = RecordingsScreen.error st
    /\ (RecordingsScreen.playingId st = Some (af_id item) ->
        RecordingsScreen.playingId st1 = None
        /\ RecordingsScreen.isPlaying st1 = false)
    /\ (RecordingsScreen.playingId st <> Some (af_id item) -> st1 = st)).
  { destruct (bool_decide _) eqn:Hplaying.
    - destruct (service_stopPlayback_frame a)
        as (a1 & cs & E & _ & Hfiles & Hdirs & _).
      rewrite (ui_bind_returned _ _ _ _ _ _ _ (lift_returned _ st _ _ _ E)).
      eexists _, _. split; [reflexivity|]. cbn.
      do 5 (split; [auto|]). intros Hne.
      apply bool_decide_eq_true in Hplaying. contradiction.
    - exists st, a. do 5 (split; [reflexivity|]).
      split; [|reflexivity].
      intros Hid. rewrite (bool_decide_eq_true_2 _ Hid) in Hplaying.
      discriminate. }
  destruct Hfirst
    as (st1 & a1 & E1 & Hfiles1 & Hdirs1 & Hrecs & Herr & Hplay & Hsame).
  rewrite (ui_bind_returned _ _ _ _ _ _ _ E1).
  assert (Hf1 : fi_exists (info_at (world a1) (af_uri item)) = false)
    by (unfold info_at in *; rewrite Hfiles1, Hdirs1; exact Hf).
  rewrite (ui_bind_returned _ _ _ _ _ _ _
             (lift_returned _ st1 _ _ _ (service_delete_absent a1 _ Hf1))).
  destruct (service_stopPlayback_frame a1)
    as (a2 & cs & E2 & _ & Hfiles2 & _).
  rewrite E2. cbn [snd].
  eexists _, _. split; [reflexivity|]. cbn.
  do 4 (split; [assumption|]). rewrite Hfiles2. exact Hfiles1.
Qed.

Lemma recordings_screen_delete_missing_witness :
  exists st' a',
    RecordingsScreen.handleDeleteRecording Example.phone
      ScreenExample.lost_row true ScreenExample.list_playing_memo
      Example.playing_memo
    = (Returned tt, st', a')
    /\ RecordingsScreen.recordings st'
       = RecordingsScreen.recordings ScreenExample.list_playing_memo
    /\ RecordingsScreen.error st'
       = RecordingsScreen.error ScreenExample.list_playing_memo
    /\ (RecordingsScreen.playingId ScreenExample.list_playing_memo
        = Some (af_id ScreenExample.lost_row) ->
        RecordingsScreen.playingId st' = None
        /\ RecordingsScreen.isPlaying st' = false)
    /\ (RecordingsScreen.playingId ScreenExample.list_playing_memo
        <> Some (af_id ScreenExample.lost_row) ->
        st' = ScreenExample.list_playing_memo)
    /\ files (world a') = files (world Example.playing_memo).
Proof.
  apply (recordings_screen_delete_missing Example.phone
           ScreenExample.list_playing_memo Example.playing_memo
           ScreenExample.lost_row).
  reflexivity.
Defined.

(** X13. Pressing play on a clip whose file is gone while another clip
    plays: the service unloads the sound it held before it looks, and
    answers false; the screen shows no error and goes on marking the other
    clip as playing, although nothing is loaded any more. *)
Theorem recordings_screen_play_missing (P : Platform)
        (st : RecordingsScreen.State) (a : App) (item : AudioFile)
        (other : string) (x : NativeSound) :
  RecordingsScreen.playingId st = Some other ->
  other <> af_id item ->
  sv_sound (service a) = Some x ->
  snd_unload x = Returned tt ->
  fi_exists (info_at (world a) (af_uri item)) = false ->
  RecordingsScreen.handlePlayPause P item st a
  = (Returned tt,
     RecordingsScreen.mkState (RecordingsScreen.recordings st) (Some other)
       (RecordingsScreen.isPlaying st) None,
     with_service (fun sv => mkServiceState (sv_recording sv) None)
       (logged [Unload; GetInfo (af_uri item);
                Console Error "Audio file not found:"] a)).
Proof.
  intros Hid Hne Hs Hun Hf.
  unfold RecordingsScreen.handlePlayPause, Service.playRecording. ui_exec.
  rewrite Hid.
  rewrite bool_decide_eq_false_2 by congruence. ui_exec. exec.
  rewrite Hs. exec. rewrite Hun. exec.
  unfold info_at in *. cbn in *. rewrite Hf. exec. rewrite Hid.
  same_state.
Qed.

Lemma recordings_screen_play_missing_witness :
  RecordingsScreen.handlePlayPause Example.phone ScreenExample.lost_row
    ScreenExample.list_playing_memo Example.playing_memo
  = (Returned tt,
     RecordingsScreen.mkState
       [ScreenExample.memo_row; ScreenExample.lost_row]
       (Some "1700000000000") true None,
     with_service (fun sv => mkServiceState (sv_recording sv) None)
       (logged [Unload; GetInfo (af_uri ScreenExample.lost_row);
                Console Error "Audio file not found:"]
          Example.playing_memo)).
Proof.
  apply (recordings_screen_play_missing Example.phone
           ScreenExample.list_playing_memo Example.playing_memo
           ScreenExample.lost_row "1700000000000"
           (Example.tune (uri Example.memo)));
    try reflexivity; discriminate.
Defined.

(** X14. Pressing the button of the clip that plays, twice: the first
    press stops and unloads the sound (there is no pause), the second one
    creates the sound anew and plays it from the start. *)
Theorem recordings_screen_pause_restarts (P : Platform)
        (st : RecordingsScreen.State) (a : App) (item : AudioFile)
        (x y : NativeSound) (size : N) :
  RecordingsScreen.playingId st = Some (af_id item) ->
  RecordingsScreen.isPlaying st = true ->
  sv_sound (service a) = Some x ->
  snd_stop x = Returned tt -> snd_unload x = Returned tt ->
  files (world a) !! af_uri item = Some size ->
  setAudioMode P false = Returned tt ->
  createSound P (af_uri item) = Returned y ->
  snd_play y = Returned tt ->
  RecordingsScreen.handlePlayPause P item st a
  = (Returned tt,
     RecordingsScreen.mkState (RecordingsScreen.recordings st)
       (Some (af_id item)) false (RecordingsScreen.error st),
     with_service (fun sv => mkServiceState (sv_recording sv) None)
       (logged [Stop; Unload] a))
  /\ (RecordingsScreen.handlePlayPause P item;;
      RecordingsScreen.handlePlayPause P item) st a
     = (Returned tt,
        RecordingsScreen.mkState (RecordingsScreen.recordings st)
          (Some (af_id item)) true None,
        with_service (fun sv => mkServiceState (sv_recording sv) (Some y))
          (logged [Stop; Unload; GetInfo (af_uri item); SetAudioMode false;
                   CreateSound (af_uri item); Play] a)).
Proof.
  intros Hid Hplaying Hs Hstop Hun Hf Hmode Hcreate Hplay.
  assert (E : RecordingsScreen.handlePlayPause P item st a
              = (Returned tt,
                 RecordingsScreen.mkState (RecordingsScreen.recordings st)
                   (Some (af_id item)) false (RecordingsScreen.error st),
                 with_service
                   (fun sv => mkServiceState (sv_recording sv) None)
                   (logged [Stop; Unload] a))).
  { unfold RecordingsScreen.handlePlayPause, Service.stopPlayback. ui_exec.
    rewrite Hid, Hplaying, bool_decide_eq_true_2 by reflexivity. ui_exec.
    exec. rewrite Hs. exec. rewrite Hstop. exec. rewrite Hun. exec.
    rewrite Hid. same_state. }
  split; [exact E|].
  rewrite (ui_bind_returned _ _ _ _ _ _ _ E).
  unfold RecordingsScreen.handlePlayPause, Service.playRecording. ui_exec.
  rewrite andb_false_r. ui_exec. exec.
  unfold info_at. cbn. rewrite Hf. exec. rewrite Hmode. exec.
  rewrite Hcreate. exec. rewrite Hplay. exec. same_state.
Qed.

Lemma recordings_screen_pause_restarts_witness :
  RecordingsScreen.handlePlayPause Example.phone ScreenExample.memo_row
    ScreenExample.list_playing_memo Example.playing_memo
  = (Returned tt,
     RecordingsScreen.mkState
       [ScreenExample.memo_row; ScreenExample.lost_row]
       (Some "1700000000000") false None,
     with_service (fun sv => mkServiceState (sv_recording sv) None)
       (logged [Stop; Unload] Example.playing_memo))
  /\ (RecordingsScreen.handlePlayPause Example.phone ScreenExample.memo_row;;
      RecordingsScreen.handlePlayPause Example.phone ScreenExample.memo_row)
       ScreenExample.list_playing_memo Example.playing_memo
     = (Returned tt,
        RecordingsScreen.mkState
          [ScreenExample.memo_row; ScreenExample.lost_row]
          (Some "1700000000000") true None,
        with_service
          (fun sv => mkServiceState (sv_recording sv)
                       (Some (Example.tune (uri Example.memo))))
          (logged [Stop; Unload; GetInfo (uri Example.memo);
                   SetAudioMode false; CreateSound (uri Example.memo); Play]
             Example.playing_memo)).
Proof.
  apply (recordings_screen_pause_restarts Example.phone
           ScreenExample.list_playing_memo Example.playing_memo
           ScreenExample.memo_row (Example.tune (uri Example.memo))
           (Example.tune (uri Example.memo)) 64000%N);
    reflexivity.
Defined.

(** X15. Whatever happens to the list of recordings, in whatever order,
    and whatever the platform answers: its handlers never throw, the
    screen never shows an error (the service swallows every failure), and
    whenever something is shown as playing a clip is marked. *)
Theorem recordings_screen_never_shows_error (P : Platform)
        (events : list RecordingsScreen.Event) (a : App) :
  exists st' a',
    RecordingsScreen.handle_all P events RecordingsScreen.initial a
    = (Returned tt, st', a')
    /\ RecordingsScreen.error st' = None
    /\ (RecordingsScreen.isPlaying st' = true ->
        is_Some (RecordingsScreen.playingId st')).
Proof.
  assert (G : forall st a0, RecordingsScreen.consistent st ->
            exists st' a',
              RecordingsScreen.handle_all P events st a0
              = (Returned tt, st', a') /\ RecordingsScreen.consistent st').
  { induction events as [|e events IH]; intros st a0 Hst.
    - exists st, a0. split; [reflexivity | exact Hst].
    - cbn [RecordingsScreen.handle_all].
      destruct (recordings_screen_step P e st a0 Hst)
        as (st1 & a1 & E & Hst1).
      rewrite (ui_bind_returned _ _ _ _ _ _ _ E). apply IH, Hst1. }
  destruct (G RecordingsScreen.initial a) as (st' & a' & E & Herr & Hmark).
  { split; [reflexivity | discriminate]. }
  exists st', a'. auto.
Qed.

(** X16. From the record screen to the list. When the capture is there,
    the platform stops it and the copy lands, the press that stops the
    recording saves the clip under [recording_] and the reading of the
    clock, and the list, on gaining the focus, shows a row for it: its id
    and its date are that reading, its duration is 0 whatever the platform
    has measured. *)
Theorem recorded_clip_is_listed (P : Platform) (st : RecordScreen.State)
        (list : RecordingsScreen.State) (a : App) (r : NativeRecording)
        (u : string) (size : N) (status : option Z) :
  RecordScreen.isRecording st = true ->
  sv_recording (service a) = Some r ->
  rec_stopAndUnload r = Returned tt ->
  rec_getStatus r = Returned status ->
  rec_getURI r = Some u -> truthy u = true ->
  files (world a) !! u = Some size -> size <> 0%N ->
  copy_lands P = true ->
  recordingsDirectory P ∈ directories (world a) ->
  0 <= clock P (clock_reads (world a)) <= 8640000000000000 ->
  exists st' a' list' a'',
    RecordScreen.handleRecordPress P st a = (Returned tt, st', a')
    /\ RecordScreen.isRecording st' = false
    /\ sv_recording (service a') = None
    /\ RecordingsScreen.focusEffect P list a' = (Returned tt, list', a'')
    /\ mkAudioFile
         (Number_toString (clock P (clock_reads (world a))))
         (recordingsDirectory P
          +:+ ("recording_"
               +:+ Number_toString (clock P (clock_reads (world a)))
               +:+ ".wav"))
         ("recording_"
          +:+ Number_toString (clock P (clock_reads (world a)))
          +:+ ".wav")
         (of_Z 0)
         (DateAt (clock P (clock_reads (world a))))
       ∈ RecordingsScreen.recordings list'.
Proof.
  intros Hrec Hr Hstop Hst Hu Ht Hf Hsize Hcopy Hdir Hclock.
  destruct (service_stop_success P a r u size status
              Hr Hstop Hst Hu Ht Hf Hsize Hcopy)
    as (a1 & E1 & Hfiles1 & Hdirs1 & Hrec1 & _).
  set (t := clock P (clock_reads (world a))) in *.
  set (name := "recording_" +:+ Number_toString t +:+ ".wav") in *.
  (* the press *)
  assert (Epress : exists a',
             RecordScreen.handleRecordPress P st a
             = (Returned tt,
                RecordScreen.mkState false (RecordScreen.permissionGranted st),
                a')
             /\ same_but_log a1 a').
  { unfold RecordScreen.handleRecordPress.
    rewrite (ui_bind_returned _ _ st st a a st eq_refl), Hrec.
    rewrite (ui_bind_returned _ _ st _ a a tt eq_refl).
    rewrite (ui_bind_returned _ _ _ _ _ _ _ (lift_returned _ _ _ _ _ E1)).
    eexists. split; [reflexivity|]. apply same_but_log_logged. }
  destruct Epress as (a' & Epress & Hlog).
  destruct Hlog as (Hfiles' & Hdirs' & _ & _ & Hsv').
  assert (Hdir' : recordingsDirectory P ∈ directories (world a'))
    by (rewrite Hdirs', Hdirs1; exact Hdir).
  (* the list *)
  unfold RecordingsScreen.focusEffect.
  set (a2 := logged [Console Log "Loading recordings on focus"] a').
  destruct (service_listing_rows P a2 Hdir')
    as (l & a'' & E & _ & Hperm & Hrows & _).
  destruct (screen_loadRecordings_frame P list a2) as (l' & a3 & E' & El).
  rewrite E in E'. injection E' as <- <-.
  eexists _, a', _, a''. split; [exact Epress|].
  split; [reflexivity|]. split; [rewrite Hsv'; exact Hrec1|].
  split.
  { rewrite (ui_bind_returned _ _ list list a' a2 tt eq_refl). exact El. }
  cbn [RecordingsScreen.recordings].
  assert (Hname : name ∈ wav_names P a2).
  { apply service_name_listed; [apply Hclock|].
    change (files (world a2)) with (files (world a')).
    rewrite Hfiles', Hfiles1, lookup_insert_eq. eauto. }
  rewrite <- Hperm in Hname.
  apply list_elem_of_fmap in Hname as (e & Hename & He).
  rewrite Forall_forall in Hrows.
  destruct (Hrows e He) as (Huri & now & Hdec).
  rewrite <- Hename in Huri, Hdec. subst name.
  rewrite service_decode_saved in Hdec by exact Hclock.
  rewrite Huri in Hdec. rewrite <- Hdec. exact He.
Qed.

Lemma recorded_clip_is_listed_witness :
  exists st' a' list' a'',
    RecordScreen.handleRecordPress Example.phone
      (RecordScreen.mkState true true) (Example.recording_now 64000)
    = (Returned tt, st', a')
    /\ RecordScreen.isRecording st' = false
    /\ sv_recording (service a') = None
    /\ RecordingsScreen.focusEffect Example.phone RecordingsScreen.initial a'
       = (Returned tt, list', a'')
    /\ mkAudioFile "1700000000000"
         "doc/recordings/recording_1700000000000.wav"
         "recording_1700000000000.wav" (of_Z 0) (DateAt 1700000000000)
       ∈ RecordingsScreen.recordings list'.
Proof.
  apply (recorded_clip_is_listed Example.phone
           (RecordScreen.mkState true true) RecordingsScreen.initial
           (Example.recording_now 64000) Example.capture
           "cache/capture.wav" 64000%N (Some 1500));
    try reflexivity; try discriminate; try (vm_compute; set_solver).
Defined.

(** ** The hooks, end to end *)

Section HookSession.
Variable P : Platform.

(** A start of the hook that goes through. *)
Lemma hook_start_success (a : App) (r : NativeRecording) :
  match permissionResponse (recorder a) with
  | Some response => granted response = true
  | None => True
  end ->
  setAudioMode P true = Returned tt ->
  createRecording P = Returned r ->
  Recorder.startRecording P a
  = (Returned tt,
     with_recorder
       (fun s => mkRecorderState (Some r) (recordings s) true
                   (permissionResponse s) (recordingDuration s)
                   (Some (clock P (clock_reads (world a)))))
       (clock_read 1
          (logged [SetAudioMode true; Console Log "Starting recording...";
                   CreateRecording] a))).
Proof.
  intros Hperm Hmode Hcreate. unfold Recorder.startRecording. exec.
  assert (Hgo : match permissionResponse (recorder a) with
                | Some response => negb (granted response)
                | None => false
                end = false).
  { destruct (permissionResponse (recorder a)) as [response|];
      [rewrite Hperm|]; reflexivity. }
  rewrite Hgo. exec. rewrite Hmode. exec. rewrite Hcreate. exec.
  same_state.
Qed.

(** A stop of the hook that goes through, with what it leaves in the
    snapshot: the refresh it runs sees the copy. *)
Lemma hook_stop_refreshes (a : App) (r : NativeRecording) (u : string)
      (size : N) :
  recording (recorder a) = Some r ->
  rec_stopAndUnload r = Returned tt ->
  rec_getURI r = Some u -> truthy u = true ->
  files (world a) !! u = Some size -> size <> 0%N ->
  copy_lands P = true ->
  recordingsDirectory P ∈ directories (world a) ->
  exists a' s,
    Recorder.stopRecording P a = (Returned tt, a')
    /\ files (world s)
       = <[recordingsDirectory P
           +:+ Codec.encode
                 (Number_toString (clock P (clock_reads (world a))))
                 (clock P (S (clock_reads (world a))))
                 (inject_Z (recordingDuration (recorder a))) := size]>
           (files (world a))
    /\ recordingsDirectory P ∈ directories (world s)
    /\ recordings (recorder a')
       = recordings (recorder (Recorder.loadRecordings P s).2).
Proof.
  intros Hr Hstop Hu Ht Hf Hsize Hcopy Hdir. unfold Recorder.stopRecording.
  exec. rewrite Hr. exec. rewrite Hstop. exec. rewrite Hu, Ht. exec.
  unfold info_at at 1. cbn. rewrite Hf. unfold missing_or_empty. cbn.
  destruct (N.eqb_spec size 0); [contradiction|]. exec.
  destruct (fi_exists (info_at _ (recordingsDirectory P))); exec;
    rewrite Hf, Hcopy; exec;
    unfold info_at at 1; cbn; rewrite lookup_insert_eq; exec;
    match goal with
    | |- context [Recorder.loadRecordings P ?s] =>
        destruct (hook_loadRecordings_frame P s) as (a1 & E & _);
        eexists _, s; rewrite E
    end; exec; (split; [reflexivity|]); cbn;
    (split; [reflexivity|]); (split; [set_solver | reflexivity]).
Qed.

End HookSession.

Section HookMount.
Variable P : Platform.

(** A refresh leaves the answer about the microphone as it is. *)
Lemma hook_loadRecordings_permission (a : App) :
  exists a',
    Recorder.loadRecordings P a = (Returned tt, a')
    /\ permissionResponse (recorder a') = permissionResponse (recorder a)
    /\ recording (recorder a') = recording (recorder a)
    /\ isRecording (recorder a') = isRecording (recorder a).
Proof.
  unfold Recorder.loadRecordings, try_catch.
  rewrite (run_bind _ _ _ _ _ (run_getInfoAsync _ _)).
  destruct (fi_exists (info_at (world a) (recordingsDirectory P))) eqn:Hex;
    cbn [negb].
  2:{ eexists. split; [reflexivity|]. repeat split. }
  unfold readDirectoryAsync. exec.
  destruct (bool_decide _) eqn:Hdir; exec.
  2:{ eexists. split; [reflexivity|]. repeat split. }
  match goal with
  | |- context [mapM_async ?f ?l ?st] =>
      assert (Hinfo : forall x s, exists y s',
                 f x s = (Returned y, s') /\ same_but_log s s' /\ True);
      [|destruct (mapM_async_same_but_log f (fun _ _ => True) l Hinfo st)
          as (infos & s1 & E1 & H1 & _)]
  end.
  { intros x s. eexists _, _. split; [reflexivity|].
    split; [|exact I]. repeat split. }
  rewrite E1.
  match goal with
  | |- context [mapM_async ?f ?l s1] =>
      assert (Hrec : forall x s, exists y s',
                 f x s = (Returned y, s') /\ same_but_log s s' /\ True);
      [|destruct (mapM_async_same_but_log f (fun _ _ => True) l Hrec s1)
          as (recs & s2 & E2 & H2 & _)]
  end.
  { intros [name info] s.
    destruct (hook_toRecording P name info s) as (now & s' & E & Hs).
    eexists _, s'. split; [|split; [exact Hs | exact I]].
    rewrite <- E. unfold Recorder.toRecording. exec. reflexivity. }
  rewrite E2. exec.
  destruct H1 as (_ & _ & Hr1 & _).
  destruct H2 as (_ & _ & Hr2 & _).
  cbn in *.
  eexists. split; [reflexivity|]. cbn.
  rewrite Hr2, Hr1. repeat split.
Qed.

End HookMount.

(** X17. The hook, from the stop of a recording to its registry. When
    the capture is there, the platform stops it and the copy lands, the
    registry left by the stop holds an entry for the clip: its id is the
    first of the two readings of the clock in the name, its date the
    second one, and its duration is NaN, whatever the timer had shown. *)
Theorem hook_saved_clip_registered (P : Platform) (a : App)
        (r : NativeRecording) (u : string) (size : N) :
  recording (recorder a) = Some r ->
  rec_stopAndUnload r = Returned tt ->
  rec_getURI r = Some u -> truthy u = true ->
  files (world a) !! u = Some size -> size <> 0%N ->
  copy_lands P = true ->
  recordingsDirectory P ∈ directories (world a) ->
  0 <= clock P (clock_reads (world a)) ->
  0 <= clock P (S (clock_reads (world a))) <= 8640000000000000 ->
  0 <= recordingDuration (recorder a) ->
  exists a',
    Recorder.stopRecording P a = (Returned tt, a')
    /\ mkRecording
         (Number_toString (clock P (clock_reads (world a))))
         (recordingsDirectory P
          +:+ Codec.encode
                (Number_toString (clock P (clock_reads (world a))))
                (clock P (S (clock_reads (world a))))
                (inject_Z (recordingDuration (recorder a))))
         (Codec.encode
            (Number_toString (clock P (clock_reads (world a))))
            (clock P (S (clock_reads (world a))))
            (inject_Z (recordingDuration (recorder a))))
         NaN
         (DateAt (clock P (S (clock_reads (world a)))))
       ∈ recordings (recorder a').
Proof.
  intros Hr Hstop Hu Ht Hf Hsize Hcopy Hdir Hid Hclock Hdur.
  destruct (hook_stop_refreshes P a r u size Hr Hstop Hu Ht Hf Hsize Hcopy
              Hdir) as (a' & s & E & Hfiles & Hdirs & Hrecs).
  exists a'. split; [exact E|]. rewrite Hrecs.
  destruct (hook_loadRecordings_listing P s Hdirs) as (recs & -> & HR).
  rewrite (sort_Permutation createdAt recs).
  set (id0 := Number_toString (clock P (clock_reads (world a)))) in *.
  set (t := clock P (S (clock_reads (world a)))) in *.
  set (d := inject_Z (recordingDuration (recorder a))) in *.
  assert (Hd : Qle 0 d).
  { unfold d, Qle, inject_Z. cbn. lia. }
  destruct (Number_toString_digits _ Hid) as (c & s0 & Eid & Hdig & _).
  fold id0 in Eid.
  assert (Hname : Codec.encode id0 t d ∈ wav_names P s).
  { apply encoded_name_listed; [|lia|exact Hd|].
    - rewrite Eid. apply (all_chars_contains is_digit);
        [reflexivity | exact Hdig].
    - rewrite Hfiles, lookup_insert_eq. eauto. }
  destruct (Forall2_elem_of_l _ _ _ _ HR Hname) as (e & He & now & ->).
  rewrite decode_encode in He; [| |lia|exact Hd].
  - unfold Codec.recordingOf in He.
    cbn [Codec.d_id Codec.d_timestamp Codec.d_duration] in He.
    rewrite new_Date_of_Z in He by lia. exact He.
  - rewrite Eid. apply (all_chars_contains is_digit);
      [reflexivity | exact Hdig].
Qed.

Lemma hook_saved_clip_registered_witness :
  exists a',
    Recorder.stopRecording Example.phone (Example.recording_now 64000)
    = (Returned tt, a')
    /\ mkRecording "1700000000000"
         "doc/recordings/1700000000000_1700000000001_1500.wav"
         "1700000000000_1700000000001_1500.wav" NaN (DateAt 1700000000001)
       ∈ recordings (recorder a').
Proof.
  apply (hook_saved_clip_registered Example.phone
           (Example.recording_now 64000) Example.capture
           "cache/capture.wav" 64000%N);
    try reflexivity; try discriminate; try (vm_compute; set_solver);
    vm_compute; intuition discriminate.
Defined.

(** X18. A whole session of the hook: start, one tick of the timer, stop.
    When the platform plays along (and the clock does not read 0 at the
    start, which the timer takes for no start), the clip is saved under a
    name made of the two readings of the clock taken by the stop and of
    the time between the start and the tick: what elapses after the last
    tick is not counted. *)
Theorem hook_session (P : Platform) (a : App) (r : NativeRecording)
        (u : string) (size : N) :
  match permissionResponse (recorder a) with
  | Some response => granted response = true
  | None => True
  end ->
  setAudioMode P true = Returned tt ->
  createRecording P = Returned r ->
  rec_stopAndUnload r = Returned tt ->
  rec_getURI r = Some u -> truthy u = true ->
  files (world a) !! u = Some size -> size <> 0%N ->
  copy_lands P = true ->
  clock P (clock_reads (world a)) <> 0 ->
  exists a',
    (Recorder.startRecording P;; Recorder.tick P;; Recorder.stopRecording P) a
    = (Returned tt, a')
    /\ files (world a')
       = <[recordingsDirectory P
           +:+ Codec.encode
                 (Number_toString (clock P (2 + clock_reads (world a))))
                 (clock P (3 + clock_reads (world a)))
                 (inject_Z (clock P (1 + clock_reads (world a))
                            - clock P (clock_reads (world a)))) := size]>
           (files (world a))
    /\ recording (recorder a') = None
    /\ isRecording (recorder a') = false.
Proof.
  intros Hperm Hmode Hcreate Hstop Hu Ht Hf Hsize Hcopy Hclock.
  rewrite (run_bind _ _ _ _ _ (hook_start_success P a r Hperm Hmode Hcreate)).
  match goal with
  | |- context [(Recorder.tick P ≫= _) ?s1] =>
      rewrite (run_bind _ _ _ _ _
                 (hook_tick P s1 (clock P (clock_reads (world a)))
                    eq_refl eq_refl Hclock))
  end.
  match goal with
  | |- context [Recorder.stopRecording P ?s2] =>
      destruct (hook_stop_success P s2 r u size eq_refl Hstop Hu Ht Hf Hsize
                  Hcopy) as (a' & E & Hfiles & Hrec & Hisrec)
  end.
  exists a'. split; [exact E|]. split; [exact Hfiles|]. auto.
Qed.

Lemma hook_session_witness :
  exists a',
    (Recorder.startRecording Example.phone;; Recorder.tick Example.phone;;
     Recorder.stopRecording Example.phone) ScreenExample.first_launch
    = (Returned tt, a')
    /\ files (world a')
       = <["doc/recordings/1700000000002_1700000000003_1.wav" := 64000%N]>
           (files (world ScreenExample.first_launch))
    /\ recording (recorder a') = None
    /\ isRecording (recorder a') = false.
Proof.
  apply (hook_session Example.phone ScreenExample.first_launch
           Example.capture "cache/capture.wav" 64000%N);
    try reflexivity; try discriminate; exact I.
Defined.

(** X19. When the native stop of the capture fails, the hook gives up the
    session, dropping its handle, whereas the service keeps its handle;
    neither touches a file. *)
Theorem stop_rejected (P : Platform) (a : App) (r : NativeRecording)
        (e : string) :
  rec_stopAndUnload r = Thrown e ->
  recording (recorder a) = Some r ->
  sv_recording (service a) = Some r ->
  Recorder.stopRecording P a
  = (Returned tt,
     with_recorder
       (fun s => mkRecorderState None (recordings s) false
                   (permissionResponse s) (recordingDuration s) None)
       (logged [Console Log "Stopping recording..."; StopAndUnload;
                Console Error "Failed to stop recording:"] a))
  /\ Service.stopRecording P a
     = (Returned None,
        logged [StopAndUnload; Console Error "Failed to stop recording:"] a).
Proof.
  intros Hstop Hr Hs. split.
  - unfold Recorder.stopRecording. exec. rewrite Hr. exec. rewrite Hstop.
    exec. same_state.
  - unfold Service.stopRecording. exec. rewrite Hs. exec. rewrite Hstop.
    exec. same_state.
Qed.

Lemma stop_rejected_witness :
  Recorder.stopRecording Example.phone ScreenExample.recording_stuck
  = (Returned tt,
     with_recorder
       (fun s => mkRecorderState None (recordings s) false
                   (permissionResponse s) (recordingDuration s) None)
       (logged [Console Log "Stopping recording..."; StopAndUnload;
                Console Error "Failed to stop recording:"]
          ScreenExample.recording_stuck))
  /\ Service.stopRecording Example.phone ScreenExample.recording_stuck
     = (Returned None,
        logged [StopAndUnload; Console Error "Failed to stop recording:"]
          ScreenExample.recording_stuck).
Proof.
  apply (stop_rejected Example.phone ScreenExample.recording_stuck
           ScreenExample.stuck "Recorder does not exist."); reflexivity.
Defined.

(** X20. The hook on a phone whose user refuses the microphone: the mount
    effect stores the refusal (and configures the audio session for
    recording all the same), and a start after it only logs that there is
    no permission: no recording is created. *)
Theorem hook_mount_then_start_refused (P : Platform)
        (response : PermissionResponse) (a : App) :
  requestPermissions P = Returned response ->
  granted response = false ->
  setAudioMode P true = Returned tt ->
  exists a1,
    Recorder.mountEffect P a = (Returned tt, a1)
    /\ permissionResponse (recorder a1) = Some response
    /\ recording (recorder a1) = recording (recorder a)
    /\ isRecording (recorder a1) = isRecording (recorder a)
    /\ (Recorder.mountEffect P;; Recorder.startRecording P) a
       = (Returned tt, logged [Console Log "No recording permission"] a1).
Proof.
  intros Hreq Hg Hmode.
  assert (E : exists a1,
             Recorder.mountEffect P a = (Returned tt, a1)
             /\ permissionResponse (recorder a1) = Some response
             /\ recording (recorder a1) = recording (recorder a)
             /\ isRecording (recorder a1) = isRecording (recorder a)).
  { unfold Recorder.mountEffect. exec. rewrite Hreq. exec. rewrite Hmode.
    exec.
    match goal with
    | |- context [Recorder.loadRecordings P ?s] =>
        destruct (hook_loadRecordings_permission P s)
          as (a1 & E & Hperm & Hrec & Hisrec)
    end.
    exists a1. split; [exact E|]. auto. }
  destruct E as (a1 & E & Hperm & Hrec & Hisrec).
  exists a1. split; [exact E|]. do 3 (split; [assumption|]).
  rewrite (run_bind _ _ _ _ _ E).
  apply (hook_start_denied P a1 response Hperm Hg).
Qed.

Lemma hook_mount_then_start_refused_witness :
  exists a1,
    Recorder.mountEffect Example.refusing Example.launched = (Returned tt, a1)
    /\ permissionResponse (recorder a1) = Some (mkPermissionResponse false)
    /\ recording (recorder a1) = recording (recorder Example.launched)
    /\ isRecording (recorder a1) = isRecording (recorder Example.launched)
    /\ (Recorder.mountEffect Example.refusing;;
        Recorder.startRecording Example.refusing) Example.launched
       = (Returned tt, logged [Console Log "No recording permission"] a1).
Proof.
  apply (hook_mount_then_start_refused Example.refusing
           (mkPermissionResponse false) Example.launched); reflexivity.
Defined.

(** X21. The hook's player, when the platform fails to load the clip (its
    file being there and not empty): the failure is shown as an error,
    nothing is marked as playing, and the sound held before, which has
    been unloaded, stays in the hook's cell. *)
Theorem hook_play_load_failure (P : Platform) (a : App) (clip : Recording)
        (size : N) (message : string) (x : NativeSound) :
  files (world a) !! uri clip = Some size -> size <> 0%N ->
  setAudioMode P false = Returned tt ->
  sound (player a) = Some x -> snd_unload x = Returned tt ->
  createSound P (uri clip) = Thrown message ->
  Player.playSound P clip a
  = (Returned tt,
     with_player
       (fun p => mkPlayerState (Some x) None false (position p)
                   (pl_duration p)
                   (Some ("Playback error: " +:+ message)))
       (logged [GetInfo (uri clip);
                Console Log
                  ("Playing file: " +:+ uri clip +:+ ", Size: "
                   +:+ Number_toString (Z.of_N size) +:+ " bytes");
                SetAudioMode false; Unload;
                Console Log "Creating sound object...";
                CreateSound (uri clip);
                Console Error "Error playing sound:"] a)).
Proof.
  intros Hf Hsize Hmode Hs Hun Hcreate.
  unfold Player.playSound, Player.checkFile, Player.configureAudioSession.
  exec. unfold info_at. cbn. rewrite Hf. unfold missing_or_empty. cbn.
  destruct (N.eqb_spec size 0); [contradiction|]. exec.
  rewrite Hmode. exec. rewrite Hs. exec. rewrite Hun. exec.
  rewrite Hcreate. exec. rewrite ?Hs. same_state.
Qed.

Lemma hook_play_load_failure_witness :
  Player.playSound ScreenExample.mute Example.memo Example.playing_memo
  = (Returned tt,
     with_player
       (fun p => mkPlayerState (Some (Example.tune (uri Example.memo))) None
                   false (position p) (pl_duration p)
                   (Some "Playback error: Player does not exist."))
       (logged [GetInfo (uri Example.memo);
                Console Log
                  ("Playing file: " +:+ uri Example.memo
                   +:+ ", Size: 64000 bytes");
                SetAudioMode false; Unload;
                Console Log "Creating sound object...";
                CreateSound (uri Example.memo);
                Console Error "Error playing sound:"]
          Example.playing_memo)).
Proof.
  apply (hook_play_load_failure ScreenExample.mute Example.playing_memo
           Example.memo 64000%N "Player does not exist."
           (Example.tune (uri Example.memo)));
    try reflexivity; discriminate.
Defined.

(** X22. The hook's player pauses and resumes the sound it holds: after a
    pause and a resume the clip is marked as playing as before, the sound
    is the same one and nothing has been loaded anew. *)
Theorem hook_pause_resume (a : App) (x : NativeSound) :
  sound (player a) = Some x ->
  snd_pause x = Returned tt -> snd_play x = Returned tt ->
  Player.pauseSound a
  = (Returned tt,
     with_player
       (fun p => mkPlayerState (sound p) (playingId p) false (position p)
                   (pl_duration p) (error p))
       (logged [Pause] a))
  /\ (Player.pauseSound;; Player.resumeSound) a
     = (Returned tt,
        with_player
          (fun p => mkPlayerState (sound p) (playingId p) true (position p)
                      (pl_duration p) (error p))
          (logged [Pause; Play] a)).
Proof.
  intros Hs Hpause Hplay.
  assert (E : Player.pauseSound a
              = (Returned tt,
                 with_player
                   (fun p => mkPlayerState (sound p) (playingId p) false
                               (position p) (pl_duration p) (error p))
                   (logged [Pause] a))).
  { unfold Player.pauseSound. exec. rewrite Hs. exec. rewrite Hpause. exec.
    same_state. }
  split; [exact E|].
  rewrite (run_bind _ _ _ _ _ E).
  unfold Player.resumeSound. exec. rewrite Hs. exec. rewrite Hplay. exec.
  same_state.
Qed.

Lemma hook_pause_resume_witness :
  Player.pauseSound Example.playing_memo
  = (Returned tt,
     with_player
       (fun p => mkPlayerState (sound p) (playingId p) false (position p)
                   (pl_duration p) (error p))
       (logged [Pause] Example.playing_memo))
  /\ (Player.pauseSound;; Player.resumeSound) Example.playing_memo
     = (Returned tt,
        with_player
          (fun p => mkPlayerState (sound p) (playingId p) true (position p)
                      (pl_duration p) (error p))
          (logged [Pause; Play] Example.playing_memo)).
Proof.
  apply (hook_pause_resume Example.playing_memo
           (Example.tune (uri Example.memo))); reflexivity.
Defined.

(** X23. The hook deletes by id: the first registered clip of that id
    loses its file, and every clip of that id leaves the registry, the
    others keeping their files. *)
Theorem hook_delete_by_id (a : App) (id0 : string) (clip : Recording)
        (size : N) :
  List.find (fun x => String.eqb (id x) id0) (recordings (recorder a))
  = Some clip ->
  files (world a) !! uri clip = Some size ->
  exists a',
    Recorder.deleteRecording id0 a = (Returned tt, a')
    /\ files (world a') = delete (uri clip) (files (world a))
    /\ forall r,
         r ∈ recordings (recorder a) -> id r = id0 ->
         (r ∉ recordings (recorder a'))
         /\ (uri r <> uri clip ->
             files (world a') !! uri r = files (world a) !! uri r).
Proof.
  intros Hfind Hf. rewrite (hook_delete_existing a id0 clip size Hfind Hf).
  eexists. split; [reflexivity|]. cbn. split; [reflexivity|].
  intros r _ Hid. split.
  - intros Hin. apply list_elem_of_In, filter_In in Hin as (_ & Hne).
    rewrite Hid, String.eqb_refl in Hne. discriminate.
  - intros Hne. apply lookup_delete_ne. congruence.
Qed.

Lemma hook_delete_by_id_witness :
  exists a',
    Recorder.deleteRecording "recording" ScreenExample.two_service_clips
    = (Returned tt, a')
    /\ files (world a')
       = delete (uri ScreenExample.second_clip)
                (files (world ScreenExample.two_service_clips))
    /\ forall r,
         r ∈ recordings (recorder ScreenExample.two_service_clips) ->
         id r = "recording" ->
         (r ∉ recordings (recorder a'))
         /\ (uri r <> uri ScreenExample.second_clip ->
             files (world a') !! uri r
             = files (world ScreenExample.two_service_clips) !! uri r).
Proof.
  apply (hook_delete_by_id ScreenExample.two_service_clips "recording"
           ScreenExample.second_clip 64000%N); reflexivity.
Defined.

(** X24. The hook's player on a clip whose file is there and not empty,
    while it holds another sound, whatever the platform answers about the
    audio mode: the sound held is unloaded before the new one is created,
    and afterwards the hook holds the new sound, marks the clip as playing
    and shows no error. *)
Theorem hook_play_displaces (P : Platform) (a : App) (clip : Recording)
        (size : N) (x y : NativeSound) :
  files (world a) !! uri clip = Some size -> size <> 0%N ->
  sound (player a) = Some x -> snd_unload x = Returned tt ->
  createSound P (uri clip) = Returned y ->
  exists a' before,
    Player.playSound P clip a = (Returned tt, a')
    /\ player a'
       = mkPlayerState (Some y) (Some (id clip)) true (position (player a))
           (pl_duration (player a)) None
    /\ calls_between a a'
         (before ++ [Unload; Console Log "Creating sound object...";
                     CreateSound (uri clip); Console Log "Playback started"])
    /\ forallb (fun c => negb (is_load_call c)) before = true.
Proof.
  intros Hf Hsize Hs Hun Hcreate.
  unfold Player.playSound, Player.checkFile, Player.configureAudioSession,
    calls_between.
  exec. unfold info_at. cbn. rewrite Hf. unfold missing_or_empty. cbn.
  destruct (N.eqb_spec size 0); [contradiction|]. exec.
  destruct (setAudioMode P false) as [[]|e]; exec; rewrite Hs; exec;
    rewrite Hun; exec; rewrite Hcreate; exec.
  - exists
      (with_player
         (fun p => mkPlayerState (Some y) (Some (id clip)) true (position p)
                     (pl_duration p) None)
         (logged [GetInfo (uri clip);
                  Console Log
                    ("Playing file: " +:+ uri clip +:+ ", Size: "
                     +:+ Number_toString (Z.of_N size) +:+ " bytes");
                  SetAudioMode false; Unload;
                  Console Log "Creating sound object...";
                  CreateSound (uri clip); Console Log "Playback started"] a)),
      [GetInfo (uri clip);
       Console Log
         ("Playing file: " +:+ uri clip +:+ ", Size: "
          +:+ Number_toString (Z.of_N size) +:+ " bytes");
       SetAudioMode false].
    split; [same_state|]. repeat split.
  - exists
      (with_player
         (fun p => mkPlayerState (Some y) (Some (id clip)) true (position p)
                     (pl_duration p) None)
         (logged [GetInfo (uri clip);
                  Console Log
                    ("Playing file: " +:+ uri clip +:+ ", Size: "
                     +:+ Number_toString (Z.of_N size) +:+ " bytes");
                  SetAudioMode false;
                  Console Error "Failed to configure audio mode:"; Unload;
                  Console Log "Creating sound object...";
                  CreateSound (uri clip); Console Log "Playback started"] a)),
      [GetInfo (uri clip);
       Console Log
         ("Playing file: " +:+ uri clip +:+ ", Size: "
          +:+ Number_toString (Z.of_N size) +:+ " bytes");
       SetAudioMode false; Console Error "Failed to configure audio mode:"].
    split; [same_state|]. repeat split.
Qed.

Lemma hook_play_displaces_witness :
  exists a' before,
    Player.playSound Example.phone Example.memo Example.playing_memo
    = (Returned tt, a')
    /\ player a'
       = mkPlayerState (Some (Example.tune (uri Example.memo)))
           (Some (id Example.memo)) true
           (position (player Example.playing_memo))
           (pl_duration (player Example.playing_memo)) None
    /\ calls_between Example.playing_memo a'
         (before ++ [Unload; Console Log "Creating sound object...";
                     CreateSound (uri Example.memo);
                     Console Log "Playback started"])
    /\ forallb (fun c => negb (is_load_call c)) before = true.
Proof.
  apply (hook_play_displaces Example.phone Example.playing_memo Example.memo
           64000%N (Example.tune (uri Example.memo))
           (Example.tune (uri Example.memo)));
    try reflexivity; discriminate.
Defined.

(** ** The order of the lists, on the names the program writes *)

(** X25. A refresh of the hook on a directory that holds only clips named
    by the recorder (an id, a timestamp that is a date, a duration): the
    snapshot has an entry for every file, is most recent first, and entries
    of one date keep the order of the listing. *)
Theorem hook_refresh_own_names (P : Platform) (a : App) :
  recordingsDirectory P ∈ directories (world a) ->
  Forall (fun name =>
            exists id0 t d,
              name = Codec.encode id0 t d
              /\ contains "_" id0 = false
              /\ 0 <= t <= 8640000000000000 /\ Qle 0 d)
         (wav_names P a) ->
  let snapshot := recordings (recorder (Recorder.loadRecordings P a).2) in
  Permutation (map fileName snapshot) (wav_names P a)
  /\ most_recent_first createdAt snapshot
  /\ exists recs,
       map fileName recs = wav_names P a
       /\ forall d, created_at createdAt d snapshot
                    = created_at createdAt d recs.
Proof.
  intros Hdir Hnames snapshot.
  split; [apply hook_refresh_keeps_every_file, Hdir|].
  destruct (hook_loadRecordings_listing P a Hdir) as (recs & E & HR).
  assert (Hvalid : Forall (valid_date createdAt) recs).
  { apply Forall_forall. intros r Hr.
    destruct (Forall2_elem_of_r _ _ _ _ HR Hr) as (name & Hname & now & ->).
    rewrite Forall_forall in Hnames.
    destruct (Hnames name Hname) as (id0 & t & d & -> & Hid & Ht & Hd).
    rewrite decode_encode by (try assumption; lia).
    unfold valid_date, Codec.recordingOf.
    cbn [createdAt Codec.d_timestamp].
    rewrite new_Date_of_Z by lia. discriminate. }
  subst snapshot. rewrite E. split; [apply sort_sorted, Hvalid|].
  exists recs. split; [|intros d; apply sort_stable, Hvalid].
  clear E Hvalid. induction HR as [|name r names recs (now & ->) HR IH];
    [reflexivity|].
  cbn [map]. rewrite IH; [reflexivity|].
  inversion Hnames; assumption.
Qed.

Lemma hook_refresh_own_names_witness :
  Permutation
    (map fileName
       (recordings (recorder (Recorder.loadRecordings Example.phone
                                Example.two_clips).2)))
    (wav_names Example.phone Example.two_clips)
  /\ most_recent_first createdAt
       (recordings (recorder (Recorder.loadRecordings Example.phone
                                Example.two_clips).2))
  /\ exists recs,
       map fileName recs = wav_names Example.phone Example.two_clips
       /\ forall d,
            created_at createdAt d
              (recordings (recorder (Recorder.loadRecordings Example.phone
                                       Example.two_clips).2))
            = created_at createdAt d recs.
Proof.
  apply (hook_refresh_own_names Example.phone Example.two_clips).
  - vm_compute. set_solver.
  - assert (E : wav_names Example.phone Example.two_clips
                = [Codec.encode "1700000001000" 1700000001000
                     (inject_Z 1500);
                   Codec.encode "1700000006000" 1700000006000
                     (inject_Z 1500)])
      by (vm_compute; reflexivity).
    rewrite E. repeat constructor.
    + exists "1700000001000", 1700000001000, (inject_Z 1500).
      repeat split; try reflexivity; try lia; discriminate.
    + exists "1700000006000", 1700000006000, (inject_Z 1500).
      repeat split; try reflexivity; try lia; discriminate.
Defined.

(** X26. The listing of the service on a directory that holds only clips
    named by the service ([recording_] and a timestamp that is a date):
    the list has a row for every file, is most recent first, and rows of
    one date keep the order of the listing. *)
Theorem service_listing_own_names (P : Platform) (a : App) :
  recordingsDirectory P ∈ directories (world a) ->
  Forall (fun name =>
            exists t,
              name = "recording_" +:+ Number_toString t +:+ ".wav"
              /\ 0 <= t <= 8640000000000000)
         (wav_names P a) ->
  exists l a' recs,
    Service.getRecordings P a = (Returned l, a')
    /\ Permutation (map af_filename l) (wav_names P a)
    /\ most_recent_first af_createdAt l
    /\ map af_filename recs = wav_names P a
    /\ forall d, created_at af_createdAt d l
                 = created_at af_createdAt d recs.
Proof.
  intros Hdir Hnames.
  destruct (service_getRecordings_listing P a Hdir)
    as (recs & a' & E & _ & HR).
  assert (Hvalid : Forall (valid_date af_createdAt) recs).
  { apply Forall_forall. intros r Hr.
    destruct (Forall2_elem_of_r _ _ _ _ HR Hr) as (name & Hname & now & ->).
    rewrite Forall_forall in Hnames.
    destruct (Hnames name Hname) as (t & -> & Ht).
    rewrite service_decode_saved by exact Ht. discriminate. }
  assert (Hmap : map af_filename recs = wav_names P a).
  { clear E Hvalid Hnames.
    induction HR as [|name r names recs (now & ->) HR IH]; [reflexivity|].
    cbn [map]. rewrite IH. reflexivity. }
  exists (ArraySort.sort af_by_recency recs), a', recs.
  split; [exact E|]. split; [|split; [apply sort_sorted, Hvalid|]].
  - rewrite (sort_Permutation af_createdAt recs), Hmap. reflexivity.
  - split; [exact Hmap|]. intros d. apply sort_stable, Hvalid.
Qed.

Lemma service_listing_own_names_witness :
  exists l a' recs,
    Service.getRecordings Example.phone ScreenExample.two_service_clips
    = (Returned l, a')
    /\ Permutation (map af_filename l)
                   (wav_names Example.phone ScreenExample.two_service_clips)
    /\ most_recent_first af_createdAt l
    /\ map af_filename recs
       = wav_names Example.phone ScreenExample.two_service_clips
    /\ forall d, created_at af_createdAt d l
                 = created_at af_createdAt d recs.
Proof.
  apply (service_listing_own_names Example.phone
           ScreenExample.two_service_clips).
  - vm_compute. set_solver.
  - assert (E : wav_names Example.phone ScreenExample.two_service_clips
                = ["recording_" +:+ Number_toString 1700000001000 +:+ ".wav";
                   "recording_" +:+ Number_toString 1700000006000 +:+ ".wav"])
      by (vm_compute; reflexivity).
    rewrite E. repeat constructor.
    + exists 1700000001000. split; [reflexivity | lia].
    + exists 1700000006000. split; [reflexivity | lia].
Defined.
